(** * Kanalyxer: the analysis pipeline of [kanalyxer/analyxer.py],
    the metadata gateway of [kanalyxer/metamgr.py] and the record type of
    [kanalyxer/propinfo.py], embedded in Rocq.

    Python objects are modelled by explicit state passing: the [Analyxer]
    instance is a [World] (record store, metadata manager, outside world and
    the ordered list of calls made to external collaborators), every method
    is a function from worlds to a result and a new world, and a Python
    exception is the [Raise] result. *)

From Stdlib Require Import ZArith Lia String Ascii List Bool.
From stdpp Require Import base list.
Import ListNotations.

Open Scope string_scope.
Open Scope list_scope.

(** ** Python strings (ASCII model) *)

Module Str.

(** [str.upper] restricted to ASCII letters. *)
Definition upper_ascii (c : ascii) : ascii :=
  let n := nat_of_ascii c in
  if (97 <=? n)%nat && (n <=? 122)%nat then ascii_of_nat (n - 32) else c.

Fixpoint upper (s : string) : string :=
  match s with
  | EmptyString => EmptyString
  | String c s' => String (upper_ascii c) (upper s')
  end.

(** [s.split(sep)] for a one-character separator. *)
Fixpoint split (sep : ascii) (s : string) : list string :=
  match s with
  | EmptyString => [EmptyString]
  | String c s' =>
      if Ascii.eqb c sep then EmptyString :: split sep s'
      else match split sep s' with
           | h :: t => String c h :: t
           | [] => [String c EmptyString]
           end
  end.

(** [l[-1]] on a list of strings ([str.split] never returns []). *)
Definition last (l : list string) : string := List.last l EmptyString.

(** [s.rfind(c)], [None] for -1. *)
Fixpoint rfind (c : ascii) (s : string) : option nat :=
  match s with
  | EmptyString => None
  | String a s' =>
      match rfind c s' with
      | Some i => Some (S i)
      | None => if Ascii.eqb a c then Some 0%nat else None
      end
  end.

(** [s[i:]] *)
Fixpoint drop (i : nat) (s : string) : string :=
  match i, s with
  | O, _ => s
  | S i', String _ s' => drop i' s'
  | S _, EmptyString => EmptyString
  end.

(** [s[:i]] *)
Fixpoint take (i : nat) (s : string) : string :=
  match i, s with
  | S i', String c s' => String c (take i' s')
  | _, _ => EmptyString
  end.

(** [x in t] for a tuple of strings. *)
Definition mem (x : string) (t : list string) : bool :=
  existsb (String.eqb x) t.


End Str.

(** ** pathlib paths (POSIX flavour): the parts below the root *)

Definition Path := list string.

Module PathLib.

Definition slash : ascii := "/"%char.
Definition dot : ascii := "."%char.

(** [p.name]: the last part, [''] for the root. *)
Definition name (p : Path) : string := List.last p EmptyString.

(** [p.parent]: the root is its own parent. *)
Definition parent (p : Path) : Path := removelast p.

(** [p.suffix] (Python 3.9 to 3.13):
    [i = name.rfind('.'); name[i:] if 0 < i < len(name) - 1 else '']. *)
Definition suffix (p : Path) : string :=
  let nm := name p in
  match Str.rfind dot nm with
  | Some i =>
      if (0 <? i)%nat && (i <? String.length nm - 1)%nat
      then Str.drop i nm else EmptyString
  | None => EmptyString
  end.

(** The parts of a path segment: split on ['/'], drop [''] and ['.']. *)
Definition parts (s : string) : list string :=
  List.filter (fun c => negb (String.eqb c EmptyString) && negb (String.eqb c "."))
              (Str.split slash s).

Definition is_absolute (s : string) : bool :=
  match s with String c _ => Ascii.eqb c slash | EmptyString => false end.

(** [p.joinpath(s)]: an absolute segment replaces the path. *)
Definition joinpath (p : Path) (s : string) : Path :=
  if is_absolute s then parts s else p ++ parts s.

(** [str(p)] for an absolute path. *)
Definition str (p : Path) : string :=
  match p with
  | [] => "/"
  | _ => String.concat EmptyString (List.map (fun c => String slash c) p)
  end.

(** [p.relative_to(base)]: the parts of [p] below [base], if any. *)
Fixpoint relative_to (p base : Path) : option (list string) :=
  match base, p with
  | [], _ => Some p
  | b :: base', c :: p' => if String.eqb b c then relative_to p' base' else None
  | _ :: _, [] => None
  end.

(** [str] of a relative path. *)
Definition str_rel (l : list string) : string :=
  match l with
  | [] => "."
  | _ => String.concat "/" l
  end.

(** [p == q] *)
Fixpoint eqb (p q : Path) : bool :=
  match p, q with
  | [], [] => true
  | a :: p', b :: q' => String.eqb a b && eqb p' q'
  | _, _ => false
  end.

Lemma eqb_eq p q : eqb p q = true <-> p = q.
Proof.
  revert q. induction p as [|a p IH]; intros [|b q]; simpl; split;
    try congruence; try reflexivity.
  - intros H. apply andb_true_iff in H as [H1 H2].
    apply String.eqb_eq in H1. apply IH in H2. congruence.
  - intros H. injection H as -> ->. rewrite String.eqb_refl. simpl.
    now apply IH.
Qed.

End PathLib.

(** ** datetime.datetime (naive) *)

Record datetime := mk_datetime {
  year : nat; month : nat; day : nat;
  hour : nat; minute : nat; second : nat; microsecond : nat
}.

Module DateTime.

(** [datetime(y, m, d)] *)
Definition ymd (y m d : nat) : datetime := mk_datetime y m d 0 0 0 0.

Definition is_leap (y : nat) : bool :=
  (y mod 4 =? 0)%nat && (negb (y mod 100 =? 0)%nat || (y mod 400 =? 0)%nat).

Definition days_before_year (y : nat) : Z :=
  let y1 := (Z.of_nat y - 1)%Z in
  (y1 * 365 + y1 / 4 - y1 / 100 + y1 / 400)%Z.

Definition DAYS_BEFORE_MONTH : list Z :=
  [0; 0; 31; 59; 90; 120; 151; 181; 212; 243; 273; 304; 334]%Z.

Definition days_before_month (y m : nat) : Z :=
  (nth m DAYS_BEFORE_MONTH 0 +
   (if (2 <? m)%nat && is_leap y then 1 else 0))%Z.

(** [d.toordinal()] *)
Definition toordinal (d : datetime) : Z :=
  (days_before_year (year d) + days_before_month (year d) (month d)
   + Z.of_nat (day d))%Z.

(** [a - b] as the exact number of microseconds of the [timedelta]. *)
Definition sub_us (a b : datetime) : Z :=
  let secs (d : datetime) :=
    (Z.of_nat (second d) + Z.of_nat (minute d) * 60 + Z.of_nat (hour d) * 3600)%Z in
  ((toordinal a - toordinal b) * 86400000000
   + (secs a - secs b) * 1000000
   + (Z.of_nat (microsecond a) - Z.of_nat (microsecond b)))%Z.

(** [abs((a - b).total_seconds()) > margin_secs] for an integer margin.
    [total_seconds()] is the correctly rounded quotient of the microsecond
    count by 10**6; the comparison is taken on the exact quotient. *)
Definition abs_diff_exceeds (a b : datetime) (margin_secs : Z) : bool :=
  (margin_secs * 1000000 <? Z.abs (sub_us a b))%Z.

(** Comparison is the lexicographic order of the seven fields. *)
Definition fields (d : datetime) : list nat :=
  [year d; month d; day d; hour d; minute d; second d; microsecond d].

Fixpoint lex_leb (a b : list nat) : bool :=
  match a, b with
  | [], _ => true
  | _ :: _, [] => false
  | x :: a', y :: b' =>
      if (x <? y)%nat then true
      else if (y <? x)%nat then false
      else lex_leb a' b'
  end.

(** [a <= b] *)
Definition leb (a b : datetime) : bool := lex_leb (fields a) (fields b).

(** [lo <= d <= hi] *)
Definition between (lo d hi : datetime) : bool := leb lo d && leb d hi.

Definition digit (n : nat) : ascii := ascii_of_nat (48 + n mod 10).

(** ["%0wd" % n] for [n < 10**w]. *)
Fixpoint digits (w n : nat) : string :=
  match w with
  | O => EmptyString
  | S w' => digits w' (n / 10) ++ String (digit n) EmptyString
  end.

(** [str(d)], that is [d.isoformat(sep=' ')]. *)
Definition str (d : datetime) : string :=
  digits 4 (year d) ++ "-" ++ digits 2 (month d) ++ "-" ++ digits 2 (day d)
  ++ " " ++ digits 2 (hour d) ++ ":" ++ digits 2 (minute d) ++ ":"
  ++ digits 2 (second d)
  ++ (if (microsecond d =? 0)%nat then EmptyString
      else "." ++ digits 6 (microsecond d)).

End DateTime.

(** ** Exceptions and results *)

Inductive exn : Type :=
| AssertionError (msg : string)
| ValueError
| AttributeError
| IndexError
| OSError
| EOFError.

Inductive result (A : Type) : Type :=
| Ok (a : A)
| Raise (e : exn).
Arguments Ok {A} a.
Arguments Raise {A} e.

(** ** propinfo.FileInfo *)

Definition YearBounds := (nat * nat)%type.

Record FileInfo := mk_FileInfo {
  kdin : bool;      (* The file has Kjmaro date-in-name *)
  ekdin : bool;     (* The file has Kjmaro edit-date-in-name *)
  prpdin : bool;    (* The file has Proprietary edit-date-in-name *)
  metadte : bool;   (* The file has a valid Metadata original-date *)
  readable : bool;  (* The file metadata is readable *)
  editable : bool;  (* The file metadata is editable *)
  abs_path : Path;  (* Absolute path of the file *)
  (* the instance attribute; [None] while it was never assigned, in which
     case attribute lookup falls back to the class attribute *)
  _metadata_original_date : option datetime
}.

Module FileInfoM.

(** The class attribute [_metadata_original_date = datetime(1, 1, 1)]. *)
Definition class_metadata_original_date : datetime := DateTime.ymd 1 1 1.

(** The dataclass constructor: the seven declared fields. *)
Definition new (k e p m r ed : bool) (path : Path) : FileInfo :=
  mk_FileInfo k e p m r ed path None.

Definition with_kdin (b : bool) (f : FileInfo) : FileInfo :=
  mk_FileInfo b (ekdin f) (prpdin f) (metadte f) (readable f) (editable f)
              (abs_path f) (_metadata_original_date f).
Definition with_ekdin (b : bool) (f : FileInfo) : FileInfo :=
  mk_FileInfo (kdin f) b (prpdin f) (metadte f) (readable f) (editable f)
              (abs_path f) (_metadata_original_date f).
Definition with_prpdin (b : bool) (f : FileInfo) : FileInfo :=
  mk_FileInfo (kdin f) (ekdin f) b (metadte f) (readable f) (editable f)
              (abs_path f) (_metadata_original_date f).
Definition with_metadte (b : bool) (f : FileInfo) : FileInfo :=
  mk_FileInfo (kdin f) (ekdin f) (prpdin f) b (readable f) (editable f)
              (abs_path f) (_metadata_original_date f).
Definition with_abs_path (p : Path) (f : FileInfo) : FileInfo :=
  mk_FileInfo (kdin f) (ekdin f) (prpdin f) (metadte f) (readable f) (editable f)
              p (_metadata_original_date f).
Definition with_date (d : datetime) (f : FileInfo) : FileInfo :=
  mk_FileInfo (kdin f) (ekdin f) (prpdin f) (metadte f) (readable f) (editable f)
              (abs_path f) (Some d).

(** [set_metadate_original]: the updated record, or the failed assertion. *)
Definition set_metadate_original (self : FileInfo) (date2add : datetime)
  : result FileInfo :=
  if metadte self then Ok (with_date date2add self)
  else Raise (AssertionError "self.metadte must be True").

(** [get_metadate_original] *)
Definition get_metadate_original (self : FileInfo) : result datetime :=
  if metadte self
  then Ok (match _metadata_original_date self with
           | Some d => d
           | None => class_metadata_original_date
           end)
  else Raise (AssertionError "self.metadte must be True").

End FileInfoM.

(** ** A state and exception monad *)

Definition M (S A : Type) : Type := S -> result A * S.

Definition ret {S A} (a : A) : M S A := fun s => (Ok a, s).

Definition bind {S A B} (m : M S A) (k : A -> M S B) : M S B :=
  fun s => match m s with
           | (Ok a, s') => k a s'
           | (Raise e, s') => (Raise e, s')
           end.

Definition raise {S A} (e : exn) : M S A := fun s => (Raise e, s).

(** A pure computation that may raise. *)
Definition lift {S A} (r : result A) : M S A := fun s => (r, s).

Definition gets {S A} (f : S -> A) : M S A := fun s => (Ok (f s), s).

Definition modify {S} (f : S -> S) : M S unit := fun s => (Ok tt, f s).

(** [try: m  except <handles>: h] *)
Definition try_except {S A} (m : M S A) (handles : exn -> bool) (h : exn -> M S A)
  : M S A :=
  fun s => match m s with
           | (Raise e, s') => if handles e then h e s' else (Raise e, s')
           | r => r
           end.

Notation "'let*' x ':=' m 'in' k" := (bind m (fun x => k))
  (at level 10, x name, m at level 100, k at level 200).
Notation "'let*' ' p ':=' m 'in' k" := (bind m (fun p => k))
  (at level 10, p strict pattern, m at level 100, k at level 200).
Notation "'do*' m 'in' k" := (bind m (fun _ => k))
  (at level 10, m at level 100, k at level 200).

(** [for x in l: acc = body(acc, x)]; loop-carried locals are [acc]. *)
Fixpoint for_each {S A Acc} (body : Acc -> A -> M S Acc) (l : list A) (acc : Acc)
  : M S Acc :=
  match l with
  | [] => ret acc
  | x :: l' => let* acc' := body acc x in for_each body l' acc'
  end.

Definition is_AssertionError (e : exn) : bool :=
  match e with AssertionError _ => true | _ => false end.
Definition is_ValueError (e : exn) : bool :=
  match e with ValueError => true | _ => false end.

(** ** Calls to the external collaborators, in the order they are made *)

Inductive LoadId : Type := PILLOW | EXIFTOOL.

Inductive level : Type := INFO | WARNING.

Inductive logarg : Type :=
| AInt (n : nat)
| AStr (s : string)
| APath (p : Path)
| AStrs (t : list string)
| AYears (yb : YearBounds).

Inductive event : Type :=
| EvLog (lvl : level) (msg : string) (args : list logarg)
| EvRename (src dst : Path)
| EvCopy2 (src dst : Path)
| EvMakedirs (p : Path)
| EvLoad (backend : LoadId) (file : Path)
| EvSetDate (backend : LoadId) (d : datetime)
| EvSave (backend : LoadId) (overwrite : bool)
| EvInput (prompt : string).

(** ** The external collaborators

    [kjmarotools] (date-in-name codec, folder listing, unique names),
    [kpilexifmanager], [kexiftoolmanager], [os], [shutil] and the terminal
    are not part of this repository: the pipeline is verified for every
    behaviour of theirs.  [OS] is the state of the outside world (the file
    tree, the terminal); [PilObj] and [ExfObj] are the states of a
    [PilExifManager] and of an [ExifToolManager] object. *)

Class Externals : Type := {
  OS : Type;
  PilObj : Type;
  ExfObj : Type;
  (* kjmarotools.conventions, kjmarotools.proprietdin: pure codec *)
  is_file_kdin : Path -> YearBounds -> bool;
  is_file_ekdin : Path -> YearBounds -> bool;
  is_proprietary_din : Path -> YearBounds -> bool;
  get_file_kdin : Path -> YearBounds -> datetime;
  get_file_ekdin : Path -> YearBounds -> datetime;
  file_clean2trkdin : Path -> datetime -> Path;
  file_ekdin2clean : Path -> Path;
  file_ekdin2kdin : Path -> YearBounds -> Path;
  is_folder_kdin : Path -> YearBounds -> bool;
  get_folder_kdin_bounds : Path -> YearBounds -> datetime * datetime;
  date2ekdin : datetime -> string;
  kdin_from_proprietary_din : Path -> Path;
  (* kjmarotools.basics.filetools, ostools *)
  get_folders_tree : Path -> list string -> OS -> list Path;
  get_files_tree : list Path -> OS -> list Path;
  itername : Path -> OS -> Path;
  get_file_modify_date : Path -> OS -> result datetime;
  (* os, shutil, builtins *)
  path_exists : Path -> OS -> bool;
  os_rename : Path -> Path -> OS -> result unit * OS;
  os_makedirs : Path -> OS -> result unit * OS;
  shutil_copy2 : Path -> Path -> OS -> result unit * OS;
  builtin_input : string -> OS -> result string * OS;
  (* datetime.datetime.strptime *)
  strptime : string -> string -> result datetime;
  (* kpilexifmanager.PilExifManager *)
  PIL_READABLE_EXTENSIONS : list string;
  PIL_EDITABLE_EXTENSIONS : list string;
  pil_new : bool -> option Path -> PilObj;
  pil_filepath : PilObj -> option Path;
  pil_load_file : Path -> OS -> PilObj -> result unit * PilObj;
  pil_has_date_original : PilObj -> bool;
  pil_get_date_original : PilObj -> result datetime;
  pil_get_date_original_as_str : PilObj -> result string;
  pil_set_date_original : datetime -> PilObj -> result unit * PilObj;
  pil_save_file : bool -> PilObj -> OS -> result unit * (PilObj * OS);
  (* kexiftoolmanager.ExifToolManager *)
  exf_new : bool -> option Path -> OS -> ExfObj;
  exf_exiftool_detected : ExfObj -> bool;
  exf_readable_extensions : ExfObj -> list string;
  exf_editable_extensions : ExfObj -> list string;
  exf_load_file : Path -> OS -> ExfObj -> result unit * ExfObj;
  exf_has_metadata_date_original : ExfObj -> bool;
  exf_has_metadata_date_original_field : ExfObj -> bool;
  exf_get_date_original : ExfObj -> result datetime;
  exf_get_date_original_as_str : ExfObj -> result string;
  exf_set_date_original : datetime -> ExfObj -> result unit * ExfObj;
  exf_save_file : bool -> ExfObj -> OS -> result unit * (ExfObj * OS)
}.

(** ** The objects of the program *)

Section Program.

Context {E : Externals}.

(** [metamgr.MetaManager] *)
Record MetaManager : Type := mk_MetaManager {
  _filepath : option Path;
  _load_id : LoadId;
  _exftool : ExfObj;
  _pilexif : PilObj;
  _pilonly : bool;
  _year_bounds : YearBounds
}.

(** The constructor arguments of [Analyxer] kept on [self]. *)
Record Config : Type := mk_Config {
  base_path2scan : Path;
  fld_patterns : list string;
  year_bounds : YearBounds;
  meta_logs_path : Path
}.

(** The mutable state reached from an [Analyxer] instance. *)
Record World : Type := mk_World {
  files2analyse : list FileInfo;
  metadata_editor : MetaManager;
  outside : OS;
  events : list event
}.

Definition with_store (l : list FileInfo) (w : World) : World :=
  mk_World l (metadata_editor w) (outside w) (events w).
Definition with_editor (mm : MetaManager) (w : World) : World :=
  mk_World (files2analyse w) mm (outside w) (events w).
Definition with_outside (o : OS) (w : World) : World :=
  mk_World (files2analyse w) (metadata_editor w) o (events w).
Definition with_events (t : list event) (w : World) : World :=
  mk_World (files2analyse w) (metadata_editor w) (outside w) t.

Definition with_filepath (p : option Path) (mm : MetaManager) : MetaManager :=
  mk_MetaManager p (_load_id mm) (_exftool mm) (_pilexif mm) (_pilonly mm)
                 (_year_bounds mm).
Definition with_load_id (i : LoadId) (mm : MetaManager) : MetaManager :=
  mk_MetaManager (_filepath mm) i (_exftool mm) (_pilexif mm) (_pilonly mm)
                 (_year_bounds mm).
Definition with_exftool (o : ExfObj) (mm : MetaManager) : MetaManager :=
  mk_MetaManager (_filepath mm) (_load_id mm) o (_pilexif mm) (_pilonly mm)
                 (_year_bounds mm).
Definition with_pilexif (o : PilObj) (mm : MetaManager) : MetaManager :=
  mk_MetaManager (_filepath mm) (_load_id mm) (_exftool mm) o (_pilonly mm)
                 (_year_bounds mm).

Definition W (A : Type) : Type := M World A.

(** Record one call to a collaborator. *)
Definition emit (e : event) : W unit :=
  modify (fun w => with_events (events w ++ [e]) w).

(** [self.log.info(msg, *args)] and [self.log.warning(msg, *args)] *)
Definition log (lvl : level) (msg : string) (args : list logarg) : W unit :=
  emit (EvLog lvl msg args).

(** A call that reads the outside world. *)
Definition reads {A} (f : OS -> A) : W A := gets (fun w => f (outside w)).

(** A computation that reads the state and may raise. *)
Definition query {A} (f : World -> result A) : W A := fun w => (f w, w).

(** A call that may change the metadata manager and the outside world. *)
Definition effect {A} (f : World -> result A * (MetaManager * OS)) : W A :=
  fun w => let '(r, (mm, o)) := f w in (r, with_outside o (with_editor mm w)).

(** A call that changes the outside world. *)
Definition sys {A} (ev : event) (f : OS -> result A * OS) : W A :=
  do* emit ev in
  effect (fun w => let '(r, o) := f (outside w) in (r, (metadata_editor w, o))).

Definition rename (src dst : Path) : W unit :=
  sys (EvRename src dst) (os_rename src dst).
Definition makedirs (p : Path) : W unit :=
  sys (EvMakedirs p) (os_makedirs p).
Definition copy2 (src dst : Path) : W unit :=
  sys (EvCopy2 src dst) (shutil_copy2 src dst).
Definition input (prompt : string) : W string :=
  sys (EvInput prompt) (builtin_input prompt).

(** [self.files2analyse[ref]]: a [FileInfo] object is identified by its slot
    in the record store, the only place that holds a reference to it. *)
Definition deref (ref : nat) : W FileInfo :=
  query (fun w => match files2analyse w !! ref with
                  | Some fi => Ok fi
                  | None => Raise IndexError
                  end).

(** Mutation of the object in slot [ref] (and [self.files2analyse[ref] = fi]). *)
Definition assign (ref : nat) (fi : FileInfo) : W unit :=
  modify (fun w => with_store (<[ref := fi]> (files2analyse w)) w).

(** [self.files2analyse.append(fi)] *)
Definition append (fi : FileInfo) : W unit :=
  modify (fun w => with_store (files2analyse w ++ [fi]) w).

(** [for idx, fileinfo in enumerate(self.files2analyse)], for a body that
    never changes the length of the list. *)
Definition for_enumerate {Acc} (body : Acc -> nat -> FileInfo -> W Acc) (acc : Acc)
  : W Acc :=
  let* n := gets (fun w => length (files2analyse w)) in
  for_each (fun acc idx => let* fileinfo := deref idx in body acc idx fileinfo)
           (seq 0 n) acc.

(** [str(p.relative_to(base))], [ValueError] when [p] is not below [base]. *)
Definition str_relative_to (p base : Path) : result string :=
  match PathLib.relative_to p base with
  | Some l => Ok (PathLib.str_rel l)
  | None => Raise ValueError
  end.

(** [file.suffix[1:].upper()] *)
Definition suffix_upper (file : Path) : string :=
  Str.upper (Str.drop 1 (PathLib.suffix file)).

End Program.

(** ** metamgr.MetaManager *)

Module MetaManagerM.
Section Methods.

Context {E : Externals}.

(** [MetaManager.__init__] *)
Definition init (log_path : Path) (yb : YearBounds)
           (pilexif_log pilexif_only : bool) (o : OS) : MetaManager :=
  let exftool := exf_new true (Some log_path) o in
  let pilexif := pil_new pilexif_log (Some log_path) in
  let exfdtc := exf_exiftool_detected exftool in
  mk_MetaManager None PILLOW exftool pilexif
                 (if exfdtc then pilexif_only else true) yb.

(** property [readable_extensions] *)
Definition readable_extensions (self : MetaManager) : list string :=
  let read0 := PIL_READABLE_EXTENSIONS in
  let read1 := exf_readable_extensions (_exftool self) in
  read0 ++ (if negb (_pilonly self) then read1 else []).

(** property [editable_extensions] *)
Definition editable_extensions (self : MetaManager) : list string :=
  let edit0 := PIL_EDITABLE_EXTENSIONS in
  let edit1 := exf_editable_extensions (_exftool self) in
  edit0 ++ (if negb (_pilonly self) then edit1 else []).

Definition self_ : W MetaManager := gets metadata_editor.
Definition update (f : MetaManager -> MetaManager) : W unit :=
  modify (fun w => with_editor (f (metadata_editor w)) w).

(** Calls on [self._pilexif] and [self._exftool]. *)
Definition pilexif_load_file (file : Path) : W unit :=
  do* emit (EvLoad PILLOW file) in
  effect (fun w =>
    let mm := metadata_editor w in
    let '(r, o) := pil_load_file file (outside w) (_pilexif mm) in
    (r, (with_pilexif o mm, outside w))).

Definition exftool_load_file (file : Path) : W unit :=
  do* emit (EvLoad EXIFTOOL file) in
  effect (fun w =>
    let mm := metadata_editor w in
    let '(r, o) := exf_load_file file (outside w) (_exftool mm) in
    (r, (with_exftool o mm, outside w))).

Definition pilexif_set_date_original (d : datetime) : W unit :=
  do* emit (EvSetDate PILLOW d) in
  effect (fun w =>
    let mm := metadata_editor w in
    let '(r, o) := pil_set_date_original d (_pilexif mm) in
    (r, (with_pilexif o mm, outside w))).

Definition exftool_set_date_original (d : datetime) : W unit :=
  do* emit (EvSetDate EXIFTOOL d) in
  effect (fun w =>
    let mm := metadata_editor w in
    let '(r, o) := exf_set_date_original d (_exftool mm) in
    (r, (with_exftool o mm, outside w))).

Definition pilexif_save_file (overwrite : bool) : W unit :=
  do* emit (EvSave PILLOW overwrite) in
  effect (fun w =>
    let mm := metadata_editor w in
    let '(r, (o, fs)) := pil_save_file overwrite (_pilexif mm) (outside w) in
    (r, (with_pilexif o mm, fs))).

Definition exftool_save_file (overwrite : bool) : W unit :=
  do* emit (EvSave EXIFTOOL overwrite) in
  effect (fun w =>
    let mm := metadata_editor w in
    let '(r, (o, fs)) := exf_save_file overwrite (_exftool mm) (outside w) in
    (r, (with_exftool o mm, fs))).

(** A temporary manager object, as built inside [file_has_damaged_date]. *)
Inductive tmp_manager : Type :=
| TmpPil (o : PilObj)
| TmpExf (o : ExfObj).

Definition tmp_get_date_original (tmp : tmp_manager) : result datetime :=
  match tmp with
  | TmpPil o => pil_get_date_original o
  | TmpExf o => exf_get_date_original o
  end.

Definition tmp_get_date_original_as_str (tmp : tmp_manager) : result string :=
  match tmp with
  | TmpPil o => pil_get_date_original_as_str o
  | TmpExf o => exf_get_date_original_as_str o
  end.

(** [tmp = ExifToolManager(logger=False); tmp.load_file(file)] *)
Definition tmp_exiftool (file : Path) (o : OS) : result ExfObj :=
  let tmp := exf_new false None o in
  match exf_load_file file o tmp with
  | (Ok _, tmp') => Ok tmp'
  | (Raise e, _) => Raise e
  end.

(** [file_has_damaged_date] on the fields it reads. *)
Definition has_damaged_date (pilonly : bool) (file : Path) (o : OS)
  : result bool :=
  let attempt : result (tmp_manager * bool) :=
    match pil_load_file file o (pil_new false None) with
    | (Ok _, tmp) => Ok (TmpPil tmp, pil_has_date_original tmp)
    | (Raise e, _) =>
        if is_AssertionError e then
          if pilonly then Raise e
          else match tmp_exiftool file o with
               | Ok tmp => Ok (TmpExf tmp, exf_has_metadata_date_original_field tmp)
               | Raise e' => Raise e'
               end
        else Raise e
    end in
  match attempt with
  | Ok (tmp, has_date_kwd) =>
      if has_date_kwd then
        match tmp_get_date_original tmp with
        | Ok d => Ok (year d =? 1)%nat
        | Raise e => Raise e
        end
      else Ok false
  | Raise e => Raise e
  end.

(** [file_has_damaged_date]: return if a possible damaged date is in the
    file metadata. *)
Definition file_has_damaged_date (file : Path) : W bool :=
  query (fun w => has_damaged_date (_pilonly (metadata_editor w)) file (outside w)).

Definition damaged_date (pilonly : bool) (file : Path) (o : OS)
  : result string :=
  match pil_load_file file o (pil_new false None) with
  | (Ok _, tmp) => pil_get_date_original_as_str tmp
  | (Raise e, _) =>
      if is_AssertionError e then
        if pilonly then Raise e
        else match tmp_exiftool file o with
             | Ok tmp => exf_get_date_original_as_str tmp
             | Raise e' => Raise e'
             end
      else Raise e
  end.

(** [get_file_damaged_date]: return the possible damaged date. *)
Definition get_file_damaged_date (file : Path) : W string :=
  query (fun w => damaged_date (_pilonly (metadata_editor w)) file (outside w)).

(** [load_file]: load the file into the most suitable metadata manager. *)
Definition load_file (file : Path) : W unit :=
  let* self := self_ in
  if negb (Str.mem (suffix_upper file) (readable_extensions self))
  then raise (AssertionError "")
  else
    do* update (with_filepath (Some file)) in
    let* fall_through :=
      if Str.mem (suffix_upper file) PIL_READABLE_EXTENSIONS then
        try_except
          (do* update (with_load_id PILLOW) in
           do* pilexif_load_file file in
           ret false)
          is_ValueError
          (fun valerr =>
             let* self := self_ in
             if _pilonly self then raise valerr else ret true)
      else ret true in
    if fall_through then
      do* update (with_load_id EXIFTOOL) in
      exftool_load_file file
    else ret tt.

(** [save_file] *)
Definition save_file (overwrite : bool) : W unit :=
  let* self := self_ in
  match _load_id self with
  | PILLOW => pilexif_save_file overwrite
  | EXIFTOOL => exftool_save_file overwrite
  end.

(** [get_date_original] *)
Definition get_date_original : W datetime :=
  let* self := self_ in
  match _load_id self with
  | PILLOW => lift (pil_get_date_original (_pilexif self))
  | EXIFTOOL => lift (exf_get_date_original (_exftool self))
  end.

(** [has_valid_date_original]: the loaded file has an original date and
    the date is in the configured year bounds. *)
Definition has_valid_date_original : W bool :=
  let* self := self_ in
  let has_date :=
    match _load_id self with
    | PILLOW => pil_has_date_original (_pilexif self)
    | EXIFTOOL => exf_has_metadata_date_original (_exftool self)
    end in
  if has_date then
    let* date_original := get_date_original in
    let '(year0, year1) := _year_bounds self in
    ret ((year0 <=? year date_original)%nat && (year date_original <=? year1)%nat)
  else ret false.

(** [set_date_original] *)
Definition set_date_original (date2add : datetime) : W unit :=
  let* self := self_ in
  match _filepath self with
  | None => raise (AssertionError "No file loaded to set date")
  | Some filepath =>
      if negb (Str.mem (suffix_upper filepath) (editable_extensions self))
      then raise (AssertionError "")
      else
        match _load_id self with
        | EXIFTOOL =>
            do* exftool_set_date_original date2add in
            exftool_save_file true
        | PILLOW =>
            match pil_filepath (_pilexif self) with
            | None => raise AttributeError
            | Some pil_path =>
                if Str.mem (suffix_upper pil_path) PIL_EDITABLE_EXTENSIONS then
                  do* pilexif_set_date_original date2add in
                  pilexif_save_file true
                else
                  do* update (with_load_id EXIFTOOL) in
                  do* exftool_load_file pil_path in
                  do* exftool_set_date_original date2add in
                  exftool_save_file true
            end
        end
  end.

End Methods.
End MetaManagerM.

(** ** propinfo.update_proprietary_din *)

Module PropInfo.
Section Functions.

Context {E : Externals}.

(** Modelled from the spec: [kjmarotools.proprietdin.rename_proprietary_din_file]
    is not under src/.  Section 4.2 and 7 of the specification: the file
    is renamed to its canonical KDIN name; if that name already exists on
    disk the rename is skipped and the path is returned unchanged. *)
Definition rename_proprietary_din_file (file : Path) (yb : YearBounds) : W Path :=
  let target := kdin_from_proprietary_din file in
  let* taken := reads (path_exists target) in
  if taken then ret file
  else do* rename file target in ret target.

(** [update_proprietary_din]: rename the proprietary file with KDIN and
    return the FileInfo updated.  The object is mutated in place. *)
Definition update_proprietary_din (ref : nat) (yb : YearBounds) : W FileInfo :=
  let* fileinfo := deref ref in
  let* new_path := rename_proprietary_din_file (abs_path fileinfo) yb in
  if negb (String.eqb (PathLib.name new_path) (PathLib.name (abs_path fileinfo)))
  then
    let fileinfo' :=
      FileInfoM.with_kdin true
        (FileInfoM.with_prpdin false
           (FileInfoM.with_abs_path new_path fileinfo)) in
    do* assign ref fileinfo' in
    ret fileinfo'
  else ret fileinfo.

(** The default [year_bounds=(1800, 2300)] of [update_proprietary_din]. *)
Definition default_year_bounds : YearBounds := (1800, 2300)%nat.

End Functions.
End PropInfo.

(** ** analyxer.Analyxer *)

Module Analyxer.
Section Methods.

Context {E : Externals}.

Definition TO_REVIEW_PATH : string := "Files to review".

Definition SKIP_EXTENSIONS : list string :=
  ["DMG"; "XSL"; "XML"; "TXT"; "DOC"; "DOCX"; "PPT"; "DB";
   "LNK"; "GIF"; "BUP"; "IFO"; "VOB"; "MP3"; "ODT"; "RAR";
   "PDF"; "RTF"; "DS_STORE"].

Definition phs : string := "[ALX] <NewModulePhase> ".
Definition res : string := "[ALX] <NewResultsBlock> ".

(** [Analyxer.__init__] with the outside world it is created in. *)
Definition init (cfg : Config) (pilexif_log : bool) (o : OS) : World :=
  mk_World []
           (MetaManagerM.init (meta_logs_path cfg) (year_bounds cfg)
                              pilexif_log false o)
           o [].

Variable self : Config.

(** [for fle in paths: self.log.<lvl>(msg, str(fle.relative_to(base)))] *)
Definition log_each_relative (lvl : level) (msg : string) (paths : list Path)
  : W unit :=
  for_each (fun _ fle =>
              let* rel := lift (str_relative_to fle (base_path2scan self)) in
              log lvl msg [AStr rel])
           paths tt.

(** [for fle in paths: self.log.warning(msg, fle.name,
      str(fle.parent.relative_to(base)))] *)
Definition log_each_named (msg : string) (paths : list Path) : W unit :=
  for_each (fun _ fle =>
              let* rel := lift (str_relative_to (PathLib.parent fle)
                                                (base_path2scan self)) in
              log WARNING msg [AStr (PathLib.name fle); AStr rel])
           paths tt.

(** *** Scan pass *)


(** The body of the loop of [load_files2analyse]. *)
Definition scan_file (file : Path) : W unit :=
  if Str.mem (Str.last (Str.split PathLib.dot (Str.upper (PathLib.name file))))
             SKIP_EXTENSIONS
  then ret tt
  else if Str.mem (suffix_upper file) SKIP_EXTENSIONS
  then ret tt
  else
    let suffix := suffix_upper file in
    let* editor := MetaManagerM.self_ in
    let* metadate :=
      if Str.mem suffix (MetaManagerM.readable_extensions editor) then
        do* MetaManagerM.load_file file in
        let* valid_mtadate := MetaManagerM.has_valid_date_original in
        if valid_mtadate then
          let* metadate_orig := MetaManagerM.get_date_original in
          ret (Some metadate_orig)
        else ret None
      else ret None in
    let valid_mtadate :=
      match metadate with Some _ => true | None => false end in
    let* editor := MetaManagerM.self_ in
    let finfo :=
      FileInfoM.new
        (is_file_kdin file (year_bounds self))
        (is_file_ekdin file (year_bounds self))
        (is_proprietary_din file (year_bounds self))
        valid_mtadate
        (Str.mem suffix (MetaManagerM.readable_extensions editor))
        (Str.mem suffix (MetaManagerM.editable_extensions editor))
        file in
    let* finfo :=
      match metadate with
      | Some metadate_orig =>
          lift (FileInfoM.set_metadate_original finfo metadate_orig)
      | None => ret finfo
      end in
    append finfo.

(** [load_files2analyse] *)
Definition load_files2analyse : W unit :=
  do* log INFO (phs ++ "Scanning files in path...") [] in
  let* folders2scan :=
    reads (get_folders_tree (base_path2scan self) (fld_patterns self)) in
  let* files_in_path := reads (get_files_tree folders2scan) in
  do* for_each (fun _ file => scan_file file) files_in_path tt in
  let* n := gets (fun w => length (files2analyse w)) in
  log INFO (res ++ "Files found to be analyzed = %s") [AInt n].

(** *** Proprietary-rename pass *)

(** The body of the loop; [acc] is [(files_renamed, files_existing)]. *)
Definition proprietary_step (acc : list Path * list Path) (idx : nat)
           (fileinfo : FileInfo) : W (list Path * list Path) :=
  let '(files_renamed, files_existing) := acc in
  if prpdin fileinfo then
    let original_path := abs_path fileinfo in
    let* updated_info :=
      PropInfo.update_proprietary_din idx PropInfo.default_year_bounds in
    if PathLib.eqb (abs_path updated_info) original_path
    then ret (files_renamed, files_existing ++ [original_path])
    else
      do* assign idx updated_info in
      ret (files_renamed ++ [abs_path updated_info], files_existing)
  else ret acc.

Definition proprietary_loop : W (list Path * list Path) :=
  for_enumerate proprietary_step ([], []).

Definition proprietary_report (acc : list Path * list Path) : W (list Path) :=
  let '(files_renamed, files_existing) := acc in
  do* match files_renamed with
      | [] => ret tt
      | _ =>
          do* log INFO (res ++ "Files with proprietary date-in-name "
                            ++ "renamed = %s")
                  [AInt (length files_renamed)] in
          log_each_relative INFO "[ALX] [PropRenamed]: %s" files_renamed
      end in
  do* match files_existing with
      | [] => ret tt
      | _ =>
          do* log WARNING (res ++ "Files not renamed because the renamed "
                               ++ "file already exists = %s")
                  [AInt (length files_existing)] in
          for_each (fun _ fle =>
                      let* rel := lift (str_relative_to fle (base_path2scan self)) in
                      log WARNING "[ALX] [Duplicated] (%s): %s"
                          [AStr (PathLib.name (kdin_from_proprietary_din fle));
                           AStr rel])
                   files_existing tt
      end in
  ret files_existing.

(** [rename_files_with_proprietary_convention] *)
Definition rename_files_with_proprietary_convention : W (list Path) :=
  do* log INFO (phs ++ "Scanning proprietary date-in-name files to"
                    ++ " rename...") [] in
  let* acc := proprietary_loop in
  proprietary_report acc.

(** *** Date-integrity pass *)

(** The body of the loop; [acc] is [(files_damaged, files_date2review)]. *)
Definition integrity_step (acc : list Path * list Path) (idx : nat)
           (fileinfo : FileInfo) : W (list Path * list Path) :=
  let '(files_damaged, files_date2review) := acc in
  if kdin fileinfo || ekdin fileinfo then ret acc
  else if metadte fileinfo || prpdin fileinfo then ret acc
  else
    (* Try to extract damaged original dates from the metadata *)
    let* damaged :=
      if readable fileinfo then
        let abs_pth := abs_path fileinfo in
        let* is_damaged := MetaManagerM.file_has_damaged_date abs_pth in
        if is_damaged then
          let* dtei := MetaManagerM.get_file_damaged_date abs_pth in
          ret (Some (PathLib.joinpath abs_pth dtei))
        else ret None
      else ret None in
    match damaged with
    | Some dmg2path => ret (files_damaged ++ [dmg2path], files_date2review)
    | None =>
        (* Dates in risk -> Write TRKDIN (KDIN with Date-To-Review) *)
        let* mdf_date :=
          query (fun w => get_file_modify_date (abs_path fileinfo) (outside w)) in
        let new_name := file_clean2trkdin (abs_path fileinfo) mdf_date in
        do* rename (abs_path fileinfo) new_name in
        do* assign idx (FileInfoM.with_kdin true
                          (FileInfoM.with_abs_path new_name fileinfo)) in
        ret (files_damaged, files_date2review ++ [new_name])
    end.

Definition integrity_loop : W (list Path * list Path) :=
  for_enumerate integrity_step ([], []).

Definition integrity_report (acc : list Path * list Path) : W (list Path) :=
  let '(files_damaged, files_date2review) := acc in
  do* match files_damaged with
      | [] => ret tt
      | _ =>
          do* log WARNING (res ++ "Files with damaged metadata-date found = %s")
                  [AInt (length files_damaged)] in
          log_each_named "[ALX] [DateDamaged] (%s): %s" files_damaged
      end in
  do* match files_date2review with
      | [] => ret tt
      | _ =>
          do* log WARNING (res ++ "Files with dates-to-review renamed and found"
                               ++ " = %s")
                  [AInt (length files_date2review)] in
          log_each_relative WARNING "[ALX] [Date2Review]: %s" files_date2review
      end in
  let clean_files_damaged := List.map PathLib.parent files_damaged in
  ret (clean_files_damaged ++ files_date2review).

(** [analyse_files_date_integrity] *)
Definition analyse_files_date_integrity : W (list Path) :=
  do* log INFO (phs ++ "Checking file-dates integrity...") [] in
  let* acc := integrity_loop in
  integrity_report acc.

(** *** Edit-date migration pass *)

(** The body of the loop; [acc] is [(meta_edited, files_din_renamed)]. *)
Definition edition_step (fld4f2rev_originals fld4f2rev_edited : Path)
           (acc : list Path * list Path) (idx : nat) (fileinfo : FileInfo)
  : W (list Path * list Path) :=
  let '(meta_edited, files_din_renamed) := acc in
  if ekdin fileinfo then
    if editable fileinfo then
      (* Create the folders if editable file is finally found *)
      do* makedirs fld4f2rev_originals in
      do* makedirs fld4f2rev_edited in
      (* Move a copy of the file before the edition *)
      let nme := PathLib.joinpath fld4f2rev_originals
                                  (PathLib.name (abs_path fileinfo)) in
      do* copy2 (abs_path fileinfo) nme in
      (* Edit the metadata exif *)
      let date2add := get_file_ekdin (abs_path fileinfo) (year_bounds self) in
      do* MetaManagerM.load_file (abs_path fileinfo) in
      do* MetaManagerM.set_date_original date2add in
      do* MetaManagerM.save_file true in
      (* Move a copy of the new file *)
      let nme := PathLib.joinpath fld4f2rev_edited
                                  (PathLib.name (abs_path fileinfo)) in
      do* copy2 (abs_path fileinfo) nme in
      (* Rename the file edited *)
      let* new_rnme := reads (itername (file_ekdin2clean (abs_path fileinfo))) in
      do* rename (abs_path fileinfo) new_rnme in
      let fileinfo1 :=
        FileInfoM.with_abs_path new_rnme
          (FileInfoM.with_ekdin false (FileInfoM.with_metadte true fileinfo)) in
      do* assign idx fileinfo1 in
      let* fileinfo2 := lift (FileInfoM.set_metadate_original fileinfo1 date2add) in
      do* assign idx fileinfo2 in
      ret (meta_edited ++ [new_rnme], files_din_renamed)
    else
      let* new_rnme :=
        reads (itername (file_ekdin2kdin (abs_path fileinfo) (year_bounds self))) in
      do* rename (abs_path fileinfo) new_rnme in
      do* assign idx (FileInfoM.with_kdin true
                        (FileInfoM.with_ekdin false
                           (FileInfoM.with_abs_path new_rnme fileinfo))) in
      ret (meta_edited, files_din_renamed ++ [new_rnme])
  else ret acc.

Definition review_folder : W Path :=
  reads (itername (PathLib.joinpath (meta_logs_path self) TO_REVIEW_PATH)).

Definition edition_loop (folder2review : Path) : W (list Path * list Path) :=
  let fld4f2rev_originals := PathLib.joinpath folder2review "originals" in
  let fld4f2rev_edited := PathLib.joinpath folder2review "edited" in
  for_enumerate (edition_step fld4f2rev_originals fld4f2rev_edited) ([], []).

Definition edition_report (folder2review : Path) (acc : list Path * list Path)
  : W (list Path) :=
  let fld4f2rev_originals := PathLib.joinpath folder2review "originals" in
  let fld4f2rev_edited := PathLib.joinpath folder2review "edited" in
  let '(meta_edited, files_din_renamed) := acc in
  do* match files_din_renamed with
      | [] => ret tt
      | _ =>
          do* log INFO (res ++ "Files with edition date-in-name renamed = %s")
                  [AInt (length files_din_renamed)] in
          log_each_relative INFO "[ALX] [EdinRenamed]: %s" files_din_renamed
      end in
  do* match meta_edited with
      | [] => ret tt
      | _ =>
          do* log WARNING (res ++ "Files with metadata date field edited = %s")
                  [AInt (length meta_edited)] in
          do* log WARNING
                  ("[ALX] For reviewing this metadata edition see folders: "
                   ++ "<" ++ PathLib.name fld4f2rev_originals ++ "> and "
                   ++ "<" ++ PathLib.name fld4f2rev_edited ++ "> allocated in "
                   ++ "<" ++ PathLib.name folder2review ++ "> folder.") [] in
          log_each_relative INFO "[ALX] [Edin2Metadt]: %s" meta_edited
      end in
  ret (files_din_renamed ++ meta_edited).

(** [write_date_to_files_with_edition_kdin] *)
Definition write_date_to_files_with_edition_kdin : W (list Path) :=
  do* log INFO (phs ++ "Scanning edition-date-in-name files to store"
                    ++ "...") [] in
  let* folder2review := review_folder in
  let* acc := edition_loop folder2review in
  edition_report folder2review acc.

(** *** Consistency-check pass *)

(** The body of the loop; [acc] is [inconsistent]. *)
Definition consistency_step (margin_secs : Z) (inconsistent : list Path)
           (fileinfo : FileInfo) : W (list Path) :=
  if kdin fileinfo && metadte fileinfo then
    let* meta_date := lift (FileInfoM.get_metadate_original fileinfo) in
    let kdin_date := get_file_kdin (abs_path fileinfo) (year_bounds self) in
    if DateTime.abs_diff_exceeds meta_date kdin_date margin_secs
    then ret (inconsistent
                ++ [PathLib.joinpath (abs_path fileinfo) (DateTime.str meta_date)])
    else ret inconsistent
  else ret inconsistent.

Definition consistency_loop (margin_secs : Z) : W (list Path) :=
  let* store := gets files2analyse in
  for_each (consistency_step margin_secs) store [].

Definition consistency_report (inconsistent : list Path) : W (list Path) :=
  do* match inconsistent with
      | [] => ret tt
      | _ =>
          do* log WARNING (res ++ "Files with inconsistent Metadates and KDIN "
                               ++ "detected = %s >>> (Metadata dates are given in the "
                               ++ "following list)")
                  [AInt (length inconsistent)] in
          for_each (fun _ fle =>
                      let dtt_fmt := "%Y-%m-%d %H:%M:%S" in
                      let* dttm :=
                        lift (strptime (Str.take 19 (PathLib.name fle)) dtt_fmt) in
                      let* rel := lift (str_relative_to (PathLib.parent fle)
                                                        (base_path2scan self)) in
                      log WARNING "[ALX] [Inconsistent] (%s): %s"
                          [AStr (date2ekdin dttm); AStr rel])
                   inconsistent tt
      end in
  ret (List.map PathLib.parent inconsistent).

(** [analyse_files_date_consistency] *)
Definition analyse_files_date_consistency (margin_secs : Z) : W (list Path) :=
  do* log INFO (phs ++ "Scanning file Metadates and KDIN consistency"
                    ++ "...") [] in
  let* inconsistent := consistency_loop margin_secs in
  consistency_report inconsistent.

(** *** Folder-bounds pass *)

(** [fld_bounds[0] <= d <= fld_bounds[1]] *)
Definition in_bounds (fld_bounds : datetime * datetime) (d : datetime) : bool :=
  DateTime.between (fst fld_bounds) d (snd fld_bounds).

(** The body of the loop; [acc] is [discrepances]. *)
Definition bounds_step (discrepances : list Path) (fileinfo : FileInfo)
  : W (list Path) :=
  let folder_path := PathLib.parent (abs_path fileinfo) in
  if is_folder_kdin folder_path (year_bounds self) then
    let fld_bounds := get_folder_kdin_bounds folder_path (year_bounds self) in
    if kdin fileinfo then
      let kdn := get_file_kdin (abs_path fileinfo) (year_bounds self) in
      if in_bounds fld_bounds kdn then ret discrepances
      else ret (discrepances
                  ++ [PathLib.joinpath (abs_path fileinfo) (DateTime.str kdn)])
    else if ekdin fileinfo then
      let edn := get_file_ekdin (abs_path fileinfo) (year_bounds self) in
      if in_bounds fld_bounds edn then ret discrepances
      else ret (discrepances
                  ++ [PathLib.joinpath (abs_path fileinfo) (DateTime.str edn)])
    else if readable fileinfo && metadte fileinfo then
      let* dto := lift (FileInfoM.get_metadate_original fileinfo) in
      if in_bounds fld_bounds dto then ret discrepances
      else ret (discrepances
                  ++ [PathLib.joinpath (abs_path fileinfo) (DateTime.str dto)])
    else ret discrepances
  else ret discrepances.

Definition bounds_loop : W (list Path) :=
  let* store := gets files2analyse in
  for_each bounds_step store [].

Definition bounds_report (discrepances : list Path) : W (list Path) :=
  do* match discrepances with
      | [] => ret tt
      | _ =>
          do* log WARNING (res ++ "Files with dates out of folder-bounds "
                               ++ "detected = %s")
                  [AInt (length discrepances)] in
          log_each_named "[ALX] [OutOfBounds] (%s): %s" discrepances
      end in
  ret (List.map PathLib.parent discrepances).

(** [detect_files_out_of_folder_date_bounds] *)
Definition detect_files_out_of_folder_date_bounds : W (list Path) :=
  do* log INFO (phs ++ "Checking file-dates out of folder-bounds...") [] in
  let* discrepances := bounds_loop in
  bounds_report discrepances.

(** *** Driver *)

Definition newline : string := String (ascii_of_nat 10) EmptyString.
Definition tab : string := String (ascii_of_nat 9) EmptyString.

(** [run]: execute Analyxer with the defined configuration. *)
Definition run (margin_secs : Z) (embedded : bool) : W bool :=
  do* log INFO "[ALX] <INIT> Analyxer initialized ..." [] in
  do* log INFO "[ALX] <CNFG> base_path2scan = {}" [APath (base_path2scan self)] in
  do* log INFO "[ALX] <CNFG> fld_patterns = {}" [AStrs (fld_patterns self)] in
  do* log INFO "[ALX] <CNFG> skip_extensions = {}" [AStrs SKIP_EXTENSIONS] in
  do* log INFO ("[ALX] <CNFG> Review_folder = [" ++ TO_REVIEW_PATH ++ "]") [] in
  do* log INFO "[ALX] <CNFG> year_bounds = {}" [AYears (year_bounds self)] in
  let tgs0 := "[PropRenamed] [Duplicated] [DateDamaged] [Date2Review]" in
  let tgs1 := "[EdinRenamed] [Edin2Metadt] [Inconsistent] [OutOfBounds]" in
  do* log INFO ("[ALX] <TAGS> " ++ tgs0) [] in
  do* log INFO ("[ALX] <TAGS> " ++ tgs1) [] in

  do* load_files2analyse in
  let* _ := rename_files_with_proprietary_convention in
  let* warns0 := analyse_files_date_integrity in
  let* warns1 := write_date_to_files_with_edition_kdin in
  let* warns2 := analyse_files_date_consistency margin_secs in
  let* warns3 := detect_files_out_of_folder_date_bounds in

  do* (if negb embedded then
         let* _ := input (newline ++ "PROCESS FINALIZED" ++ newline ++ tab ++ tab
                                  ++ "PRESS ENTER TO RESUME") in
         ret tt
       else ret tt) in
  ret (negb (length warns0 + length warns1 + length warns2 + length warns3 =? 0)%nat).

End Methods.
End Analyxer.

(** ** A concrete instance of the collaborators

    A small file tree with one date tag per file, a Pillow-like backend
    that reads [JPG] and [PNG] and writes [JPG], no ExifTool, and a codec
    in which [KDIN YYYYMMDD-hhmmss name], [EKDIN YYYYMMDD-hhmmss name] and
    [IMG_YYYYMMDD-hhmmss name] are the three date-in-name conventions and a
    folder [Y<year>] is bounded by the first and the last day of the year.
    It is used to run the pipeline on examples. *)

Module Demo.

Record file : Type := mk_file { mtime : datetime; tag : option datetime }.

Definition tree : Type := list (Path * file).

Fixpoint lookup (p : Path) (t : tree) : option file :=
  match t with
  | [] => None
  | (q, f) :: t' => if PathLib.eqb p q then Some f else lookup p t'
  end.

Definition remove (p : Path) (t : tree) : tree :=
  List.filter (fun e => negb (PathLib.eqb p (fst e))) t.

Definition exists_ (p : Path) (t : tree) : bool :=
  match lookup p t with Some _ => true | None => false end.

Definition rename (src dst : Path) (t : tree) : result unit * tree :=
  match lookup src t with
  | Some _ =>
      (Ok tt, List.map (fun e => if PathLib.eqb src (fst e) then (dst, snd e) else e)
                       (remove dst t))
  | None => (Raise OSError, t)
  end.

Definition copy2 (src dst : Path) (t : tree) : result unit * tree :=
  match lookup src t with
  | Some f => (Ok tt, remove dst t ++ [(dst, f)])
  | None => (Raise OSError, t)
  end.

Definition sibling (p : Path) (nm : string) : Path := PathLib.parent p ++ [nm].

Definition unique (p : Path) (t : tree) : Path :=
  if exists_ p t then sibling p (PathLib.name p ++ "_1")%string else p.

Definition children (folders : list Path) (t : tree) : list Path :=
  List.filter (fun p => existsb (PathLib.eqb (PathLib.parent p)) folders)
              (List.map fst t).

Definition modified (p : Path) (t : tree) : result datetime :=
  match lookup p t with
  | Some f => Ok (mtime f)
  | None => Raise OSError
  end.

(** Decimal fields *)
Fixpoint number (acc : nat) (s : string) : nat :=
  match s with
  | EmptyString => acc
  | String c s' => number (10 * acc + (nat_of_ascii c - 48)) s'
  end.

Definition field (from len : nat) (s : string) : nat :=
  number 0 (Str.take len (Str.drop from s)).

(** [YYYYMMDD-hhmmss] *)
Definition decode (s : string) : datetime :=
  mk_datetime (field 0 4 s) (field 4 2 s) (field 6 2 s)
              (field 9 2 s) (field 11 2 s) (field 13 2 s) 0.

Definition encode (d : datetime) : string :=
  (DateTime.digits 4 (year d) ++ DateTime.digits 2 (month d)
   ++ DateTime.digits 2 (day d) ++ "-" ++ DateTime.digits 2 (hour d)
   ++ DateTime.digits 2 (minute d) ++ DateTime.digits 2 (second d))%string.

(** [YYYY-MM-DD hh:mm:ss] *)
Definition parse (s fmt : string) : result datetime :=
  if (String.length s <? 19)%nat then Raise ValueError
  else Ok (mk_datetime (field 0 4 s) (field 5 2 s) (field 8 2 s)
                       (field 11 2 s) (field 14 2 s) (field 17 2 s) 0).

Definition year_folder (folder : Path) : datetime * datetime :=
  let y := field 1 4 (PathLib.name folder) in
  (DateTime.ymd y 1 1, DateTime.ymd y 12 31).

(** The Pillow-like backend: the loaded path and its date tag. *)
Definition pil : Type := option (Path * option datetime).

Definition pil_load (p : Path) (t : tree) (o : pil) : result unit * pil :=
  match lookup p t with
  | Some f => (Ok tt, Some (p, tag f))
  | None => (Raise ValueError, o)
  end.

Definition pil_date (o : pil) : result datetime :=
  match o with
  | Some (_, Some d) => Ok d
  | _ => Raise ValueError
  end.

Definition pil_date_str (o : pil) : result string :=
  match pil_date o with
  | Ok d => Ok (DateTime.str d)
  | Raise e => Raise e
  end.

Definition pil_set (d : datetime) (o : pil) : result unit * pil :=
  match o with
  | Some (p, _) => (Ok tt, Some (p, Some d))
  | None => (Raise (AssertionError ""), o)
  end.

Definition pil_save (overwrite : bool) (o : pil) (t : tree)
  : result unit * (pil * tree) :=
  match o with
  | Some (p, tg) =>
      match lookup p t with
      | Some f =>
          (Ok tt, (o, List.map (fun e => if PathLib.eqb p (fst e)
                                          then (fst e, mk_file (mtime f) tg)
                                          else e) t))
      | None => (Raise OSError, (o, t))
      end
  | None => (Raise (AssertionError ""), (o, t))
  end.

Definition collaborators : Externals := {|
  OS := tree;
  PilObj := pil;
  ExfObj := unit;
  is_file_kdin := fun p _ => String.prefix "KDIN " (PathLib.name p);
  is_file_ekdin := fun p _ => String.prefix "EKDIN " (PathLib.name p);
  is_proprietary_din := fun p _ => String.prefix "IMG_" (PathLib.name p);
  get_file_kdin := fun p _ => decode (Str.drop 5 (PathLib.name p));
  get_file_ekdin := fun p _ => decode (Str.drop 6 (PathLib.name p));
  file_clean2trkdin := fun p d =>
    sibling p ("KDIN " ++ encode d ++ " TR " ++ PathLib.name p)%string;
  file_ekdin2clean := fun p => sibling p (Str.drop 22 (PathLib.name p));
  file_ekdin2kdin := fun p _ => sibling p (Str.drop 1 (PathLib.name p));
  is_folder_kdin := fun p _ => String.prefix "Y" (PathLib.name p);
  get_folder_kdin_bounds := fun p _ => year_folder p;
  date2ekdin := fun d => ("EKDIN " ++ encode d)%string;
  kdin_from_proprietary_din := fun p =>
    sibling p ("KDIN " ++ Str.drop 4 (PathLib.name p))%string;
  get_folders_tree := fun base _ _ => [base];
  get_files_tree := children;
  itername := unique;
  get_file_modify_date := modified;
  path_exists := exists_;
  os_rename := rename;
  os_makedirs := fun _ t => (Ok tt, t);
  shutil_copy2 := copy2;
  builtin_input := fun _ t => (Ok EmptyString, t);
  strptime := parse;
  PIL_READABLE_EXTENSIONS := ["JPG"; "PNG"];
  PIL_EDITABLE_EXTENSIONS := ["JPG"];
  pil_new := fun _ _ => None;
  pil_filepath := fun o => match o with Some (p, _) => Some p | None => None end;
  pil_load_file := pil_load;
  pil_has_date_original := fun o =>
    match o with Some (_, Some _) => true | _ => false end;
  pil_get_date_original := pil_date;
  pil_get_date_original_as_str := pil_date_str;
  pil_set_date_original := pil_set;
  pil_save_file := pil_save;
  exf_new := fun _ _ _ => tt;
  exf_exiftool_detected := fun _ => false;
  exf_readable_extensions := fun _ => [];
  exf_editable_extensions := fun _ => [];
  exf_load_file := fun _ _ o => (Raise OSError, o);
  exf_has_metadata_date_original := fun _ => false;
  exf_has_metadata_date_original_field := fun _ => false;
  exf_get_date_original := fun _ => Raise OSError;
  exf_get_date_original_as_str := fun _ => Raise OSError;
  exf_set_date_original := fun _ o => (Raise OSError, o);
  exf_save_file := fun _ o t => (Raise OSError, (o, t))
|}.

Definition config : Config :=
  mk_Config ["home"; "photos"] [] (1800, 2300)%nat ["home"; "logs"].

Definition at_ (y m d h mi s : nat) : datetime := mk_datetime y m d h mi s 0.

(** A world freshly created over a file tree. *)
Definition world (t : tree) : World (E := collaborators) :=
  Analyxer.init (E := collaborators) config true t.

Definition photo (nm : string) : Path := ["home"; "photos"; nm].

Definition noon : datetime := at_ 2022 5 5 12 0 0.
Definition untagged : file := mk_file noon None.
Definition tagged (d : datetime) : file := mk_file noon (Some d).

(** The record store after the scan pass on a tree. *)
Definition scanned (cfg : Config) (t : tree) : World (E := collaborators) :=
  snd (Analyxer.load_files2analyse (E := collaborators) cfg
         (Analyxer.init (E := collaborators) cfg true t)).

(** Names with and without an extension. *)
Definition skip_tree : tree :=
  [(photo "txt", untagged); (photo "a.PDF", untagged); (photo "b.jpg", untagged)].

(** Two files named for 10:00:00, tagged 120 and 30 seconds later. *)
Definition drift_tree : tree :=
  [(photo "KDIN 20200101-100000 a.jpg", tagged (at_ 2020 1 1 10 2 0));
   (photo "KDIN 20200101-100000 b.jpg", tagged (at_ 2020 1 1 10 0 30))].

(** A folder bounded by the year 2019. *)
Definition year_config : Config :=
  mk_Config ["home"; "Y2019"] [] (1800, 2300)%nat ["home"; "logs"].

Definition year_tree : tree :=
  [(["home"; "Y2019"; "KDIN 20200601-000000 a.jpg"], untagged);
   (["home"; "Y2019"; "KDIN 20190601-000000 b.jpg"], untagged);
   (["home"; "Y2019"; "c.png"], untagged)].

(** A vendor name whose canonical name is taken, and one whose is free. *)
Definition vendor_tree : tree :=
  [(photo "IMG_20200101-100000 d.jpg", untagged);
   (photo "KDIN 20200101-100000 d.jpg", untagged);
   (photo "IMG_20210101-100000 e.jpg", untagged)].

Definition taken_tree : tree :=
  [(photo "IMG_20200101-100000 d.jpg", untagged);
   (photo "KDIN 20200101-100000 d.jpg", untagged)].

(** A file without any date and a file whose date tag has year 1. *)
Definition review_tree : tree :=
  [(photo "plain.jpg", untagged); (photo "dmg.jpg", tagged (at_ 1 1 1 0 0 0))].

(** An edit date on an editable and on a read-only file. *)
Definition edit_tree : tree :=
  [(photo "EKDIN 20210304-000000 b.jpg", untagged);
   (photo "EKDIN 20210304-000000 c.png", untagged)].

End Demo.

(** * Reasoning about computations *)

#[global] Arguments Str.mem : simpl never.
#[global] Arguments Str.upper : simpl never.
#[global] Arguments PathLib.joinpath : simpl never.
#[global] Arguments PathLib.suffix : simpl never.
#[global] Arguments DateTime.str : simpl never.
#[global] Arguments DateTime.digit : simpl never.

Section Monad.

Context {S : Type}.

Lemma bind_ok {A B} (m : M S A) (k : A -> M S B) s b s' :
  bind m k s = (Ok b, s') ->
  exists a s1, m s = (Ok a, s1) /\ k a s1 = (Ok b, s').
Proof.
  unfold bind. destruct (m s) as [[a|e] s1]; intros H.
  - now exists a, s1.
  - discriminate.
Qed.

Lemma bind_step {A B} (m : M S A) (k : A -> M S B) s a s1 :
  m s = (Ok a, s1) -> bind m k s = k a s1.
Proof. unfold bind. now intros ->. Qed.

Lemma bind_raise {A B} (m : M S A) (k : A -> M S B) s e s1 :
  m s = (Raise e, s1) -> bind m k s = (Raise e, s1).
Proof. unfold bind. now intros ->. Qed.

(** [I] holds after [m], whatever its outcome, when it holds before. *)
Definition stable (I : S -> Prop) {A} (m : M S A) : Prop :=
  forall s, I s -> I (snd (m s)).

Lemma stable_ret I {A} (a : A) : stable I (ret a).
Proof. now intros s. Qed.

Lemma stable_raise I {A} e : stable I (raise (A := A) e).
Proof. now intros s. Qed.

Lemma stable_lift I {A} (r : result A) : stable I (lift r).
Proof. now intros s. Qed.

Lemma stable_gets I {A} (f : S -> A) : stable I (gets f).
Proof. now intros s. Qed.

Lemma stable_bind I {A B} (m : M S A) (k : A -> M S B) :
  stable I m -> (forall a, stable I (k a)) -> stable I (bind m k).
Proof.
  intros Hm Hk s Hs. unfold bind. specialize (Hm s Hs).
  destruct (m s) as [[a|e] s1]; simpl in *; [now apply Hk | assumption].
Qed.

Lemma stable_try_except I {A} (m : M S A) handles h :
  stable I m -> (forall e, stable I (h e)) -> stable I (try_except m handles h).
Proof.
  intros Hm Hh s Hs. unfold try_except. specialize (Hm s Hs).
  destruct (m s) as [[a|e] s1]; simpl in *; [assumption |].
  destruct (handles e); [now apply Hh | assumption].
Qed.

Lemma stable_for_each I {A Acc} (body : Acc -> A -> M S Acc) l acc :
  (forall acc x, stable I (body acc x)) -> stable I (for_each body l acc).
Proof.
  intros Hb. revert acc. induction l as [|x l IH]; intros acc; simpl.
  - apply stable_ret.
  - apply stable_bind; [apply Hb | intros acc'; apply IH].
Qed.

Lemma stable_run I {A} (m : M S A) s r s' :
  stable I m -> I s -> m s = (r, s') -> I s'.
Proof. intros Hm Hs Hr. specialize (Hm s Hs). now rewrite Hr in Hm. Qed.

(** Loop invariant for the runs that return: [I done acc s] after the
    elements [done] have been processed. *)
Lemma for_each_ok {A Acc} (body : Acc -> A -> M S Acc)
      (I : list A -> Acc -> S -> Prop) l acc s acc' s' :
  I [] acc s ->
  (forall done x rest acc0 s0 acc1 s1,
      l = done ++ x :: rest ->
      I done acc0 s0 -> body acc0 x s0 = (Ok acc1, s1) ->
      I (done ++ [x]) acc1 s1) ->
  for_each body l acc s = (Ok acc', s') ->
  I l acc' s'.
Proof.
  intros H0 Hstep.
  assert (G : forall rest done acc0 s0,
             l = done ++ rest ->
             I done acc0 s0 ->
             for_each body rest acc0 s0 = (Ok acc', s') ->
             I l acc' s').
  { induction rest as [|x rest IH]; intros done acc0 s0 Hl HI Hrun; simpl in Hrun.
    - injection Hrun as -> ->. rewrite app_nil_r in Hl. now subst.
    - apply bind_ok in Hrun as (acc1 & s1 & Hx & Hrest).
      apply (IH (done ++ [x]) acc1 s1).
      + now rewrite <- app_assoc.
      + eapply Hstep; eassumption.
      + exact Hrest. }
  intros Hrun. exact (G l [] acc s eq_refl H0 Hrun).
Qed.

(** A property of the value a computation returns. *)
Definition returns {A} (Q : A -> Prop) (m : M S A) : Prop :=
  forall s a s', m s = (Ok a, s') -> Q a.

Lemma returns_ret {A} (Q : A -> Prop) a : Q a -> returns Q (ret a).
Proof. intros H s a' s' [= <- _]. exact H. Qed.

Lemma returns_raise {A} (Q : A -> Prop) e : returns Q (raise e).
Proof. intros s a s' [=]. Qed.

Lemma returns_bind {A B} (Q : B -> Prop) (m : M S A) (k : A -> M S B) :
  (forall a, returns Q (k a)) -> returns Q (bind m k).
Proof.
  intros Hk s b s' H. apply bind_ok in H as (a & s1 & _ & H).
  exact (Hk a s1 b s' H).
Qed.

End Monad.

(** Symbolic execution of one run, in a hypothesis. *)
Ltac run_ok H :=
  repeat match type of H with
         | bind _ _ _ = (Ok _, _) =>
             let a := fresh "a" in
             let s1 := fresh "w" in
             let H1 := fresh "Hrun" in
             apply bind_ok in H as (a & s1 & H1 & H)
         end.

Ltac head_of t :=
  lazymatch t with
  | ?f _ => head_of f
  | _ => t
  end.

Section Worlds.

Context {E : Externals}.

(** An invariant that does not look at the gateway nor at the outside
    world. *)
Definition blind (I : World -> Prop) : Prop :=
  forall w mm o, I w -> I (with_outside o (with_editor mm w)).

Lemma stable_query I {A} (f : World -> result A) : stable I (query f).
Proof. now intros w. Qed.

Lemma stable_effect I {A} (f : World -> result A * (MetaManager * OS)) :
  blind I -> stable I (effect f).
Proof.
  intros HI w Hw. unfold effect. destruct (f w) as [r [mm o]]. simpl.
  now apply HI.
Qed.

Lemma stable_update I f : blind I -> stable I (MetaManagerM.update f).
Proof.
  intros HI w Hw. unfold MetaManagerM.update, modify. simpl.
  exact (HI w (f (metadata_editor w)) (outside w) Hw).
Qed.

(** What a computation adds to the list of calls satisfies [P]. *)
Definition added (P : event -> Prop) (w0 w : World) : Prop :=
  exists t, events w = events w0 ++ t /\ Forall P t.

Lemma added_refl P w : added P w w.
Proof. exists []. split; [now rewrite app_nil_r | constructor]. Qed.

Lemma added_blind P w0 : blind (added P w0).
Proof. intros w mm o H. exact H. Qed.

Lemma added_emit P w0 e : P e -> stable (added P w0) (emit e).
Proof.
  intros He w (t & Ht & HP). exists (t ++ [e]). simpl. split.
  - rewrite Ht. now rewrite <- app_assoc.
  - apply Forall_app. split; [assumption | now constructor].
Qed.

Lemma added_assign P w0 ref fi : stable (added P w0) (assign ref fi).
Proof. intros w H. exact H. Qed.

Lemma added_append P w0 fi : stable (added P w0) (append fi).
Proof. intros w H. exact H. Qed.

Lemma added_prefix P w0 w : added P w0 w -> events w0 `prefix_of` events w.
Proof. intros (t & -> & _). now exists t. Qed.

Lemma added_trans P w0 w1 w2 : added P w0 w1 -> added P w1 w2 -> added P w0 w2.
Proof.
  intros (t1 & H1 & P1) (t2 & H2 & P2). exists (t1 ++ t2). split.
  - rewrite H2, H1. now rewrite <- app_assoc.
  - apply Forall_app. now split.
Qed.

(** Nothing but the list of calls has changed. *)
Definition untouched (w0 w : World) : Prop :=
  files2analyse w = files2analyse w0
  /\ metadata_editor w = metadata_editor w0
  /\ outside w = outside w0.

Lemma untouched_refl w : untouched w w.
Proof. now repeat split. Qed.

Lemma untouched_emit w0 e : stable (untouched w0) (emit e).
Proof. intros w H. exact H. Qed.

(** The record store has not changed. *)
Definition same_store (w0 w : World) : Prop :=
  files2analyse w = files2analyse w0.

Lemma same_store_blind w0 : blind (same_store w0).
Proof. intros w mm o H. exact H. Qed.

Lemma same_store_emit w0 e : stable (same_store w0) (emit e).
Proof. intros w H. exact H. Qed.

(** Only slot [idx] of the record store may have changed. *)
Definition framed (idx : nat) (w0 w : World) : Prop :=
  length (files2analyse w) = length (files2analyse w0)
  /\ forall j, j <> idx -> files2analyse w !! j = files2analyse w0 !! j.

Lemma framed_refl idx w : framed idx w w.
Proof. now split. Qed.

Lemma framed_blind idx w0 : blind (framed idx w0).
Proof. intros w mm o H. exact H. Qed.

Lemma framed_emit idx w0 e : stable (framed idx w0) (emit e).
Proof. intros w H. exact H. Qed.

Lemma framed_assign idx w0 fi : stable (framed idx w0) (assign idx fi).
Proof.
  intros w [Hl Hj]. split; simpl.
  - now rewrite length_insert.
  - intros j Hne. rewrite list_lookup_insert_ne by congruence. now apply Hj.
Qed.

End Worlds.

(** Structural decomposition of a [stable] goal; [leaf] closes the goals
    on the primitive state changes. *)
Ltac stable_tac leaf :=
  cbv beta;
  lazymatch goal with
  | |- stable _ (ret _) => apply stable_ret
  | |- stable _ (raise _) => apply stable_raise
  | |- stable _ (lift _) => apply stable_lift
  | |- stable _ (gets _) => apply stable_gets
  | |- stable _ (query _) => apply stable_query
  | |- stable _ (bind _ _) =>
      apply stable_bind; [stable_tac leaf | intros ?; stable_tac leaf]
  | |- stable _ (try_except _ _ _) =>
      apply stable_try_except; [stable_tac leaf | intros ?; stable_tac leaf]
  | |- stable _ (for_each _ _ _) =>
      apply stable_for_each; intros ? ?; stable_tac leaf
  | |- stable _ (emit _) => leaf
  | |- stable _ (assign _ _) => leaf
  | |- stable _ (append _) => leaf
  | |- stable _ (MetaManagerM.update _) => leaf
  | |- stable _ (effect _) => leaf
  | |- stable _ (modify _) => leaf
  | |- stable _ (match ?x with _ => _ end) => destruct x; stable_tac leaf
  | |- stable _ ?m => let h := head_of m in unfold h; stable_tac leaf
  end.

(** The same for a property of the returned value. *)
Ltac returns_tac leaf :=
  cbv beta;
  lazymatch goal with
  | |- returns _ (ret _) => apply returns_ret; leaf
  | |- returns _ (raise _) => apply returns_raise
  | |- returns _ (bind _ _) => apply returns_bind; intros ?; returns_tac leaf
  | |- returns _ (match ?x with _ => _ end) => destruct x; returns_tac leaf
  | |- returns _ ?m => let h := head_of m in unfold h; returns_tac leaf
  end.


(** * The record type: the metadata date contract *)

Section FileInfoContract.

(** C8. Reading or writing the metadata original date of a record whose
    [metadte] is false raises the assertion error: no value is returned,
    no updated record is produced, and inside a computation the error
    propagates past every continuation with the state as it was.  When
    [metadte] is true the read returns the stored date. *)
Theorem C8_metadate_contract (fi : FileInfo) (d : datetime) :
  (metadte fi = false ->
     FileInfoM.get_metadate_original fi
       = Raise (AssertionError "self.metadte must be True")
     /\ FileInfoM.set_metadate_original fi d
       = Raise (AssertionError "self.metadte must be True")
     /\ (forall (S B : Type) (k : datetime -> M S B) (s : S),
           bind (lift (FileInfoM.get_metadate_original fi)) k s
             = (Raise (AssertionError "self.metadte must be True"), s))
     /\ (forall (S B : Type) (k : FileInfo -> M S B) (s : S),
           bind (lift (FileInfoM.set_metadate_original fi d)) k s
             = (Raise (AssertionError "self.metadte must be True"), s)))
  /\ (metadte fi = true ->
        forall stored, _metadata_original_date fi = Some stored ->
                       FileInfoM.get_metadate_original fi = Ok stored).
Proof.
  unfold FileInfoM.get_metadate_original, FileInfoM.set_metadate_original.
  split.
  - intros ->. repeat split; reflexivity.
  - intros -> stored ->. reflexivity.
Qed.

Lemma C8_metadate_contract_witness :
  FileInfoM.get_metadate_original
    (FileInfoM.new false false false false true true ["home"; "a.jpg"])
    = Raise (AssertionError "self.metadte must be True")
  /\ FileInfoM.get_metadate_original
       (FileInfoM.with_date (DateTime.ymd 2020 1 1)
          (FileInfoM.new true false false true true true ["home"; "a.jpg"]))
     = Ok (DateTime.ymd 2020 1 1).
Proof.
  split.
  - apply (proj1 (C8_metadate_contract
                    (FileInfoM.new false false false false true true
                                   ["home"; "a.jpg"])
                    (DateTime.ymd 2020 1 1))).
    reflexivity.
  - apply (proj2 (C8_metadate_contract
                    (FileInfoM.with_date (DateTime.ymd 2020 1 1)
                       (FileInfoM.new true false false true true true
                                      ["home"; "a.jpg"]))
                    (DateTime.ymd 2020 1 1))); reflexivity.
Defined.

End FileInfoContract.

(** * Strings and paths *)

Section StringFacts.










End StringFacts.

(** * The scan pass *)

Ltac store_leaf :=
  first [ apply same_store_emit
        | apply stable_effect; apply same_store_blind
        | apply stable_update; apply same_store_blind ].

Section ScanPass.

Context {E : Externals}.
Variable self : Config.




End ScanPass.

(** * Dates as path components *)

Section DateStrings.

(** No ['/'] in the string. *)
Fixpoint plain (s : string) : bool :=
  match s with
  | EmptyString => true
  | String c s' => negb (Ascii.eqb c PathLib.slash) && plain s'
  end.

Lemma plain_app a b : plain (a ++ b)%string = plain a && plain b.
Proof.
  induction a as [|c a IH]; simpl; [reflexivity |].
  rewrite IH. now rewrite andb_assoc.
Qed.

Lemma string_length_app a b :
  String.length (a ++ b)%string = (String.length a + String.length b)%nat.
Proof. induction a as [|c a IH]; simpl; [reflexivity | now rewrite IH]. Qed.

Lemma digit_plain n : Ascii.eqb (DateTime.digit n) PathLib.slash = false.
Proof.
  unfold DateTime.digit.
  assert (H : (n mod 10 < 10)%nat) by (apply Nat.mod_upper_bound; lia).
  revert H. generalize (n mod 10)%nat. intros k Hk.
  do 10 (destruct k as [|k]; [reflexivity |]). lia.
Qed.

Lemma digits_plain w n : plain (DateTime.digits w n) = true.
Proof.
  revert n. induction w as [|w IH]; intros n; simpl; [reflexivity |].
  rewrite plain_app, IH. cbn [plain andb]. now rewrite digit_plain.
Qed.

Lemma digits_length w n : String.length (DateTime.digits w n) = w.
Proof.
  revert n. induction w as [|w IH]; intros n; simpl; [reflexivity |].
  rewrite string_length_app, IH. cbn [String.length]. lia.
Qed.

Lemma str_plain d : plain (DateTime.str d) = true.
Proof.
  unfold DateTime.str.
  repeat (rewrite plain_app || rewrite digits_plain || cbn [plain andb negb]).
  destruct (microsecond d =? 0)%nat; [reflexivity |].
  rewrite plain_app, digits_plain. reflexivity.
Qed.

Lemma str_length d : (19 <= String.length (DateTime.str d))%nat.
Proof.
  unfold DateTime.str.
  repeat (rewrite string_length_app || rewrite digits_length).
  destruct (microsecond d =? 0)%nat; cbn [String.length]; lia.
Qed.

Lemma plain_split s : plain s = true -> Str.split PathLib.slash s = [s].
Proof.
  induction s as [|c s IH]; simpl; [reflexivity |].
  intros H. apply andb_true_iff in H as [Hc Hs].
  apply negb_true_iff in Hc. rewrite Hc, (IH Hs). reflexivity.
Qed.

(** A date is one plain path component. *)
Lemma joinpath_str p d :
  PathLib.joinpath p (DateTime.str d) = p ++ [DateTime.str d].
Proof.
  pose proof (str_plain d) as Hp. pose proof (str_length d) as Hl.
  unfold PathLib.joinpath, PathLib.parts.
  rewrite (plain_split _ Hp).
  destruct (DateTime.str d) as [|c s] eqn:Es; [simpl in Hl; lia |].
  simpl in Hp. apply andb_true_iff in Hp as [Hc _].
  apply negb_true_iff in Hc. simpl PathLib.is_absolute. rewrite Hc.
  destruct s as [|c' s]; [simpl in Hl; lia |].
  simpl. destruct (Ascii.eqb c "."%char); reflexivity.
Qed.

Lemma parent_joinpath_str p d :
  PathLib.parent (PathLib.joinpath p (DateTime.str d)) = p.
Proof. rewrite joinpath_str. apply removelast_last. Qed.

Lemma name_joinpath_str p d :
  PathLib.name (PathLib.joinpath p (DateTime.str d)) = DateTime.str d.
Proof. rewrite joinpath_str. apply last_last. Qed.

(** One plain path component: no ['/'], neither empty nor ['.']. *)
Definition component (s : string) : bool :=
  plain s && negb (String.eqb s EmptyString) && negb (String.eqb s ".").

Lemma parent_joinpath_component p s :
  component s = true -> PathLib.parent (PathLib.joinpath p s) = p.
Proof.
  unfold component. intros H.
  apply andb_true_iff in H as [H Hd]. apply andb_true_iff in H as [Hp He].
  unfold PathLib.joinpath, PathLib.parts. rewrite (plain_split _ Hp).
  assert (Ha : PathLib.is_absolute s = false).
  { destruct s as [|c s]; [reflexivity |]. simpl in Hp.
    apply andb_true_iff in Hp as [Hc _]. now apply negb_true_iff in Hc. }
  rewrite Ha. cbn [List.filter]. rewrite He, Hd. cbn [andb].
  apply removelast_last.
Qed.

End DateStrings.

(** * The consistency-check pass *)

Ltac untouched_leaf := first [apply untouched_emit].

Section ConsistencyPass.

Context {E : Externals}.
Variable self : Config.

(** The date [get_metadate_original] returns when it returns. *)
Definition stored_date (fi : FileInfo) : datetime :=
  match _metadata_original_date fi with
  | Some d => d
  | None => FileInfoM.class_metadata_original_date
  end.

(** The records the pass is about, in the words of the specification:
    both dates present and more than the margin apart. *)
Definition inconsistent (margin_secs : Z) (fi : FileInfo) : bool :=
  kdin fi && metadte fi
  && DateTime.abs_diff_exceeds
       (stored_date fi) (get_file_kdin (abs_path fi) (year_bounds self))
       margin_secs.

Definition dated (fi : FileInfo) : Path :=
  PathLib.joinpath (abs_path fi) (DateTime.str (stored_date fi)).

Lemma consistency_step_run margin acc fi w :
  Analyxer.consistency_step self margin acc fi w
  = (Ok (if inconsistent margin fi then acc ++ [dated fi] else acc), w).
Proof.
  unfold Analyxer.consistency_step, inconsistent, dated.
  unfold FileInfoM.get_metadate_original. fold (stored_date fi).
  destruct (kdin fi); simpl; [|reflexivity].
  destruct (metadte fi); simpl; [|reflexivity].
  unfold bind, lift. destruct (DateTime.abs_diff_exceeds _ _ _); reflexivity.
Qed.

Lemma consistency_steps margin l acc w :
  for_each (Analyxer.consistency_step self margin) l acc w
  = (Ok (acc ++ List.map dated (List.filter (inconsistent margin) l)), w).
Proof.
  revert acc. induction l as [|fi l IH]; intros acc; simpl.
  - unfold ret. now rewrite app_nil_r.
  - unfold bind. rewrite consistency_step_run, IH.
    destruct (inconsistent margin fi); simpl; [|reflexivity].
    now rewrite <- app_assoc.
Qed.




(** The default of the parameter [margin_secs]. *)
Definition default_margin_secs : Z := 60.


End ConsistencyPass.

(** * The folder-bounds pass *)

Section BoundsPass.

Context {E : Externals}.
Variable self : Config.

Inductive source : Type := FromKDIN | FromEKDIN | FromMetadata.

(** The best date of a file, in the words of the specification: the KDIN
    date, else the EKDIN date, else the metadata original date of a
    readable file that has a valid one. *)
Definition best_date (fi : FileInfo) : option (source * datetime) :=
  if kdin fi then
    Some (FromKDIN, get_file_kdin (abs_path fi) (year_bounds self))
  else if ekdin fi then
    Some (FromEKDIN, get_file_ekdin (abs_path fi) (year_bounds self))
  else if readable fi && metadte fi then
    Some (FromMetadata, stored_date fi)
  else None.

(** The records the pass reports, in the words of the specification. *)
Definition out_of_bounds (fi : FileInfo) : bool :=
  let folder_path := PathLib.parent (abs_path fi) in
  is_folder_kdin folder_path (year_bounds self)
  && match best_date fi with
     | Some (_, d) =>
         negb (Analyxer.in_bounds
                 (get_folder_kdin_bounds folder_path (year_bounds self)) d)
     | None => false
     end.

Definition discrepance (fi : FileInfo) : Path :=
  match best_date fi with
  | Some (_, d) => PathLib.joinpath (abs_path fi) (DateTime.str d)
  | None => abs_path fi
  end.

Lemma bounds_step_run acc fi w :
  Analyxer.bounds_step self acc fi w
  = (Ok (if out_of_bounds fi then acc ++ [discrepance fi] else acc), w).
Proof.
  unfold Analyxer.bounds_step, out_of_bounds, discrepance, best_date.
  unfold FileInfoM.get_metadate_original. fold (stored_date fi).
  destruct (is_folder_kdin _ _); simpl; [|reflexivity].
  destruct (kdin fi); simpl.
  { destruct (Analyxer.in_bounds _ _); reflexivity. }
  destruct (ekdin fi); simpl.
  { destruct (Analyxer.in_bounds _ _); reflexivity. }
  destruct (readable fi); simpl; [|reflexivity].
  destruct (metadte fi); simpl; [|reflexivity].
  unfold bind, lift. destruct (Analyxer.in_bounds _ _); reflexivity.
Qed.

Lemma bounds_steps l acc w :
  for_each (Analyxer.bounds_step self) l acc w
  = (Ok (acc ++ List.map discrepance (List.filter out_of_bounds l)), w).
Proof.
  revert acc. induction l as [|fi l IH]; intros acc; simpl.
  - unfold ret. now rewrite app_nil_r.
  - unfold bind. rewrite bounds_step_run, IH.
    destruct (out_of_bounds fi); simpl; [|reflexivity].
    now rewrite <- app_assoc.
Qed.

Lemma parent_discrepance fi :
  out_of_bounds fi = true -> PathLib.parent (discrepance fi) = abs_path fi.
Proof.
  unfold out_of_bounds, discrepance.
  destruct (best_date fi) as [[src d]|].
  - intros _. apply parent_joinpath_str.
  - rewrite andb_false_r. discriminate.
Qed.

Lemma map_parent_discrepance l :
  List.map PathLib.parent (List.map discrepance (List.filter out_of_bounds l))
  = List.map abs_path (List.filter out_of_bounds l).
Proof.
  induction l as [|fi l IH]; simpl; [reflexivity |].
  destruct (out_of_bounds fi) eqn:Ho; simpl; [|exact IH].
  now rewrite IH, (parent_discrepance _ Ho).
Qed.

Lemma bounds_report_ok l w r w' :
  Analyxer.bounds_report self l w = (Ok r, w') ->
  r = List.map PathLib.parent l.
Proof.
  unfold Analyxer.bounds_report. intros H. run_ok H.
  unfold ret in H. now injection H as <- _.
Qed.

Lemma bounds_untouched w0 :
  stable (untouched w0) (Analyxer.detect_files_out_of_folder_date_bounds self).
Proof. stable_tac untouched_leaf. Qed.

Lemma bounds_pass_ok w paths w' :
  Analyxer.detect_files_out_of_folder_date_bounds self w = (Ok paths, w') ->
  paths = List.map abs_path (List.filter out_of_bounds (files2analyse w)).
Proof.
  intros H. unfold Analyxer.detect_files_out_of_folder_date_bounds in H.
  run_ok H. unfold log, emit, modify in Hrun. injection Hrun as _ <-.
  unfold Analyxer.bounds_loop in Hrun0. run_ok Hrun0.
  unfold gets in Hrun. injection Hrun as <- <-. simpl in Hrun0.
  rewrite bounds_steps in Hrun0. injection Hrun0 as <- <-.
  apply bounds_report_ok in H. subst paths. simpl.
  apply map_parent_discrepance.
Qed.

(** C5. The folder-bounds pass reports exactly the files whose folder
    encodes a date-bound interval and whose best date (the KDIN date if
    [kdin], else the EKDIN date if [ekdin], else the metadata original
    date if [readable] and [metadte]) lies outside the closed interval; a
    record with none of the three sources is passed over without a report
    and without an error; whatever its outcome the pass changes no record,
    nothing of the gateway and nothing of the outside world.  With the
    bounds 2019-01-01 and 2019-12-31 the date 2020-06-01 is outside and
    the date 2019-06-01 is inside. *)
Theorem C5_folder_bounds_best_date (w : World) r w' :
  Analyxer.detect_files_out_of_folder_date_bounds self w = (r, w') ->
  untouched w w'
  /\ (forall paths,
        r = Ok paths ->
        paths = List.map abs_path (List.filter out_of_bounds (files2analyse w)))
  /\ (forall fi,
        out_of_bounds fi = true
        <-> is_folder_kdin (PathLib.parent (abs_path fi)) (year_bounds self) = true
            /\ exists src d,
                best_date fi = Some (src, d)
                /\ let fld_bounds :=
                     get_folder_kdin_bounds (PathLib.parent (abs_path fi))
                                            (year_bounds self) in
                   DateTime.between (fst fld_bounds) d (snd fld_bounds) = false)
  /\ (forall fi,
        (kdin fi = true ->
           best_date fi
           = Some (FromKDIN, get_file_kdin (abs_path fi) (year_bounds self)))
        /\ (kdin fi = false -> ekdin fi = true ->
              best_date fi
              = Some (FromEKDIN, get_file_ekdin (abs_path fi) (year_bounds self)))
        /\ (kdin fi = false -> ekdin fi = false ->
              readable fi = true -> metadte fi = true ->
              best_date fi = Some (FromMetadata, stored_date fi)
              /\ FileInfoM.get_metadate_original fi = Ok (stored_date fi))
        /\ (kdin fi = false -> ekdin fi = false ->
              readable fi && metadte fi = false ->
              best_date fi = None
              /\ forall acc w0,
                  Analyxer.bounds_step self acc fi w0 = (Ok acc, w0)))
  /\ DateTime.between (DateTime.ymd 2019 1 1) (DateTime.ymd 2020 6 1)
                      (DateTime.ymd 2019 12 31) = false
  /\ DateTime.between (DateTime.ymd 2019 1 1) (DateTime.ymd 2019 6 1)
                      (DateTime.ymd 2019 12 31) = true.
Proof.
  intros H. split; [|split; [|split; [|split; [|split]]]].
  - eapply stable_run; [apply bounds_untouched | apply untouched_refl | exact H].
  - intros paths ->. now apply bounds_pass_ok in H.
  - intros fi. unfold out_of_bounds, Analyxer.in_bounds.
    rewrite andb_true_iff. split.
    + intros [Hf Hb]. split; [exact Hf |].
      destruct (best_date fi) as [[src d]|]; [|discriminate].
      exists src, d. split; [reflexivity |]. now apply negb_true_iff.
    + intros [Hf (src & d & -> & Hb)]. split; [exact Hf |].
      now apply negb_true_iff.
  - intros fi. unfold best_date, FileInfoM.get_metadate_original.
    fold (stored_date fi). split; [|split; [|split]].
    + now intros ->.
    + now intros -> ->.
    + intros -> -> -> ->. now split.
    + intros Hk He Hr. rewrite Hk, He, Hr. split; [reflexivity |].
      intros acc w0. rewrite bounds_step_run.
      unfold out_of_bounds, best_date. rewrite Hk, He, Hr.
      now rewrite andb_false_r.
  - reflexivity.
  - reflexivity.
Qed.

End BoundsPass.

(** * Loops over the record store *)

Section Enumerate.

Context {E : Externals} {Acc : Type}.
Variable body : Acc -> nat -> FileInfo -> W Acc.
Variable le : Acc -> Acc -> Prop.

Hypothesis le_refl : forall a, le a a.
Hypothesis le_trans : forall a b c, le a b -> le b c -> le a c.
Hypothesis body_framed :
  forall acc idx fi w0, stable (framed idx w0) (body acc idx fi).
Hypothesis body_added :
  forall acc idx fi w0, stable (added (fun _ => True) w0) (body acc idx fi).
Hypothesis body_grows :
  forall acc idx fi, returns (le acc) (body acc idx fi).

(** The record [fi] of slot [idx] has been visited: the body ran on it
    in some world [wi], and what it left in the slot, in its lists and in
    the list of calls is still there at the end. *)
Definition visited (idx : nat) (fi : FileInfo) (accf : Acc) (wf : World) : Prop :=
  exists acc wi acc' wi',
    files2analyse wi !! idx = Some fi
    /\ body acc idx fi wi = (Ok acc', wi')
    /\ files2analyse wf !! idx = files2analyse wi' !! idx
    /\ le acc' accf
    /\ events wi' `prefix_of` events wf.

Lemma seq_split_head n (done : list nat) x rest :
  seq 0 n = done ++ x :: rest -> x = length done.
Proof.
  intros H.
  assert (Hn : (length done < n)%nat).
  { apply (f_equal (@length nat)) in H.
    rewrite length_seq, length_app in H. simpl in H. lia. }
  pose proof (@List.seq_nth n 0 (length done) 0%nat Hn) as Hs.
  rewrite H, nth_middle in Hs. simpl in Hs. exact Hs.
Qed.

Lemma for_enumerate_visits acc0 w accf wf :
  for_enumerate body acc0 w = (Ok accf, wf) ->
  length (files2analyse wf) = length (files2analyse w)
  /\ le acc0 accf
  /\ events w `prefix_of` events wf
  /\ forall idx fi, files2analyse w !! idx = Some fi -> visited idx fi accf wf.
Proof.
  unfold for_enumerate. intros H. run_ok H.
  unfold gets in Hrun. injection Hrun as <- <-.
  pose (I := fun (done : list nat) (acc : Acc) (s : World) =>
               length (files2analyse s) = length (files2analyse w)
               /\ le acc0 acc
               /\ events w `prefix_of` events s
               /\ (forall j, (length done <= j)%nat ->
                             files2analyse s !! j = files2analyse w !! j)
               /\ (forall idx fi, (idx < length done)%nat ->
                                  files2analyse w !! idx = Some fi ->
                                  visited idx fi acc s)).
  assert (HI : I (seq 0 (length (files2analyse w))) accf wf).
  { eapply (for_each_ok _ I); [| | exact H].
    - repeat split; auto. intros idx fi Hlt. simpl in Hlt. lia.
    - intros done x rest acc1 s0 acc2 s1 Hl (Hlen & Hle & Hpre & Hrest & Hvis) Hx.
      apply seq_split_head in Hl. subst x.
      apply bind_ok in Hx as (fi0 & s0' & Hd & Hb).
      unfold deref, query in Hd.
      destruct (files2analyse s0 !! length done) as [fi1|] eqn:Efi;
        [|discriminate].
      injection Hd as <- <-.
      pose proof (stable_run _ _ _ _ _ (body_framed acc1 (length done) fi1 s0)
                             (framed_refl _ _) Hb) as [Hfl Hfj].
      pose proof (stable_run _ _ _ _ _ (body_added acc1 (length done) fi1 s0)
                             (added_refl _ _) Hb) as Hadd.
      apply added_prefix in Hadd.
      pose proof (body_grows _ _ _ _ _ _ Hb) as Hgrow.
      unfold I. rewrite length_app. simpl.
      split; [congruence |].
      split; [eauto |].
      split; [etransitivity; eassumption |].
      split.
      + intros j Hj. rewrite Hfj by lia. apply Hrest. lia.
      + intros idx fi Hlt Hfi.
        destruct (Nat.eq_dec idx (length done)) as [->|Hne].
        * rewrite <- (Hrest (length done)) in Hfi by lia.
          rewrite Efi in Hfi. injection Hfi as <-.
          exists acc1, s0, acc2, s1. repeat split; auto.
        * destruct (Hvis idx fi ltac:(lia) Hfi)
            as (a & wi & a' & wi' & H1 & H2 & H3 & H4 & H5).
          exists a, wi, a', wi'. repeat split; auto.
          -- rewrite Hfj by exact Hne. exact H3.
          -- eauto.
          -- etransitivity; eassumption. }
  destruct HI as (Hlen & Hle & Hpre & _ & Hvis).
  repeat split; auto.
  intros idx fi Hfi. apply Hvis; [|exact Hfi].
  rewrite length_seq. apply lookup_lt_Some in Hfi. exact Hfi.
Qed.

End Enumerate.

(** The lists a loop grows: each is extended at its end. *)
Definition grows (a b : list Path * list Path) : Prop :=
  fst a `prefix_of` fst b /\ snd a `prefix_of` snd b.

Lemma grows_refl a : grows a a.
Proof. split; reflexivity. Qed.

Lemma grows_trans a b c : grows a b -> grows b c -> grows a c.
Proof. intros [H1 H2] [H3 H4]. split; etransitivity; eassumption. Qed.

Lemma grows_left l x r : grows (l, r) (l ++ [x], r).
Proof. split; simpl; [now exists [x] | reflexivity]. Qed.

Lemma grows_right l x r : grows (l, r) (l, r ++ [x]).
Proof. split; simpl; [reflexivity | now exists [x]]. Qed.

Ltac framed_leaf :=
  first [ apply framed_emit
        | apply framed_assign
        | apply stable_effect; apply framed_blind
        | apply stable_update; apply framed_blind ].

Ltac added_leaf :=
  first [ apply added_emit; exact I
        | apply added_assign
        | apply added_append
        | apply stable_effect; apply added_blind
        | apply stable_update; apply added_blind ].

Ltac grows_leaf :=
  first [ apply grows_refl | apply grows_left | apply grows_right ].

(** * Reports *)

Section Reports.

Context {E : Externals}.
Variable self : Config.

Lemma In_prefix {A} (x : A) (l1 l2 : list A) :
  l1 `prefix_of` l2 -> In x l1 -> In x l2.
Proof. intros [t ->] H. apply in_or_app. now left. Qed.

(** Every path of a list logged by [log_each_relative] has its entry. *)
Lemma log_each_relative_ok lvl msg paths w w' :
  Analyxer.log_each_relative self lvl msg paths w = (Ok tt, w') ->
  forall p, In p paths ->
            exists rel, str_relative_to p (base_path2scan self) = Ok rel
                        /\ In (EvLog lvl msg [AStr rel]) (events w').
Proof.
  unfold Analyxer.log_each_relative. intros H.
  eapply (for_each_ok _
            (fun done (_ : unit) s =>
               forall p, In p done ->
                         exists rel, str_relative_to p (base_path2scan self) = Ok rel
                                     /\ In (EvLog lvl msg [AStr rel]) (events s)));
    [| | exact H]; [now intros p [] |].
  intros done x rest [] s0 [] s1 _ HI Hx.
  run_ok Hx. unfold lift in Hrun. injection Hrun as Hrel <-.
  unfold log, emit, modify in Hx. injection Hx as <-. simpl.
  intros p Hp. apply in_app_or in Hp as [Hp|[<-|[]]].
  - destruct (HI p Hp) as (rel & H1 & H2). exists rel. split; [exact H1 |].
    apply in_or_app. now left.
  - exists a. split; [exact Hrel |]. apply in_or_app. right. now left.
Qed.

Lemma added_run P {A} (m : W A) w r w' :
  stable (added P w) m -> m w = (r, w') -> events w `prefix_of` events w'.
Proof.
  intros Hm Hr. eapply added_prefix, stable_run; [exact Hm | apply added_refl | exact Hr].
Qed.

End Reports.

Section Calls.

Context {E : Externals}.

(** A call to the outside world that returns: it is recorded, and only
    the outside world has changed. *)
Lemma sys_ok {A} ev (f : OS -> result A * OS) w a w' :
  sys ev f w = (Ok a, w') ->
  f (outside w) = (Ok a, outside w')
  /\ events w' = events w ++ [ev]
  /\ files2analyse w' = files2analyse w
  /\ metadata_editor w' = metadata_editor w.
Proof.
  unfold sys, emit, modify, effect, bind. simpl.
  destruct (f (outside w)) as [r o]. intros [= -> <-]. now repeat split.
Qed.

End Calls.

(** Symbolic execution of the runs that return, in the hypotheses. *)
Ltac exec_inj H := injection H as ? ?; subst.

Ltac exec_sys H :=
  let H1 := fresh "Hcall" in
  let H2 := fresh "Hevents" in
  let H3 := fresh "Hstore" in
  let H4 := fresh "Heditor" in
  apply sys_ok in H as (H1 & H2 & H3 & H4).

Ltac exec1 :=
  match goal with
  | H : bind _ _ _ = (Ok _, _) |- _ =>
      let a := fresh "a" in
      let w := fresh "w" in
      let H1 := fresh "Hx" in
      apply bind_ok in H as (a & w & H1 & H)
  | H : ret _ _ = (Ok _, _) |- _ => unfold ret in H; exec_inj H
  | H : raise _ _ = (Ok _, _) |- _ => discriminate H
  | H : gets _ _ = (Ok _, _) |- _ => unfold gets in H; exec_inj H
  | H : reads _ _ = (Ok _, _) |- _ => unfold reads, gets in H; exec_inj H
  | H : MetaManagerM.self_ _ = (Ok _, _) |- _ =>
      unfold MetaManagerM.self_, gets in H; exec_inj H
  | H : modify _ _ = (Ok _, _) |- _ => unfold modify in H; exec_inj H
  | H : emit _ _ = (Ok _, _) |- _ => unfold emit, modify in H; exec_inj H
  | H : log _ _ _ _ = (Ok _, _) |- _ => unfold log, emit, modify in H; exec_inj H
  | H : assign _ _ _ = (Ok _, _) |- _ => unfold assign, modify in H; exec_inj H
  | H : append _ _ = (Ok _, _) |- _ => unfold append, modify in H; exec_inj H
  | H : MetaManagerM.update _ _ = (Ok _, _) |- _ =>
      unfold MetaManagerM.update, modify in H; exec_inj H
  | H : rename _ _ _ = (Ok _, _) |- _ => unfold rename in H; exec_sys H
  | H : makedirs _ _ = (Ok _, _) |- _ => unfold makedirs in H; exec_sys H
  | H : copy2 _ _ _ = (Ok _, _) |- _ => unfold copy2 in H; exec_sys H
  | H : input _ _ = (Ok _, _) |- _ => unfold input in H; exec_sys H
  | H : lift _ _ = (Ok _, _) |- _ =>
      unfold lift in H;
      let Hr := fresh "Hlift" in
      injection H as Hr ?; subst
  | H : query _ _ = (Ok _, _) |- _ =>
      unfold query in H;
      let Hr := fresh "Hquery" in
      injection H as Hr ?; subst
  | a : unit |- _ => destruct a
  end.

Ltac exec := repeat exec1.

(** * The proprietary-rename pass *)

Section ProprietaryPass.

Context {E : Externals}.
Variable self : Config.

Lemma proprietary_step_framed acc idx fi w0 :
  stable (framed idx w0) (Analyxer.proprietary_step acc idx fi).
Proof. stable_tac framed_leaf. Qed.

Lemma proprietary_step_added acc idx fi w0 :
  stable (added (fun _ => True) w0) (Analyxer.proprietary_step acc idx fi).
Proof. stable_tac added_leaf. Qed.

Lemma proprietary_step_grows acc idx fi :
  returns (grows acc) (Analyxer.proprietary_step acc idx fi).
Proof. returns_tac grows_leaf. Qed.

(** The record after a successful rename. *)
Definition renamed_to (target : Path) (fi : FileInfo) : FileInfo :=
  FileInfoM.with_kdin true
    (FileInfoM.with_prpdin false (FileInfoM.with_abs_path target fi)).

Lemma PathLib_eqb_refl p : PathLib.eqb p p = true.
Proof. now apply PathLib.eqb_eq. Qed.

Lemma proprietary_step_ok acc idx fi wi acc' wi' :
  files2analyse wi !! idx = Some fi ->
  Analyxer.proprietary_step acc idx fi wi = (Ok acc', wi') ->
  (prpdin fi = false -> wi' = wi /\ acc' = acc)
  /\ (prpdin fi = true ->
      path_exists (kdin_from_proprietary_din (abs_path fi)) (outside wi) = true ->
      wi' = wi /\ acc' = (fst acc, snd acc ++ [abs_path fi]))
  /\ (prpdin fi = true ->
      path_exists (kdin_from_proprietary_din (abs_path fi)) (outside wi) = false ->
      PathLib.name (kdin_from_proprietary_din (abs_path fi))
        <> PathLib.name (abs_path fi) ->
      os_rename (abs_path fi) (kdin_from_proprietary_din (abs_path fi))
                (outside wi) = (Ok tt, outside wi')
      /\ events wi'
         = events wi
             ++ [EvRename (abs_path fi) (kdin_from_proprietary_din (abs_path fi))]
      /\ files2analyse wi' !! idx
         = Some (renamed_to (kdin_from_proprietary_din (abs_path fi)) fi)
      /\ acc' = (fst acc ++ [kdin_from_proprietary_din (abs_path fi)], snd acc)).
Proof.
  intros Hfi H. unfold Analyxer.proprietary_step in H.
  destruct acc as [files_renamed files_existing].
  destruct (prpdin fi) eqn:Ep.
  2:{ exec. repeat split; congruence. }
  split; [discriminate |].
  unfold PropInfo.update_proprietary_din, PropInfo.rename_proprietary_din_file in H.
  exec. unfold deref in Hx0. exec. rewrite Hfi in Hquery.
  injection Hquery as <-.
  destruct (path_exists _ _) eqn:Ex.
  - exec. rewrite String.eqb_refl in Hx. simpl in Hx. exec.
    rewrite PathLib_eqb_refl in H. exec.
    split; [now intros _ _ | intros _ [=]].
  - split; [intros _ [=] |]. intros _ _ Hne.
    exec.
    apply String.eqb_neq in Hne. rewrite Hne in Hx. simpl in Hx. exec.
    simpl in H.
    assert (Hq : PathLib.eqb (kdin_from_proprietary_din (abs_path fi))
                             (abs_path fi) = false).
    { destruct (PathLib.eqb _ (abs_path fi)) eqn:Eq; [|reflexivity].
      apply PathLib.eqb_eq in Eq. rewrite Eq in Hne.
      now rewrite String.eqb_refl in Hne. }
    rewrite Hq in H. exec. simpl.
    repeat split; try assumption.
    rewrite list_insert_insert_eq, Hstore.
    apply list_lookup_insert_eq. now apply lookup_lt_Some in Hfi.
Qed.

Lemma proprietary_report_ok acc w r w' :
  Analyxer.proprietary_report self acc w = (Ok r, w') ->
  r = snd acc
  /\ untouched w w'
  /\ forall p, In p (fst acc) ->
               exists rel,
                 str_relative_to p (base_path2scan self) = Ok rel
                 /\ In (EvLog INFO "[ALX] [PropRenamed]: %s" [AStr rel]) (events w').
Proof.
  intros H. split; [|split].
  - unfold Analyxer.proprietary_report in H. destruct acc. now exec.
  - eapply stable_run; [| apply untouched_refl | exact H].
    stable_tac untouched_leaf.
  - unfold Analyxer.proprietary_report in H.
    destruct acc as [files_renamed files_existing]. simpl. exec.
    intros p Hp.
    assert (Hpre : events w0 `prefix_of` events w').
    { eapply (added_run (fun _ => True)); [|exact Hx0]. stable_tac added_leaf. }
    clear Hx0.
    destruct files_renamed as [|q files_renamed]; [destruct Hp |].
    exec.
    destruct (log_each_relative_ok _ _ _ _ _ _ Hx p Hp) as (rel & H1 & H2).
    exists rel. split; [exact H1 |]. eapply In_prefix; eassumption.
Qed.

(** C6. The proprietary-rename pass never overwrites a file.  For a
    record with [prpdin] true, when the canonical KDIN name of its file
    already exists on disk at the time the record is visited, nothing is
    done (no rename is issued), the record keeps its path and flags and
    its path is in the returned list of duplicates; when the name is free
    (and differs from the current name) the file is renamed to it, the
    record gets the new path, [kdin] true and [prpdin] false, and the new
    path is logged in the list of renamed files.  The other records are
    left as they are. *)
Theorem C6_proprietary_no_overwrite (w : World) dups w' :
  Analyxer.rename_files_with_proprietary_convention self w = (Ok dups, w') ->
  length (files2analyse w') = length (files2analyse w)
  /\ forall idx fi,
      files2analyse w !! idx = Some fi ->
      (prpdin fi = false -> files2analyse w' !! idx = Some fi)
      /\ (prpdin fi = true ->
          let target := kdin_from_proprietary_din (abs_path fi) in
          exists wi wi',
            files2analyse wi !! idx = Some fi
            /\ events wi' `prefix_of` events w'
            /\ (path_exists target (outside wi) = true ->
                wi' = wi
                /\ files2analyse w' !! idx = Some fi
                /\ In (abs_path fi) dups)
            /\ (path_exists target (outside wi) = false ->
                PathLib.name target <> PathLib.name (abs_path fi) ->
                os_rename (abs_path fi) target (outside wi) = (Ok tt, outside wi')
                /\ events wi' = events wi ++ [EvRename (abs_path fi) target]
                /\ files2analyse w' !! idx = Some (renamed_to target fi)
                /\ exists rel,
                    str_relative_to target (base_path2scan self) = Ok rel
                    /\ In (EvLog INFO "[ALX] [PropRenamed]: %s" [AStr rel])
                          (events w'))).
Proof.
  intros H. unfold Analyxer.rename_files_with_proprietary_convention in H.
  apply bind_ok in H as (u & w0 & Hlog & H).
  apply bind_ok in H as (acc & wl & Hloop & Hrep).
  unfold log, emit, modify in Hlog. injection Hlog as _ <-.
  pose proof (proprietary_report_ok _ _ _ _ Hrep) as (-> & (Hst & _ & _) & Hlogged).
  assert (Hpre : events wl `prefix_of` events w').
  { eapply (added_run (fun _ => True)); [|exact Hrep]. stable_tac added_leaf. }
  destruct (for_enumerate_visits
              Analyxer.proprietary_step grows grows_refl grows_trans
              proprietary_step_framed proprietary_step_added
              proprietary_step_grows _ _ _ _ Hloop)
    as (Hlen & _ & _ & Hvis).
  simpl in Hlen, Hvis. split; [congruence |].
  intros idx fi Hfi.
  destruct (Hvis idx fi Hfi) as (a0 & wi & a1 & wi' & Hwi & Hstep & Hslot & Hgrow & Hev).
  destruct (proprietary_step_ok _ _ _ _ _ _ Hwi Hstep) as (Hno & Hdup & Hren).
  rewrite Hst. split.
  - intros Hp. destruct (Hno Hp) as [-> _]. congruence.
  - intros Hp target. subst target. exists wi, wi'. split; [exact Hwi |].
    split; [etransitivity; eassumption |]. split.
    + intros Hex. destruct (Hdup Hp Hex) as [-> ->].
      split; [reflexivity |]. split; [congruence |].
      destruct Hgrow as [_ Hg]. simpl in Hg.
      eapply In_prefix; [exact Hg |]. apply in_or_app. right. now left.
    + intros Hex Hne. destruct (Hren Hp Hex Hne) as (Hcall & Hevs & Hrec & ->).
      split; [exact Hcall |]. split; [exact Hevs |]. split; [congruence |].
      apply Hlogged. destruct Hgrow as [Hg _]. simpl in Hg.
      eapply In_prefix; [exact Hg |]. apply in_or_app. right. now left.
Qed.

End ProprietaryPass.

(** * The date-integrity pass *)

Section IntegrityPass.

Context {E : Externals}.
Variable self : Config.

(** One of the four date-evidence flags is set. *)
Definition has_evidence (fi : FileInfo) : bool :=
  kdin fi || ekdin fi || metadte fi || prpdin fi.

(** The record after the rename to a to-review KDIN name. *)
Definition to_review (new_name : Path) (fi : FileInfo) : FileInfo :=
  FileInfoM.with_kdin true (FileInfoM.with_abs_path new_name fi).

Lemma integrity_step_framed acc idx fi w0 :
  stable (framed idx w0) (Analyxer.integrity_step acc idx fi).
Proof. stable_tac framed_leaf. Qed.

Lemma integrity_step_added acc idx fi w0 :
  stable (added (fun _ => True) w0) (Analyxer.integrity_step acc idx fi).
Proof. stable_tac added_leaf. Qed.

Lemma integrity_step_grows acc idx fi :
  returns (grows acc) (Analyxer.integrity_step acc idx fi).
Proof. returns_tac grows_leaf. Qed.

(** What the gateway calls a damaged date: a date field is present and
    its year is the sentinel year 1. *)
Lemma has_damaged_date_true pilonly file o :
  MetaManagerM.has_damaged_date pilonly file o = Ok true ->
  exists tmp d,
    MetaManagerM.tmp_get_date_original tmp = Ok d /\ year d = 1%nat.
Proof.
  unfold MetaManagerM.has_damaged_date.
  match goal with
  | |- match ?x with _ => _ end = _ -> _ => destruct x as [[tmp has]|e]
  end; [|discriminate].
  destruct has; [|discriminate].
  destruct (MetaManagerM.tmp_get_date_original tmp) as [d|e] eqn:Ed;
    [|discriminate].
  intros [= Hy]. exists tmp, d. split; [exact Ed |]. now apply Nat.eqb_eq.
Qed.

Lemma integrity_step_ok acc idx fi wi acc' wi' :
  files2analyse wi !! idx = Some fi ->
  Analyxer.integrity_step acc idx fi wi = (Ok acc', wi') ->
  (has_evidence fi = true -> wi' = wi /\ acc' = acc)
  /\ (has_evidence fi = false ->
      (readable fi = true
       /\ MetaManagerM.file_has_damaged_date (abs_path fi) wi = (Ok true, wi)
       /\ exists dtei,
           MetaManagerM.get_file_damaged_date (abs_path fi) wi = (Ok dtei, wi)
           /\ wi' = wi
           /\ acc' = (fst acc ++ [PathLib.joinpath (abs_path fi) dtei], snd acc))
      \/ ((readable fi = false
           \/ MetaManagerM.file_has_damaged_date (abs_path fi) wi = (Ok false, wi))
          /\ exists mdf_date,
              get_file_modify_date (abs_path fi) (outside wi) = Ok mdf_date
              /\ os_rename (abs_path fi)
                           (file_clean2trkdin (abs_path fi) mdf_date)
                           (outside wi) = (Ok tt, outside wi')
              /\ events wi'
                 = events wi
                     ++ [EvRename (abs_path fi)
                                  (file_clean2trkdin (abs_path fi) mdf_date)]
              /\ files2analyse wi' !! idx
                 = Some (to_review (file_clean2trkdin (abs_path fi) mdf_date) fi)
              /\ acc' = (fst acc,
                         snd acc ++ [file_clean2trkdin (abs_path fi) mdf_date]))).
Proof.
  intros Hfi H. unfold Analyxer.integrity_step in H.
  destruct acc as [files_damaged files_date2review].
  unfold has_evidence.
  destruct (kdin fi); simpl in *; [exec; split; [tauto | discriminate] |].
  destruct (ekdin fi); simpl in *; [exec; split; [tauto | discriminate] |].
  destruct (metadte fi); simpl in *; [exec; split; [tauto | discriminate] |].
  destruct (prpdin fi); simpl in *; [exec; split; [tauto | discriminate] |].
  split; [discriminate |]. intros _.
  apply bind_ok in H as (damaged & w1 & Hd & H).
  assert (Hrest :
            damaged = None -> w1 = wi ->
            exists mdf_date,
              get_file_modify_date (abs_path fi) (outside wi) = Ok mdf_date
              /\ os_rename (abs_path fi)
                           (file_clean2trkdin (abs_path fi) mdf_date)
                           (outside wi) = (Ok tt, outside wi')
              /\ events wi'
                 = events wi
                     ++ [EvRename (abs_path fi)
                                  (file_clean2trkdin (abs_path fi) mdf_date)]
              /\ files2analyse wi' !! idx
                 = Some (to_review (file_clean2trkdin (abs_path fi) mdf_date) fi)
              /\ acc' = (files_damaged,
                         files_date2review
                           ++ [file_clean2trkdin (abs_path fi) mdf_date])).
  { intros -> ->. exec. exists a. simpl.
    repeat split; try assumption.
    rewrite Hstore. apply list_lookup_insert_eq.
    now apply lookup_lt_Some in Hfi. }
  destruct (readable fi).
  - apply bind_ok in Hd as (dmg & w2 & Hdmg & Hd).
    assert (w2 = wi) as ->.
    { unfold MetaManagerM.file_has_damaged_date, query in Hdmg.
      now injection Hdmg. }
    destruct dmg.
    + left. split; [reflexivity |]. split; [exact Hdmg |].
      apply bind_ok in Hd as (dtei & w3 & Hdt & Hd).
      assert (w3 = wi) as ->.
      { unfold MetaManagerM.get_file_damaged_date, query in Hdt.
        now injection Hdt. }
      exists dtei. split; [exact Hdt |]. exec. now split.
    + right. split; [now right |]. exec. now apply Hrest.
  - right. split; [now left |]. exec. now apply Hrest.
Qed.

Lemma integrity_report_ok acc w r w' :
  Analyxer.integrity_report self acc w = (Ok r, w') ->
  r = List.map PathLib.parent (fst acc) ++ snd acc /\ untouched w w'.
Proof.
  intros H. split.
  - unfold Analyxer.integrity_report in H. destruct acc. now exec.
  - eapply stable_run; [| apply untouched_refl | exact H].
    stable_tac untouched_leaf.
Qed.

(** C2. In the date-integrity pass a record with one of the four
    evidence flags set is left as it is.  For a record with none, the
    pass splits two ways on what the gateway says when the record is
    visited: when the metadata is readable and [file_has_damaged_date]
    answers true (a date field is present and its year is 1) nothing is
    done to the file (no call is made, the record keeps its path and
    flags) and the file is in the report, as the parent of its path
    joined with the damaged date (the path itself when the damaged date is
    one plain path component); otherwise the file is renamed to the
    to-review KDIN name built from its last-modified date, the record
    gets that path and [kdin] true, and the new name is in the report. *)
Theorem C2_integrity_damaged_or_review (w : World) report w' :
  Analyxer.analyse_files_date_integrity self w = (Ok report, w') ->
  length (files2analyse w') = length (files2analyse w)
  /\ (forall pilonly file o,
        MetaManagerM.has_damaged_date pilonly file o = Ok true ->
        exists tmp d,
          MetaManagerM.tmp_get_date_original tmp = Ok d /\ year d = 1%nat)
  /\ forall idx fi,
      files2analyse w !! idx = Some fi ->
      (has_evidence fi = true -> files2analyse w' !! idx = Some fi)
      /\ (has_evidence fi = false ->
          exists wi wi',
            files2analyse wi !! idx = Some fi
            /\ events wi' `prefix_of` events w'
            /\ ((readable fi = true
                 /\ MetaManagerM.file_has_damaged_date (abs_path fi) wi
                    = (Ok true, wi)
                 /\ exists dtei,
                     MetaManagerM.get_file_damaged_date (abs_path fi) wi
                     = (Ok dtei, wi)
                     /\ wi' = wi
                     /\ files2analyse w' !! idx = Some fi
                     /\ In (PathLib.parent (PathLib.joinpath (abs_path fi) dtei))
                           report
                     /\ (component dtei = true ->
                         PathLib.parent (PathLib.joinpath (abs_path fi) dtei)
                         = abs_path fi))
                \/ ((readable fi = false
                     \/ MetaManagerM.file_has_damaged_date (abs_path fi) wi
                        = (Ok false, wi))
                    /\ exists mdf_date,
                        let new_name := file_clean2trkdin (abs_path fi) mdf_date in
                        get_file_modify_date (abs_path fi) (outside wi)
                        = Ok mdf_date
                        /\ os_rename (abs_path fi) new_name (outside wi)
                           = (Ok tt, outside wi')
                        /\ events wi'
                           = events wi ++ [EvRename (abs_path fi) new_name]
                        /\ files2analyse w' !! idx = Some (to_review new_name fi)
                        /\ In new_name report))).
Proof.
  intros H. unfold Analyxer.analyse_files_date_integrity in H.
  apply bind_ok in H as (u & w0 & Hlog & H).
  apply bind_ok in H as (acc & wl & Hloop & Hrep).
  unfold log, emit, modify in Hlog. injection Hlog as _ <-.
  assert (Hpre : events wl `prefix_of` events w').
  { eapply (added_run (fun _ => True)); [|exact Hrep]. stable_tac added_leaf. }
  apply integrity_report_ok in Hrep as (-> & Hst & _ & _).
  destruct (for_enumerate_visits
              Analyxer.integrity_step grows grows_refl grows_trans
              integrity_step_framed integrity_step_added
              integrity_step_grows _ _ _ _ Hloop)
    as (Hlen & _ & _ & Hvis).
  simpl in Hlen, Hvis. split; [congruence |].
  split; [exact has_damaged_date_true |].
  intros idx fi Hfi.
  destruct (Hvis idx fi Hfi)
    as (a0 & wi & a1 & wi' & Hwi & Hstep & Hslot & Hgrow & Hev).
  destruct (integrity_step_ok _ _ _ _ _ _ Hwi Hstep) as (Hsome & Hnone).
  rewrite Hst. split.
  - intros Hf. destruct (Hsome Hf) as [-> _]. congruence.
  - intros Hf. exists wi, wi'. split; [exact Hwi |].
    split; [etransitivity; eassumption |].
    destruct (Hnone Hf)
      as [(Hr & Hd & dtei & Hdt & -> & ->)
         | (Hc & mdf & Hm & Hcall & Hevs & Hrec & ->)].
    + left. split; [exact Hr |]. split; [exact Hd |].
      exists dtei. split; [exact Hdt |]. split; [reflexivity |].
      split; [congruence |].
      split; [|apply parent_joinpath_component].
      destruct Hgrow as [Hg _]. simpl in Hg.
      apply in_or_app. left. apply in_map.
      eapply In_prefix; [exact Hg |]. apply in_or_app. right. now left.
    + right. split; [exact Hc |]. exists mdf. simpl.
      split; [exact Hm |]. split; [exact Hcall |]. split; [exact Hevs |].
      split; [congruence |].
      destruct Hgrow as [_ Hg]. simpl in Hg.
      apply in_or_app. right.
      eapply In_prefix; [exact Hg |]. apply in_or_app. right. now left.
Qed.

End IntegrityPass.

(** * The gateway calls of the metadata manager *)

Section Gateway.

Context {E : Externals}.

(** A call to a backend that returns: it is recorded, and the record
    store has not changed. *)
Lemma backend_call_ok {A} ev (f : World -> result A * (MetaManager * OS)) w a w' :
  (do* emit ev in effect f) w = (Ok a, w') ->
  events w' = events w ++ [ev] /\ files2analyse w' = files2analyse w.
Proof.
  unfold emit, modify, effect, bind. simpl.
  match goal with |- context [f ?x] => destruct (f x) as [r [mm o]] end.
  intros [= -> <-]. now split.
Qed.

Definition is_load (e : event) : Prop :=
  match e with EvLoad _ _ => True | _ => False end.

Lemma load_file_ok file w w' :
  MetaManagerM.load_file file w = (Ok tt, w') ->
  files2analyse w' = files2analyse w
  /\ exists loads, events w' = events w ++ loads /\ Forall is_load loads.
Proof.
  intros H. split.
  - eapply (stable_run (same_store w)); [| reflexivity | exact H].
    stable_tac store_leaf.
  - eapply (stable_run (added is_load w)); [| apply added_refl | exact H].
    stable_tac ltac:(first [ apply added_emit; exact I
                           | apply stable_effect; apply added_blind
                           | apply stable_update; apply added_blind ]).
Qed.

Lemma save_file_ok overwrite w w' :
  MetaManagerM.save_file overwrite w = (Ok tt, w') ->
  files2analyse w' = files2analyse w
  /\ exists backend, events w' = events w ++ [EvSave backend overwrite].
Proof.
  unfold MetaManagerM.save_file. intros H.
  apply bind_ok in H as (mm & w1 & Hs & H).
  unfold MetaManagerM.self_, gets in Hs. injection Hs as <- <-.
  destruct (_load_id (metadata_editor w));
    apply backend_call_ok in H as [H1 H2]; split; eauto.
Qed.

Lemma set_date_original_ok date2add w w' :
  MetaManagerM.set_date_original date2add w = (Ok tt, w') ->
  files2analyse w' = files2analyse w
  /\ exists loads backend,
      events w'
      = events w ++ loads ++ [EvSetDate backend date2add; EvSave backend true]
      /\ Forall is_load loads.
Proof.
  unfold MetaManagerM.set_date_original. intros H.
  apply bind_ok in H as (mm & w1 & Hs & H).
  unfold MetaManagerM.self_, gets in Hs. injection Hs as <- <-.
  destruct (_filepath (metadata_editor w)) as [filepath|]; [|discriminate].
  destruct (negb (Str.mem _ _)); [discriminate |].
  destruct (_load_id (metadata_editor w)).
  - destruct (pil_filepath _) as [pil_path|]; [|discriminate].
    destruct (Str.mem _ PIL_EDITABLE_EXTENSIONS).
    + apply bind_ok in H as (u & w1 & H1 & H2).
      apply backend_call_ok in H1 as [E1 S1].
      apply backend_call_ok in H2 as [E2 S2].
      split; [congruence |]. exists [], PILLOW. split; [|constructor].
      rewrite E2, E1. simpl. now rewrite <- app_assoc.
    + apply bind_ok in H as (u0 & w0 & H0 & H).
      apply bind_ok in H as (u1 & w1 & H1 & H).
      apply bind_ok in H as (u2 & w2 & H2 & H3).
      unfold MetaManagerM.update, modify in H0. injection H0 as _ <-.
      apply backend_call_ok in H1 as [E1 S1].
      apply backend_call_ok in H2 as [E2 S2].
      apply backend_call_ok in H3 as [E3 S3].
      split; [simpl in *; congruence |].
      exists [EvLoad EXIFTOOL pil_path], EXIFTOOL.
      split; [|repeat constructor].
      rewrite E3, E2, E1. simpl. now rewrite <- !app_assoc.
  - apply bind_ok in H as (u & w1 & H1 & H2).
    apply backend_call_ok in H1 as [E1 S1].
    apply backend_call_ok in H2 as [E2 S2].
    split; [congruence |]. exists [], EXIFTOOL. split; [|constructor].
    rewrite E2, E1. simpl. now rewrite <- app_assoc.
Qed.

End Gateway.

(** * The edit-date migration pass *)

Section EditionPass.

Context {E : Externals}.
Variable self : Config.

(** The record after the EKDIN date has been written to the metadata. *)
Definition migrated (new_rnme : Path) (date2add : datetime) (fi : FileInfo)
  : FileInfo :=
  FileInfoM.with_date date2add
    (FileInfoM.with_abs_path new_rnme
       (FileInfoM.with_ekdin false (FileInfoM.with_metadte true fi))).

(** The record after the EKDIN marker has been turned into a KDIN one. *)
Definition demoted (new_rnme : Path) (fi : FileInfo) : FileInfo :=
  FileInfoM.with_kdin true
    (FileInfoM.with_ekdin false (FileInfoM.with_abs_path new_rnme fi)).

Lemma edition_step_framed o e acc idx fi w0 :
  stable (framed idx w0) (Analyxer.edition_step self o e acc idx fi).
Proof. stable_tac framed_leaf. Qed.

Lemma edition_step_added o e acc idx fi w0 :
  stable (added (fun _ => True) w0) (Analyxer.edition_step self o e acc idx fi).
Proof. stable_tac added_leaf. Qed.

Lemma edition_step_grows o e acc idx fi :
  returns (grows acc) (Analyxer.edition_step self o e acc idx fi).
Proof. returns_tac grows_leaf. Qed.

Lemma edition_step_ok originals edited acc idx fi wi acc' wi' :
  files2analyse wi !! idx = Some fi ->
  Analyxer.edition_step self originals edited acc idx fi wi = (Ok acc', wi') ->
  let p := abs_path fi in
  let date2add := get_file_ekdin p (year_bounds self) in
  (ekdin fi = false -> wi' = wi /\ acc' = acc)
  /\ (ekdin fi = true -> editable fi = true ->
      exists loads backend saved new_rnme,
        events wi'
        = events wi
            ++ [EvMakedirs originals; EvMakedirs edited;
                EvCopy2 p (PathLib.joinpath originals (PathLib.name p))]
            ++ loads
            ++ [EvSetDate backend date2add; EvSave backend true;
                EvSave saved true;
                EvCopy2 p (PathLib.joinpath edited (PathLib.name p));
                EvRename p new_rnme]
        /\ Forall is_load loads
        /\ files2analyse wi' !! idx = Some (migrated new_rnme date2add fi)
        /\ acc' = (fst acc ++ [new_rnme], snd acc))
  /\ (ekdin fi = true -> editable fi = false ->
      exists new_rnme,
        events wi' = events wi ++ [EvRename p new_rnme]
        /\ files2analyse wi' !! idx = Some (demoted new_rnme fi)
        /\ acc' = (fst acc, snd acc ++ [new_rnme])).
Proof.
  intros Hfi H p date2add. subst p date2add.
  unfold Analyxer.edition_step in H.
  destruct acc as [meta_edited files_din_renamed].
  pose proof (lookup_lt_Some _ _ _ Hfi) as Hlt.
  destruct (ekdin fi).
  2:{ exec. split; [now split |]. split; discriminate. }
  split; [discriminate |].
  destruct (editable fi).
  - split; [|discriminate]. intros _ _.
    apply bind_ok in H as (u1 & w1 & H1 & H).
    apply bind_ok in H as (u2 & w2 & H2 & H).
    apply bind_ok in H as (u3 & w3 & H3 & H).
    apply bind_ok in H as (u4 & w4 & H4 & H).
    apply bind_ok in H as (u5 & w5 & H5 & H).
    apply bind_ok in H as (u6 & w6 & H6 & H).
    apply bind_ok in H as (u7 & w7 & H7 & H).
    apply bind_ok in H as (new_rnme & w8 & H8 & H).
    apply bind_ok in H as (u9 & w9 & H9 & H).
    apply bind_ok in H as (u10 & w10 & H10 & H).
    apply bind_ok in H as (fi2 & w11 & H11 & H).
    apply bind_ok in H as (u12 & w12 & H12 & H).
    destruct u4, u5, u6.
    apply sys_ok in H1 as (_ & E1 & S1 & _).
    apply sys_ok in H2 as (_ & E2 & S2 & _).
    apply sys_ok in H3 as (_ & E3 & S3 & _).
    apply load_file_ok in H4 as (S4 & loads4 & E4 & L4).
    apply set_date_original_ok in H5 as (S5 & loads5 & backend & E5 & L5).
    apply save_file_ok in H6 as (S6 & saved & E6).
    apply sys_ok in H7 as (_ & E7 & S7 & _).
    unfold reads, gets in H8. injection H8 as _ <-.
    apply sys_ok in H9 as (_ & E9 & S9 & _).
    unfold assign, modify in H10. injection H10 as _ <-.
    unfold lift, FileInfoM.set_metadate_original in H11. simpl in H11.
    injection H11 as <- <-.
    unfold assign, modify in H12. injection H12 as _ <-.
    unfold ret in H. injection H as <- <-. simpl.
    exists (loads4 ++ loads5), backend, saved, new_rnme.
    split; [|split; [|split]].
    + rewrite E9, E7, E6, E5, E4, E3, E2, E1.
      repeat (rewrite <- app_assoc; simpl). reflexivity.
    + apply Forall_app. now split.
    + rewrite list_insert_insert_eq.
      apply list_lookup_insert_eq. congruence.
    + reflexivity.
  - split; [discriminate |]. intros _ _.
    apply bind_ok in H as (new_rnme & w1 & H1 & H).
    apply bind_ok in H as (u2 & w2 & H2 & H).
    apply bind_ok in H as (u3 & w3 & H3 & H).
    unfold reads, gets in H1. injection H1 as _ <-.
    apply sys_ok in H2 as (_ & E2 & S2 & _).
    unfold assign, modify in H3. injection H3 as _ <-.
    unfold ret in H. injection H as <- <-. simpl.
    exists new_rnme. split; [exact E2 |]. split; [|reflexivity].
    apply list_lookup_insert_eq. congruence.
Qed.

Lemma edition_report_ok folder acc w r w' :
  Analyxer.edition_report self folder acc w = (Ok r, w') ->
  r = snd acc ++ fst acc /\ untouched w w'.
Proof.
  intros H. split.
  - unfold Analyxer.edition_report in H. destruct acc. now exec.
  - eapply stable_run; [| apply untouched_refl | exact H].
    stable_tac untouched_leaf.
Qed.

(** What the pass leaves in every slot of the record store. *)
Lemma edition_pass_visits w r w' :
  Analyxer.write_date_to_files_with_edition_kdin self w = (Ok r, w') ->
  length (files2analyse w') = length (files2analyse w)
  /\ exists originals edited,
      forall idx fi,
        files2analyse w !! idx = Some fi ->
        exists acc wi acc' wi',
          files2analyse wi !! idx = Some fi
          /\ Analyxer.edition_step self originals edited acc idx fi wi
             = (Ok acc', wi')
          /\ files2analyse w' !! idx = files2analyse wi' !! idx
          /\ events wi `prefix_of` events wi'
          /\ events wi' `prefix_of` events w'.
Proof.
  intros H. unfold Analyxer.write_date_to_files_with_edition_kdin in H.
  apply bind_ok in H as (u & w0 & Hlog & H).
  apply bind_ok in H as (folder & w1 & Hf & H).
  apply bind_ok in H as (acc & wl & Hloop & Hrep).
  unfold log, emit, modify in Hlog. injection Hlog as _ <-.
  unfold Analyxer.review_folder, reads, gets in Hf. injection Hf as <- <-.
  assert (Hpre : events wl `prefix_of` events w').
  { eapply (added_run (fun _ => True)); [|exact Hrep]. stable_tac added_leaf. }
  apply edition_report_ok in Hrep as (-> & Hst & _ & _).
  unfold Analyxer.edition_loop in Hloop.
  match type of Hloop with
  | for_enumerate (Analyxer.edition_step _ ?o ?e) _ _ = _ =>
      destruct (for_enumerate_visits
                  (Analyxer.edition_step self o e) grows grows_refl grows_trans
                  (edition_step_framed o e) (edition_step_added o e)
                  (edition_step_grows o e) _ _ _ _ Hloop)
        as (Hlen & _ & _ & Hvis);
      simpl in Hlen, Hvis; split; [congruence |]; exists o, e
  end.
  intros idx fi Hfi.
  destruct (Hvis idx fi Hfi)
    as (a0 & wi & a1 & wi' & Hwi & Hstep & Hslot & Hgrow & Hev).
  exists a0, wi, a1, wi'. split; [exact Hwi |]. split; [exact Hstep |].
  split; [congruence |]. split; [|etransitivity; eassumption].
  eapply (added_run (fun _ => True)); [|exact Hstep]. apply edition_step_added.
Qed.

(** The flag [ekdin] is false in every record the pass leaves. *)
Lemma edition_pass_clears_ekdin w r w' :
  Analyxer.write_date_to_files_with_edition_kdin self w = (Ok r, w') ->
  Forall (fun fi => ekdin fi = false) (files2analyse w').
Proof.
  intros H. apply edition_pass_visits in H as (Hlen & o & e & Hvis).
  apply Forall_lookup_2. intros idx fi' Hfi'.
  destruct (files2analyse w !! idx) as [fi|] eqn:Hfi.
  2:{ apply lookup_ge_None in Hfi. apply lookup_lt_Some in Hfi'. lia. }
  destruct (Hvis idx fi Hfi)
    as (a0 & wi & a1 & wi' & Hwi & Hstep & Hslot & _ & _).
  rewrite Hslot in Hfi'.
  destruct (edition_step_ok _ _ _ _ _ _ _ _ Hwi Hstep) as (Hno & Hed & Hne).
  destruct (ekdin fi) eqn:Ee.
  - destruct (editable fi) eqn:Ed.
    + destruct (Hed eq_refl eq_refl) as (? & ? & ? & n & _ & _ & Hrec & _).
      rewrite Hrec in Hfi'. now injection Hfi' as <-.
    + destruct (Hne eq_refl eq_refl) as (n & _ & Hrec & _).
      rewrite Hrec in Hfi'. now injection Hfi' as <-.
  - destruct (Hno eq_refl) as [-> _]. rewrite Hwi in Hfi'.
    now injection Hfi' as <-.
Qed.


End EditionPass.

(** * The driver *)

Section Driver.

Context {E : Externals}.
Variable self : Config.

(** The messages that open a pass, in the order they were logged. *)
Definition is_phase (e : event) : bool :=
  match e with
  | EvLog _ msg _ => String.prefix Analyxer.phs msg
  | _ => false
  end.

Fixpoint phases (t : list event) : list string :=
  match t with
  | [] => []
  | EvLog lvl msg args :: t' =>
      if is_phase (EvLog lvl msg args) then msg :: phases t' else phases t'
  | _ :: t' => phases t'
  end.

Definition quiet (e : event) : Prop := is_phase e = false.

Lemma phases_app t1 t2 : phases (t1 ++ t2) = phases t1 ++ phases t2.
Proof.
  induction t1 as [|e t1 IH]; simpl; [reflexivity |].
  destruct e; try exact IH.
  destruct (String.prefix Analyxer.phs msg); simpl; now rewrite IH.
Qed.

Lemma phases_quiet t : Forall quiet t -> phases t = [].
Proof.
  induction 1 as [|e t He _ IH]; simpl; [reflexivity |].
  destruct e; try exact IH.
  unfold quiet in He. simpl in He. now rewrite He.
Qed.

Lemma phases_added w0 w :
  added quiet w0 w -> phases (events w) = phases (events w0).
Proof.
  intros (t & -> & Ht). rewrite phases_app, (phases_quiet _ Ht).
  now rewrite app_nil_r.
Qed.

Ltac quiet_leaf :=
  first [ apply added_emit; reflexivity
        | apply added_assign
        | apply added_append
        | apply stable_effect; apply added_blind
        | apply stable_update; apply added_blind ].

(** A pass that returns has logged its opening message and no other. *)
Ltac one_phase H :=
  let u := fresh "u" in
  let w1 := fresh "w" in
  let Hlog := fresh "Hlog" in
  apply bind_ok in H as (u & w1 & Hlog & H);
  unfold log, emit, modify in Hlog; injection Hlog as _ <-;
  match type of H with
  | _ ?s = _ => eapply (stable_run (added quiet s)) in H
  end;
  [ apply phases_added in H; rewrite H; simpl events; rewrite phases_app;
    reflexivity
  | stable_tac quiet_leaf
  | apply added_refl ].

Lemma scan_phase w r w' :
  Analyxer.load_files2analyse self w = (Ok r, w') ->
  phases (events w')
  = phases (events w) ++ ["[ALX] <NewModulePhase> Scanning files in path..."].
Proof. intros H. unfold Analyxer.load_files2analyse in H. one_phase H. Qed.

Lemma proprietary_phase w r w' :
  Analyxer.rename_files_with_proprietary_convention self w = (Ok r, w') ->
  phases (events w')
  = phases (events w)
      ++ ["[ALX] <NewModulePhase> Scanning proprietary date-in-name files to rename..."].
Proof.
  intros H. unfold Analyxer.rename_files_with_proprietary_convention in H.
  one_phase H.
Qed.

Lemma integrity_phase w r w' :
  Analyxer.analyse_files_date_integrity self w = (Ok r, w') ->
  phases (events w')
  = phases (events w)
      ++ ["[ALX] <NewModulePhase> Checking file-dates integrity..."].
Proof.
  intros H. unfold Analyxer.analyse_files_date_integrity in H. one_phase H.
Qed.

Lemma edition_phase w r w' :
  Analyxer.write_date_to_files_with_edition_kdin self w = (Ok r, w') ->
  phases (events w')
  = phases (events w)
      ++ ["[ALX] <NewModulePhase> Scanning edition-date-in-name files to store..."].
Proof.
  intros H. unfold Analyxer.write_date_to_files_with_edition_kdin in H.
  one_phase H.
Qed.

Lemma consistency_phase margin w r w' :
  Analyxer.analyse_files_date_consistency self margin w = (Ok r, w') ->
  phases (events w')
  = phases (events w)
      ++ ["[ALX] <NewModulePhase> Scanning file Metadates and KDIN consistency..."].
Proof.
  intros H. unfold Analyxer.analyse_files_date_consistency in H. one_phase H.
Qed.

Lemma bounds_phase w r w' :
  Analyxer.detect_files_out_of_folder_date_bounds self w = (Ok r, w') ->
  phases (events w')
  = phases (events w)
      ++ ["[ALX] <NewModulePhase> Checking file-dates out of folder-bounds..."].
Proof.
  intros H. unfold Analyxer.detect_files_out_of_folder_date_bounds in H.
  one_phase H.
Qed.

(** The stages of a run that returns. *)
Lemma run_passes margin_secs embedded w b w' :
  Analyxer.run self margin_secs embedded w = (Ok b, w') ->
  exists w0 w1 dups w2 warns0 w3 warns1 w4 warns2 w5 warns3 w6,
    untouched w w0
    /\ added quiet w w0
    /\ Analyxer.load_files2analyse self w0 = (Ok tt, w1)
    /\ Analyxer.rename_files_with_proprietary_convention self w1 = (Ok dups, w2)
    /\ Analyxer.analyse_files_date_integrity self w2 = (Ok warns0, w3)
    /\ Analyxer.write_date_to_files_with_edition_kdin self w3 = (Ok warns1, w4)
    /\ Analyxer.analyse_files_date_consistency self margin_secs w4
       = (Ok warns2, w5)
    /\ Analyxer.detect_files_out_of_folder_date_bounds self w5 = (Ok warns3, w6)
    /\ files2analyse w' = files2analyse w6
    /\ added quiet w6 w'
    /\ b = negb (length warns0 + length warns1 + length warns2
                 + length warns3 =? 0)%nat.
Proof.
  unfold Analyxer.run. intros H.
  do 8 (let u := fresh "u" in
        let w1 := fresh "w" in
        let Hlog := fresh "Hlog" in
        apply bind_ok in H as (u & w1 & Hlog & H);
        unfold log, emit, modify in Hlog; injection Hlog as _ <-).
  apply bind_ok in H as ([] & w1 & H1 & H).
  apply bind_ok in H as (dups & w2 & H2 & H).
  apply bind_ok in H as (warns0 & w3 & H3 & H).
  apply bind_ok in H as (warns1 & w4 & H4 & H).
  apply bind_ok in H as (warns2 & w5 & H5 & H).
  apply bind_ok in H as (warns3 & w6 & H6 & H).
  apply bind_ok in H as (u' & w7 & H7 & H).
  unfold ret in H. injection H as <- <-.
  eexists _, w1, dups, w2, warns0, w3, warns1, w4, warns2, w5, warns3, w6.
  split; [|split; [|split; [exact H1 |]]].
  - repeat split.
  - eexists. simpl. split.
    + repeat rewrite <- app_assoc. simpl. reflexivity.
    + repeat constructor.
  - repeat (split; [eassumption |]).
    split; [|split; [|reflexivity]].
    + eapply (stable_run (same_store w6)); [| reflexivity | exact H7].
      stable_tac store_leaf.
    + eapply (stable_run (added quiet w6)); [| apply added_refl | exact H7].
      stable_tac quiet_leaf.
Qed.

(** The messages that open the six passes, in the order of the passes. *)
Definition six_phases : list string :=
  ["[ALX] <NewModulePhase> Scanning files in path...";
   "[ALX] <NewModulePhase> Scanning proprietary date-in-name files to rename...";
   "[ALX] <NewModulePhase> Checking file-dates integrity...";
   "[ALX] <NewModulePhase> Scanning edition-date-in-name files to store...";
   "[ALX] <NewModulePhase> Scanning file Metadates and KDIN consistency...";
   "[ALX] <NewModulePhase> Checking file-dates out of folder-bounds..."].

(** C7. A run that returns has executed the six passes in the order
    scan, proprietary rename, date integrity, edit-date migration,
    consistency check, folder bounds, each on the world the previous one
    left (their opening messages are logged in that order, once each).
    It returns true if and only if the four report lists of the last four
    passes have a combined length other than zero; the duplicates
    returned by the proprietary-rename pass do not count. *)
Theorem C7_run_order_and_result margin_secs embedded (w : World) b w' :
  Analyxer.run self margin_secs embedded w = (Ok b, w') ->
  exists w0 w1 dups w2 warns0 w3 warns1 w4 warns2 w5 warns3 w6,
    untouched w w0
    /\ Analyxer.load_files2analyse self w0 = (Ok tt, w1)
    /\ Analyxer.rename_files_with_proprietary_convention self w1 = (Ok dups, w2)
    /\ Analyxer.analyse_files_date_integrity self w2 = (Ok warns0, w3)
    /\ Analyxer.write_date_to_files_with_edition_kdin self w3 = (Ok warns1, w4)
    /\ Analyxer.analyse_files_date_consistency self margin_secs w4
       = (Ok warns2, w5)
    /\ Analyxer.detect_files_out_of_folder_date_bounds self w5 = (Ok warns3, w6)
    /\ files2analyse w' = files2analyse w6
    /\ phases (events w') = phases (events w) ++ six_phases
    /\ (b = true
        <-> (length warns0 + length warns1 + length warns2 + length warns3
             <> 0)%nat)
    /\ (warns0 = [] -> warns1 = [] -> warns2 = [] -> warns3 = [] -> b = false).
Proof.
  intros H. apply run_passes in H
    as (w0 & w1 & dups & w2 & warns0 & w3 & warns1 & w4 & warns2 & w5 & warns3
        & w6 & Hu & Ha & H1 & H2 & H3 & H4 & H5 & H6 & Hs & Hq & ->).
  exists w0, w1, dups, w2, warns0, w3, warns1, w4, warns2, w5, warns3, w6.
  repeat (split; [assumption |]).
  split; [|split].
  - rewrite (phases_added _ _ Hq), (bounds_phase _ _ _ H6),
      (consistency_phase _ _ _ _ H5), (edition_phase _ _ _ H4),
      (integrity_phase _ _ _ H3), (proprietary_phase _ _ _ H2),
      (scan_phase _ _ _ H1), (phases_added _ _ Ha).
    unfold six_phases. repeat rewrite <- app_assoc. reflexivity.
  - rewrite negb_true_iff, Nat.eqb_neq. reflexivity.
  - intros -> -> -> ->. reflexivity.
Qed.


End Driver.

(** * The stored metadata date *)

Section Keeps.

Context {S : Type}.

(** [m] keeps the invariant [I], and what it returns satisfies [Q]. *)
Definition keeps {A} (I : S -> Prop) (Q : A -> Prop) (m : M S A) : Prop :=
  forall s, I s -> I (snd (m s)) /\ forall a, fst (m s) = Ok a -> Q a.

Lemma keeps_stable {A} I (Q : A -> Prop) m : keeps I Q m -> stable I m.
Proof. intros H s Hs. exact (proj1 (H s Hs)). Qed.

Lemma keeps_ret {A} I (Q : A -> Prop) a : Q a -> keeps I Q (ret a).
Proof. intros H s Hs. split; [exact Hs | now intros a' [= <-]]. Qed.

Lemma keeps_lift {A} I (Q : A -> Prop) r :
  (forall a, r = Ok a -> Q a) -> keeps I Q (lift r).
Proof. intros H s Hs. split; [exact Hs | exact H]. Qed.

Lemma keeps_bind {A B} I (Q1 : A -> Prop) (Q : B -> Prop) m k :
  keeps I Q1 m -> (forall a, Q1 a -> keeps I Q (k a)) -> keeps I Q (bind m k).
Proof.
  intros Hm Hk s Hs. destruct (Hm s Hs) as [H1 H2]. unfold bind.
  destruct (m s) as [[a|e] s1]; simpl in *.
  - exact (Hk a (H2 a eq_refl) s1 H1).
  - split; [exact H1 | discriminate].
Qed.

Lemma keeps_bind_any {A B} I (Q : B -> Prop) (m : M S A) k :
  stable I m -> (forall a, keeps I Q (k a)) -> keeps I Q (bind m k).
Proof.
  intros Hm Hk. apply (keeps_bind I (fun _ => True)); [|intros a _; apply Hk].
  intros s Hs. split; [now apply Hm | trivial].
Qed.

Lemma stable_bind_keeps {A B} I (Q : A -> Prop) (m : M S A) (k : A -> M S B) :
  keeps I Q m -> (forall a, Q a -> stable I (k a)) -> stable I (bind m k).
Proof.
  intros Hm Hk s Hs. destruct (Hm s Hs) as [H1 H2]. unfold bind.
  destruct (m s) as [[a|e] s1]; simpl in *; [|exact H1].
  exact (Hk a (H2 a eq_refl) s1 H1).
Qed.

End Keeps.

Section StoredDate.

Context {E : Externals}.

(** A record whose [metadte] is true has had its date assigned. *)
Definition record_ok (fi : FileInfo) : Prop :=
  metadte fi = true -> exists d, _metadata_original_date fi = Some d.

Definition store_ok (w : World) : Prop := Forall record_ok (files2analyse w).

Lemma store_ok_blind : blind store_ok.
Proof. intros w mm o H. exact H. Qed.

Lemma store_ok_emit e : stable store_ok (emit e).
Proof. intros w H. exact H. Qed.

Lemma store_ok_assign idx fi : record_ok fi -> stable store_ok (assign idx fi).
Proof. intros Hfi w Hw. unfold store_ok. simpl. now apply Forall_insert. Qed.

Lemma store_ok_append fi : record_ok fi -> stable store_ok (append fi).
Proof.
  intros Hfi w Hw. unfold store_ok. simpl. apply Forall_app. split; [exact Hw |].
  now constructor.
Qed.

Lemma store_ok_untouched w0 w : store_ok w0 -> untouched w0 w -> store_ok w.
Proof. intros H0 (Hs & _). unfold store_ok. now rewrite Hs. Qed.

Lemma keeps_bind_deref {B} (Q : B -> Prop) idx (k : FileInfo -> W B) :
  (forall fi, record_ok fi -> keeps store_ok Q (k fi)) ->
  keeps store_ok Q (bind (deref idx) k).
Proof.
  intros Hk w Hw. unfold bind, deref, query.
  destruct (files2analyse w !! idx) as [fi|] eqn:Hfi.
  - apply Hk; [|exact Hw]. exact (Forall_lookup_1 _ _ _ _ Hw Hfi).
  - split; [exact Hw | discriminate].
Qed.

Lemma store_ok_for_enumerate {Acc} (body : Acc -> nat -> FileInfo -> W Acc) acc :
  (forall acc idx fi, record_ok fi -> stable store_ok (body acc idx fi)) ->
  stable store_ok (for_enumerate body acc).
Proof.
  intros Hb. unfold for_enumerate.
  apply stable_bind; [apply stable_gets |]. intros n.
  apply stable_for_each. intros acc' idx.
  apply (keeps_stable _ (fun _ => True)), keeps_bind_deref.
  intros fi Hfi w Hw. split; [now apply Hb | trivial].
Qed.

End StoredDate.

Ltac ok_leaf :=
  first [ apply store_ok_emit
        | apply stable_effect; apply store_ok_blind
        | apply stable_update; apply store_ok_blind
        | apply store_ok_assign; assumption
        | apply store_ok_append; assumption ].

Section StoredDatePasses.

Context {E : Externals}.
Variable self : Config.

Lemma scan_file_store_ok file : stable store_ok (Analyxer.scan_file self file).
Proof.
  unfold Analyxer.scan_file.
  destruct (Str.mem _ _); [apply stable_ret |].
  destruct (Str.mem _ _); [apply stable_ret |].
  apply stable_bind; [stable_tac ok_leaf | intros editor].
  apply stable_bind; [stable_tac ok_leaf | intros metadate].
  apply stable_bind; [stable_tac ok_leaf | intros editor'].
  apply (stable_bind_keeps _ record_ok).
  - destruct metadate as [d|].
    + apply keeps_lift. intros a. unfold FileInfoM.set_metadate_original.
      simpl. intros [= <-] _. now exists d.
    + apply keeps_ret. intros [=].
  - intros finfo Hok. now apply store_ok_append.
Qed.

Lemma scan_store_ok : stable store_ok (Analyxer.load_files2analyse self).
Proof.
  unfold Analyxer.load_files2analyse.
  apply stable_bind; [stable_tac ok_leaf | intros ?].
  apply stable_bind; [stable_tac ok_leaf | intros ?].
  apply stable_bind; [stable_tac ok_leaf | intros ?].
  apply stable_bind; [| intros ?; stable_tac ok_leaf].
  apply stable_for_each. intros _ file. apply scan_file_store_ok.
Qed.

Lemma proprietary_step_store_ok acc idx fi :
  record_ok fi -> stable store_ok (Analyxer.proprietary_step acc idx fi).
Proof.
  intros Hfi. unfold Analyxer.proprietary_step. destruct acc as [l r].
  destruct (prpdin fi); [|apply stable_ret].
  apply (stable_bind_keeps _ record_ok).
  - unfold PropInfo.update_proprietary_din. apply keeps_bind_deref.
    intros fileinfo Hok. apply keeps_bind_any; [stable_tac ok_leaf |].
    intros new_path. destruct (negb _).
    + apply keeps_bind_any; [now apply store_ok_assign | intros _].
      now apply keeps_ret.
    + now apply keeps_ret.
  - intros updated Hok. stable_tac ok_leaf.
Qed.

Lemma proprietary_store_ok :
  stable store_ok (Analyxer.rename_files_with_proprietary_convention self).
Proof.
  unfold Analyxer.rename_files_with_proprietary_convention.
  apply stable_bind; [stable_tac ok_leaf | intros ?].
  apply stable_bind; [| intros ?; stable_tac ok_leaf].
  apply store_ok_for_enumerate. intros. now apply proprietary_step_store_ok.
Qed.

Lemma integrity_store_ok :
  stable store_ok (Analyxer.analyse_files_date_integrity self).
Proof.
  unfold Analyxer.analyse_files_date_integrity.
  apply stable_bind; [stable_tac ok_leaf | intros ?].
  apply stable_bind; [| intros ?; stable_tac ok_leaf].
  apply store_ok_for_enumerate. intros acc idx fi Hfi.
  stable_tac ok_leaf.
Qed.

Lemma edition_step_store_ok o e acc idx fi :
  record_ok fi -> stable store_ok (Analyxer.edition_step self o e acc idx fi).
Proof.
  intros Hfi. unfold Analyxer.edition_step. destruct acc as [l r].
  destruct (ekdin fi); [|apply stable_ret].
  destruct (editable fi); [|stable_tac ok_leaf].
  do 9 (apply stable_bind; [stable_tac ok_leaf | intros ?]).
  intros w Hw.
  unfold bind, assign, modify, lift, FileInfoM.set_metadate_original, ret.
  simpl. unfold store_ok. simpl. rewrite list_insert_insert_eq.
  apply Forall_insert; [exact Hw |].
  intros _. simpl. eauto.
Qed.

Lemma edition_store_ok :
  stable store_ok (Analyxer.write_date_to_files_with_edition_kdin self).
Proof.
  unfold Analyxer.write_date_to_files_with_edition_kdin.
  apply stable_bind; [stable_tac ok_leaf | intros ?].
  apply stable_bind; [stable_tac ok_leaf | intros folder].
  apply stable_bind; [| intros ?; stable_tac ok_leaf].
  unfold Analyxer.edition_loop.
  apply store_ok_for_enumerate. intros. now apply edition_step_store_ok.
Qed.

Lemma consistency_store_ok margin_secs :
  stable store_ok (Analyxer.analyse_files_date_consistency self margin_secs).
Proof. stable_tac ok_leaf. Qed.

Lemma bounds_store_ok :
  stable store_ok (Analyxer.detect_files_out_of_folder_date_bounds self).
Proof. stable_tac ok_leaf. Qed.

Lemma run_store_ok margin_secs embedded :
  stable store_ok (Analyxer.run self margin_secs embedded).
Proof.
  unfold Analyxer.run.
  do 8 (apply stable_bind; [stable_tac ok_leaf | intros ?]).
  apply stable_bind; [apply scan_store_ok | intros ?].
  apply stable_bind; [apply proprietary_store_ok | intros ?].
  apply stable_bind; [apply integrity_store_ok | intros ?].
  apply stable_bind; [apply edition_store_ok | intros ?].
  apply stable_bind; [apply consistency_store_ok | intros ?].
  apply stable_bind; [apply bounds_store_ok | intros ?].
  stable_tac ok_leaf.
Qed.

(** C10. Every operation of the pipeline keeps the invariant that a
    record with [metadte] true has had its metadata original date
    assigned (by the scan pass, from the gateway, or by the edit-date
    migration pass, from the EKDIN date): the store of a new [Analyxer]
    satisfies it, every pass and the whole run keep it whatever their
    outcome, and under it [get_metadate_original] on a record with
    [metadte] true returns the assigned date, not the default of the
    class. *)
Theorem C10_metadate_explicitly_stored :
  (forall pilexif_log o, store_ok (Analyxer.init self pilexif_log o))
  /\ (forall w : World,
        store_ok w ->
        store_ok (snd (Analyxer.load_files2analyse self w))
        /\ store_ok (snd (Analyxer.rename_files_with_proprietary_convention self w))
        /\ store_ok (snd (Analyxer.analyse_files_date_integrity self w))
        /\ store_ok (snd (Analyxer.write_date_to_files_with_edition_kdin self w))
        /\ (forall margin_secs,
              store_ok (snd (Analyxer.analyse_files_date_consistency
                               self margin_secs w)))
        /\ store_ok (snd (Analyxer.detect_files_out_of_folder_date_bounds self w))
        /\ (forall margin_secs embedded,
              store_ok (snd (Analyxer.run self margin_secs embedded w))))
  /\ (forall w : World,
        store_ok w ->
        forall fi,
          In fi (files2analyse w) ->
          metadte fi = true ->
          exists d,
            _metadata_original_date fi = Some d
            /\ FileInfoM.get_metadate_original fi = Ok d).
Proof.
  split; [|split].
  - intros pilexif_log o. constructor.
  - intros w Hw. repeat split.
    + now apply scan_store_ok.
    + now apply proprietary_store_ok.
    + now apply integrity_store_ok.
    + now apply edition_store_ok.
    + intros m. now apply consistency_store_ok.
    + now apply bounds_store_ok.
    + intros m emb. now apply run_store_ok.
  - intros w Hw fi Hin Hm.
    unfold store_ok in Hw. rewrite List.Forall_forall in Hw.
    destruct (Hw fi Hin Hm) as [d Hd]. exists d. split; [exact Hd |].
    unfold FileInfoM.get_metadate_original. now rewrite Hm, Hd.
Qed.

End StoredDatePasses.

(** * The pipeline on examples *)

Section Examples.

#[local] Existing Instance Demo.collaborators.

Import Demo.






Lemma C2_integrity_witness :
  Analyxer.analyse_files_date_integrity config (scanned config review_tree)
  = (Ok [photo "dmg.jpg"; photo "KDIN 20220505-120000 TR plain.jpg"],
     snd (Analyxer.analyse_files_date_integrity config (scanned config review_tree)))
  /\ length (files2analyse
               (snd (Analyxer.analyse_files_date_integrity
                       config (scanned config review_tree))))
     = length (files2analyse (scanned config review_tree)).
Proof.
  assert (H : Analyxer.analyse_files_date_integrity config (scanned config review_tree)
              = (Ok [photo "dmg.jpg"; photo "KDIN 20220505-120000 TR plain.jpg"],
                 snd (Analyxer.analyse_files_date_integrity
                        config (scanned config review_tree))))
    by (vm_compute; reflexivity).
  split; [exact H |].
  exact (proj1 (C2_integrity_damaged_or_review config _ _ _ H)).
Defined.


Definition edit_record : FileInfo :=
  FileInfoM.new false true false false true true
                (photo "EKDIN 20210304-000000 b.jpg").




Lemma C5_bounds_witness :
  Analyxer.detect_files_out_of_folder_date_bounds
    year_config (scanned year_config year_tree)
  = (Ok [["home"; "Y2019"; "KDIN 20200601-000000 a.jpg"]],
     snd (Analyxer.detect_files_out_of_folder_date_bounds
            year_config (scanned year_config year_tree)))
  /\ [["home"; "Y2019"; "KDIN 20200601-000000 a.jpg"]]
     = List.map abs_path
         (List.filter (out_of_bounds year_config)
                      (files2analyse (scanned year_config year_tree))).
Proof.
  assert (H : Analyxer.detect_files_out_of_folder_date_bounds
                year_config (scanned year_config year_tree)
              = (Ok [["home"; "Y2019"; "KDIN 20200601-000000 a.jpg"]],
                 snd (Analyxer.detect_files_out_of_folder_date_bounds
                        year_config (scanned year_config year_tree))))
    by (vm_compute; reflexivity).
  split; [exact H |].
  exact (proj1 (proj2 (C5_folder_bounds_best_date year_config _ _ _ H)) _ eq_refl).
Defined.

Lemma C6_proprietary_witness :
  Analyxer.rename_files_with_proprietary_convention
    config (scanned config vendor_tree)
  = (Ok [photo "IMG_20200101-100000 d.jpg"],
     snd (Analyxer.rename_files_with_proprietary_convention
            config (scanned config vendor_tree)))
  /\ length (files2analyse
               (snd (Analyxer.rename_files_with_proprietary_convention
                       config (scanned config vendor_tree))))
     = length (files2analyse (scanned config vendor_tree)).
Proof.
  assert (H : Analyxer.rename_files_with_proprietary_convention
                config (scanned config vendor_tree)
              = (Ok [photo "IMG_20200101-100000 d.jpg"],
                 snd (Analyxer.rename_files_with_proprietary_convention
                        config (scanned config vendor_tree))))
    by (vm_compute; reflexivity).
  split; [exact H |].
  exact (proj1 (C6_proprietary_no_overwrite config _ _ _ H)).
Defined.

(** A run in which the proprietary-rename pass finds a duplicate and no
    other pass reports anything returns false. *)
Lemma C7_run_witness :
  Analyxer.run config default_margin_secs true (world taken_tree)
  = (Ok false,
     snd (Analyxer.run config default_margin_secs true (world taken_tree)))
  /\ phases (events (snd (Analyxer.run config default_margin_secs true
                                       (world taken_tree))))
     = phases (events (world taken_tree)) ++ six_phases.
Proof.
  assert (H : Analyxer.run config default_margin_secs true (world taken_tree)
              = (Ok false,
                 snd (Analyxer.run config default_margin_secs true
                                   (world taken_tree))))
    by (vm_compute; reflexivity).
  split; [exact H |].
  destruct (C7_run_order_and_result config _ _ _ _ _ H)
    as (w0 & w1 & dups & w2 & warns0 & w3 & warns1 & w4 & warns2 & w5 & warns3
        & w6 & _ & _ & _ & _ & _ & _ & _ & _ & Hp & _).
  exact Hp.
Defined.


Definition migrated_record : FileInfo :=
  migrated (photo "b.jpg") (at_ 2021 3 4 0 0 0) edit_record.

Lemma C10_stored_date_witness :
  store_ok (world edit_tree)
  /\ store_ok (snd (Analyxer.run config default_margin_secs true (world edit_tree)))
  /\ In migrated_record
        (files2analyse
           (snd (Analyxer.run config default_margin_secs true (world edit_tree))))
  /\ FileInfoM.get_metadate_original migrated_record = Ok (at_ 2021 3 4 0 0 0).
Proof.
  assert (H : store_ok (world edit_tree))
    by exact (proj1 (C10_metadate_explicitly_stored config) true edit_tree).
  split; [exact H |].
  destruct (proj1 (proj2 (C10_metadate_explicitly_stored config)) _ H)
    as (_ & _ & _ & _ & _ & _ & Hrun).
  specialize (Hrun default_margin_secs true).
  split; [exact Hrun |].
  assert (Hin : In migrated_record
                   (files2analyse
                      (snd (Analyxer.run config default_margin_secs true
                                         (world edit_tree)))))
    by (vm_compute; left; reflexivity).
  split; [exact Hin |].
  destruct (proj2 (proj2 (C10_metadate_explicitly_stored config))
                  _ Hrun migrated_record Hin eq_refl) as (d & Hd & Hget).
  injection Hd as <-. exact Hget.
Defined.

End Examples.

(** * Further properties of the record type and of the scan test *)

Section RecordRoundTrip.

(** X1. On a record with [metadte] true, [set_metadate_original] followed
    by [get_metadate_original] returns the date that was set; the other
    fields are unchanged, and a later set replaces the earlier date. *)
Theorem set_get_metadate_roundtrip (fi : FileInfo) (d : datetime) :
  metadte fi = true ->
  exists fi',
    FileInfoM.set_metadate_original fi d = Ok fi'
    /\ FileInfoM.get_metadate_original fi' = Ok d
    /\ kdin fi' = kdin fi /\ ekdin fi' = ekdin fi /\ prpdin fi' = prpdin fi
    /\ metadte fi' = true /\ readable fi' = readable fi
    /\ editable fi' = editable fi /\ abs_path fi' = abs_path fi
    /\ forall d2,
        exists fi'',
          FileInfoM.set_metadate_original fi' d2 = Ok fi''
          /\ FileInfoM.get_metadate_original fi'' = Ok d2.
Proof.
  intros Hm. exists (FileInfoM.with_date d fi).
  unfold FileInfoM.set_metadate_original, FileInfoM.get_metadate_original.
  rewrite Hm. simpl. rewrite Hm. repeat split.
  intros d2. exists (FileInfoM.with_date d2 (FileInfoM.with_date d fi)).
  simpl. rewrite Hm. now split.
Qed.

Lemma set_get_metadate_roundtrip_witness :
  exists fi',
    FileInfoM.set_metadate_original
      (FileInfoM.new true false false true true true ["home"; "a.jpg"])
      (DateTime.ymd 2020 1 1) = Ok fi'
    /\ FileInfoM.get_metadate_original fi' = Ok (DateTime.ymd 2020 1 1).
Proof.
  destruct (set_get_metadate_roundtrip
              (FileInfoM.new true false false true true true ["home"; "a.jpg"])
              (DateTime.ymd 2020 1 1) eq_refl) as (fi' & H1 & H2 & _).
  exists fi'. now split.
Defined.



End RecordRoundTrip.

(** * Further properties of the metadata manager *)

Section ManagerProperties.

Context {E : Externals}.

Lemma pair_of_fst {A B} (x : A * B) (a : A) : fst x = a -> x = (a, snd x).
Proof. destruct x. simpl. now intros ->. Qed.


End ManagerProperties.

Section ManagerDates.

Context {E : Externals}.

Lemma stable_conj {S A} (I J : S -> Prop) (m : M S A) :
  stable I m -> stable J m -> stable (fun s => I s /\ J s) m.
Proof. intros HI HJ s [H1 H2]. split; [now apply HI | now apply HJ]. Qed.

(** [has_valid_date_original] reads the state only; a true answer comes
    with the date [get_date_original] returns, whose year is within the
    year bounds of the manager. *)
Lemma has_valid_date_original_run (w : World) r w' :
  MetaManagerM.has_valid_date_original w = (r, w') ->
  w' = w
  /\ (r = Ok true ->
      exists d,
        MetaManagerM.get_date_original w = (Ok d, w)
        /\ (fst (_year_bounds (metadata_editor w)) <= year d)%nat
        /\ (year d <= snd (_year_bounds (metadata_editor w)))%nat).
Proof.
  unfold MetaManagerM.has_valid_date_original, MetaManagerM.get_date_original,
    MetaManagerM.self_, bind, gets, lift, ret. simpl.
  destruct (_year_bounds (metadata_editor w)) as [year0 year1]. simpl.
  destruct (_load_id (metadata_editor w)) eqn:El; cbn; rewrite ?El; cbn.
  - destruct (pil_has_date_original _); [|intros [= <- <-]; now split].
    cbn. rewrite El.
    destruct (pil_get_date_original _) as [d|e]; intros [= <- <-];
      (split; [reflexivity |]); [|discriminate].
    intros [= H]. apply andb_true_iff in H as [H1 H2].
    apply Nat.leb_le in H1, H2. now exists d.
  - destruct (exf_has_metadata_date_original _); [|intros [= <- <-]; now split].
    cbn. rewrite El.
    destruct (exf_get_date_original _) as [d|e]; intros [= <- <-];
      (split; [reflexivity |]); [|discriminate].
    intros [= H]. apply andb_true_iff in H as [H1 H2].
    apply Nat.leb_le in H1, H2. now exists d.
Qed.

(** X4. [has_valid_date_original] changes nothing, whatever its outcome.
    When it answers true, [get_date_original] returns a date, and the year
    of that date lies within the year bounds the manager was built with;
    when [get_date_original] raises, so does [has_valid_date_original]
    unless the backend says there is no date. *)
Theorem has_valid_date_original_in_bounds (w : World) :
  snd (MetaManagerM.has_valid_date_original w) = w
  /\ (fst (MetaManagerM.has_valid_date_original w) = Ok true ->
      exists d,
        MetaManagerM.get_date_original w = (Ok d, w)
        /\ (fst (_year_bounds (metadata_editor w)) <= year d)%nat
        /\ (year d <= snd (_year_bounds (metadata_editor w)))%nat)
  /\ (forall e b,
        MetaManagerM.get_date_original w = (Raise e, w) ->
        fst (MetaManagerM.has_valid_date_original w) = Ok b ->
        b = false).
Proof.
  destruct (MetaManagerM.has_valid_date_original w) as [r w'] eqn:H.
  destruct (has_valid_date_original_run _ _ _ H) as [-> Hd]. simpl.
  split; [reflexivity |]. split; [exact Hd |].
  intros e b He ->. destruct b; [|reflexivity].
  destruct (Hd eq_refl) as (d & Hg & _). congruence.
Qed.

(** The calls made to the ExifTool backend. *)
Definition is_exiftool_call (e : event) : bool :=
  match e with
  | EvLoad EXIFTOOL _ | EvSetDate EXIFTOOL _ | EvSave EXIFTOOL _ => true
  | _ => false
  end.

Definition no_exiftool (e : event) : Prop := is_exiftool_call e = false.

(** The manager works with the Pillow backend only, and has made no call
    to ExifTool since [w0]. *)
Definition pillow_only (w0 w : World) : Prop :=
  _pilonly (metadata_editor w) = true
  /\ _exftool (metadata_editor w) = _exftool (metadata_editor w0)
  /\ added no_exiftool w0 w.

Lemma pillow_only_refl w : _pilonly (metadata_editor w) = true -> pillow_only w w.
Proof. intros H. split; [exact H |]. split; [reflexivity | apply added_refl]. Qed.

Lemma pillow_only_emit w0 e : no_exiftool e -> stable (pillow_only w0) (emit e).
Proof.
  intros He w (H1 & H2 & H3). split; [exact H1 |]. split; [exact H2 |].
  now apply added_emit.
Qed.

Lemma pillow_only_load_file w0 file :
  stable (pillow_only w0) (MetaManagerM.load_file file).
Proof.
  intros w (Hp & Hx & t & Ht & HP).
  unfold MetaManagerM.load_file, MetaManagerM.readable_extensions,
    MetaManagerM.self_, MetaManagerM.update, MetaManagerM.pilexif_load_file,
    try_except, bind, gets, modify, emit, effect, raise, ret.
  rewrite Hp. cbn [negb]. rewrite app_nil_r.
  destruct (Str.mem (suffix_upper file) PIL_READABLE_EXTENSIONS) eqn:Em; cbn.
  2:{ split; [exact Hp |]. split; [exact Hx |]. now exists t. }
  destruct (pil_load_file file (outside w) (_pilexif (metadata_editor w)))
    as [[[]|e] o]; cbn.
  - split; [exact Hp |]. split; [exact Hx |].
    exists (t ++ [EvLoad PILLOW file]). split.
    + rewrite Ht. now rewrite <- app_assoc.
    + apply Forall_app. split; [exact HP | now constructor].
  - assert (G : pillow_only w0
                  (with_outside (outside w)
                     (with_editor
                        (with_pilexif o
                           (with_load_id PILLOW
                              (with_filepath (Some file) (metadata_editor w))))
                        (with_events (events w ++ [EvLoad PILLOW file])
                           (with_editor
                              (with_load_id PILLOW
                                 (with_filepath (Some file) (metadata_editor w)))
                              (with_editor
                                 (with_filepath (Some file) (metadata_editor w))
                                 w)))))).
    { split; [exact Hp |]. split; [exact Hx |].
      exists (t ++ [EvLoad PILLOW file]). split.
      + cbn. rewrite Ht. now rewrite <- app_assoc.
      + apply Forall_app. split; [exact HP | now constructor]. }
    destruct (is_ValueError e); cbn; [rewrite Hp; cbn |]; exact G.
Qed.

End ManagerDates.

Ltac pillow_leaf :=
  first [ apply pillow_only_emit; reflexivity
        | let H1 := fresh in
          let H2 := fresh in
          let H3 := fresh in
          intros ? (H1 & H2 & H3);
          split; [exact H1 | split; [exact H2 | exact H3]] ].

Section PillowOnlyScan.

Context {E : Externals}.
Variable self : Config.

Lemma pillow_only_scan_file w0 file :
  stable (pillow_only w0) (Analyxer.scan_file self file).
Proof.
  unfold Analyxer.scan_file.
  destruct (Str.mem _ _); [apply stable_ret |].
  destruct (Str.mem _ _); [apply stable_ret |].
  apply stable_bind; [stable_tac pillow_leaf | intros editor].
  apply stable_bind.
  { destruct (Str.mem _ _); [|apply stable_ret].
    apply stable_bind; [apply pillow_only_load_file | intros _].
    stable_tac pillow_leaf. }
  intros metadate. stable_tac pillow_leaf.
Qed.

(** X5. With a manager that works with Pillow only, the scan pass never
    reaches ExifTool: whatever its outcome, no load, set or save call to
    the ExifTool backend is made, the ExifTool object is the one it was, the
    manager still works with Pillow only, and [load_file] never takes the
    branch that selects ExifTool. *)
Theorem pilexif_only_scan_never_calls_exiftool (w : World) :
  _pilonly (metadata_editor w) = true ->
  (let w' := snd (Analyxer.load_files2analyse self w) in
   _pilonly (metadata_editor w') = true
   /\ _exftool (metadata_editor w') = _exftool (metadata_editor w)
   /\ exists calls,
       events w' = events w ++ calls
       /\ Forall (fun e => is_exiftool_call e = false) calls)
  /\ forall file w',
      MetaManagerM.load_file file w = (Ok tt, w') ->
      _load_id (metadata_editor w') = PILLOW
      /\ events w' = events w ++ [EvLoad PILLOW file].
Proof.
  intros Hp. split.
  - assert (Hs : stable (pillow_only w) (Analyxer.load_files2analyse self)).
    { unfold Analyxer.load_files2analyse.
      apply stable_bind; [stable_tac pillow_leaf | intros ?].
      apply stable_bind; [stable_tac pillow_leaf | intros ?].
      apply stable_bind; [stable_tac pillow_leaf | intros ?].
      apply stable_bind; [| intros ?; stable_tac pillow_leaf].
      apply stable_for_each. intros _ file. apply pillow_only_scan_file. }
    exact (Hs w (pillow_only_refl w Hp)).
  - intros file w'.
    unfold MetaManagerM.load_file, MetaManagerM.readable_extensions,
      MetaManagerM.self_, MetaManagerM.update, MetaManagerM.pilexif_load_file,
      try_except, bind, gets, modify, emit, effect, raise, ret.
    rewrite Hp. cbn [negb]. rewrite app_nil_r.
    destruct (Str.mem (suffix_upper file) PIL_READABLE_EXTENSIONS) eqn:Em; cbn;
      [|discriminate].
    destruct (pil_load_file file (outside w) (_pilexif (metadata_editor w)))
      as [[[]|e] o]; cbn.
    + intros [= <-]. now split.
    + destruct (is_ValueError e); cbn; [rewrite Hp; cbn |]; discriminate.
Qed.

End PillowOnlyScan.

(** The two settings the constructor of the manager fixes. *)
Definition configured {E : Externals} (pilonly : bool) (yb : YearBounds)
           (w : World) : Prop :=
  _pilonly (metadata_editor w) = pilonly /\ _year_bounds (metadata_editor w) = yb.

Ltac config_leaf :=
  let H1 := fresh in
  let H2 := fresh in
  intros ? [H1 H2];
  unfold effect, MetaManagerM.update, emit, assign, append, modify;
  cbn [snd fst];
  repeat (match goal with
          | |- context [match ?x with _ => _ end] =>
              lazymatch x with
              | context [match _ with _ => _ end] => fail
              | _ => destruct x
              end
          end; cbn [snd fst]);
  split; [exact H1 | exact H2].

Section ManagerConfiguration.

Context {E : Externals}.
Variable self : Config.

Lemma run_configured pilonly yb margin_secs embedded :
  stable (configured pilonly yb) (Analyxer.run self margin_secs embedded).
Proof. stable_tac config_leaf. Qed.

(** X6. The constructor of [Analyxer] builds a manager on Pillow, with no
    file loaded, that works with Pillow only exactly when ExifTool was not
    detected, and whose year bounds are those of the configuration; on it
    [set_date_original] fails with its first assertion.  No operation
    changes the two settings afterwards: whatever the outcome of a run, the
    manager has the year bounds of the configuration and works with Pillow
    only exactly when ExifTool was not detected at construction. *)
Theorem manager_settings_fixed_at_construction (pilexif_log : bool) (o : OS) :
  let w0 := Analyxer.init self pilexif_log o in
  let detected :=
    exf_exiftool_detected (exf_new true (Some (meta_logs_path self)) o) in
  _filepath (metadata_editor w0) = None
  /\ _load_id (metadata_editor w0) = PILLOW
  /\ _pilonly (metadata_editor w0) = negb detected
  /\ _year_bounds (metadata_editor w0) = year_bounds self
  /\ (forall d,
        MetaManagerM.set_date_original d w0
        = (Raise (AssertionError "No file loaded to set date"), w0))
  /\ (forall margin_secs embedded,
        let w' := snd (Analyxer.run self margin_secs embedded w0) in
        _pilonly (metadata_editor w') = negb detected
        /\ _year_bounds (metadata_editor w') = year_bounds self).
Proof.
  intros w0 detected.
  assert (Hp : _pilonly (metadata_editor w0) = negb detected).
  { subst w0 detected. cbn. now destruct (exf_exiftool_detected _). }
  repeat split; try reflexivity; try exact Hp.
  - intros. apply (run_configured (negb detected) (year_bounds self)).
    now split.
  - intros. apply (run_configured (negb detected) (year_bounds self)).
    now split.
Qed.

End ManagerConfiguration.

Section ManagerBackends.

Context {E : Externals}.

(** A call to a backend, whatever its outcome: it is recorded, and the
    backend marker of the manager is as it was. *)
Lemma backend_call_run {A} ev (f : World -> result A * (MetaManager * OS)) w r w' :
  (forall w, _load_id (fst (snd (f w))) = _load_id (metadata_editor w)) ->
  (do* emit ev in effect f) w = (r, w') ->
  events w' = events w ++ [ev]
  /\ _load_id (metadata_editor w') = _load_id (metadata_editor w).
Proof.
  intros Hf. unfold emit, modify, effect, bind. simpl.
  match goal with
  | |- context [f ?x] => specialize (Hf x); destruct (f x) as [r0 [mm o]]
  end.
  intros [= <- <-]. simpl in *. now split.
Qed.

Ltac backend_run H :=
  apply backend_call_run in H;
  [| intros ?; cbn;
     repeat (match goal with
             | |- context [match ?x with _ => _ end] =>
                 lazymatch x with
                 | context [match _ with _ => _ end] => fail
                 | _ => destruct x
                 end
             end; cbn); reflexivity ].

(** X7. [set_date_original] saves the file itself, and a [save_file] that
    follows it saves it once more with the same backend: when both return,
    the calls made are possibly one ExifTool load, then the set of the date
    and two saves, all three on the backend the manager names afterwards.
    The load happens exactly when the manager is on Pillow and the
    extension of the file Pillow holds is not one Pillow can edit. *)
Theorem set_date_then_save_same_backend (d : datetime) (overwrite : bool)
        (w w1 w2 : World) :
  MetaManagerM.set_date_original d w = (Ok tt, w1) ->
  MetaManagerM.save_file overwrite w1 = (Ok tt, w2) ->
  let backend := _load_id (metadata_editor w2) in
  exists loads,
    events w2
    = events w ++ loads
        ++ [EvSetDate backend d; EvSave backend true; EvSave backend overwrite]
    /\ (loads = []
        \/ exists pil_path,
            pil_filepath (_pilexif (metadata_editor w)) = Some pil_path
            /\ _load_id (metadata_editor w) = PILLOW
            /\ Str.mem (suffix_upper pil_path) PIL_EDITABLE_EXTENSIONS = false
            /\ backend = EXIFTOOL
            /\ loads = [EvLoad EXIFTOOL pil_path]).
Proof.
  intros H1 H2 backend. subst backend.
  assert (Hsave : events w2
                  = events w1 ++ [EvSave (_load_id (metadata_editor w1)) overwrite]
                  /\ _load_id (metadata_editor w2) = _load_id (metadata_editor w1)).
  { unfold MetaManagerM.save_file in H2.
    apply bind_ok in H2 as (mm & w' & Hs & H2).
    unfold MetaManagerM.self_, gets in Hs. injection Hs as <- <-.
    destruct (_load_id (metadata_editor w1)) eqn:El1;
      unfold MetaManagerM.pilexif_save_file, MetaManagerM.exftool_save_file in H2;
      backend_run H2; rewrite El1 in H2; exact H2. }
  destruct Hsave as [E2 L2]. rewrite E2, L2. clear H2 E2 L2.
  unfold MetaManagerM.set_date_original in H1.
  apply bind_ok in H1 as (mm & w' & Hs & H1).
  unfold MetaManagerM.self_, gets in Hs. injection Hs as <- <-.
  destruct (_filepath (metadata_editor w)) as [filepath|]; [|discriminate].
  destruct (negb (Str.mem _ _)); [discriminate |].
  destruct (_load_id (metadata_editor w)) eqn:El.
  - destruct (pil_filepath _) as [pil_path|] eqn:Ep; [|discriminate].
    destruct (Str.mem _ PIL_EDITABLE_EXTENSIONS) eqn:Em.
    + apply bind_ok in H1 as (u & wa & Ha & Hb).
      unfold MetaManagerM.pilexif_set_date_original in Ha.
      unfold MetaManagerM.pilexif_save_file in Hb.
      backend_run Ha. backend_run Hb.
      destruct Ha as [Ea La], Hb as [Eb Lb].
      exists []. split; [|now left].
      rewrite Lb, La, El, Eb, Ea. cbn. now rewrite <- !app_assoc.
    + apply bind_ok in H1 as (u0 & w0 & H0 & H1).
      apply bind_ok in H1 as (ua & wa & Ha & H1).
      apply bind_ok in H1 as (ub & wb & Hb & Hc).
      unfold MetaManagerM.update, modify in H0. injection H0 as _ <-.
      unfold MetaManagerM.exftool_load_file in Ha.
      unfold MetaManagerM.exftool_set_date_original in Hb.
      unfold MetaManagerM.exftool_save_file in Hc.
      backend_run Ha. backend_run Hb. backend_run Hc.
      destruct Ha as [Ea La], Hb as [Eb Lb], Hc as [Ec Lc].
      exists [EvLoad EXIFTOOL pil_path]. split.
      * rewrite Lc, Lb, La, Ec, Eb, Ea. cbn. now rewrite <- !app_assoc.
      * right. exists pil_path. rewrite Lc, Lb, La. now repeat split.
  - apply bind_ok in H1 as (u & wa & Ha & Hb).
    unfold MetaManagerM.exftool_set_date_original in Ha.
    unfold MetaManagerM.exftool_save_file in Hb.
    backend_run Ha. backend_run Hb.
    destruct Ha as [Ea La], Hb as [Eb Lb].
    exists []. split; [|now left].
    rewrite Lb, La, El, Eb, Ea. cbn. now rewrite <- !app_assoc.
Qed.

(** X8. The two queries of the date-integrity pass load the file the
    same way: when [file_has_damaged_date] answers true, the temporary
    manager it loaded has a date of year 1, and [get_file_damaged_date]
    returns what that same manager gives as the text of the date; it
    raises only if that last call does.  When Pillow fails to load the
    file with an error that is not an assertion, or with an assertion on a
    manager that works with Pillow only, both queries raise that error.
    Neither query changes anything. *)
Theorem damaged_date_same_manager (file : Path) (w : World) :
  (MetaManagerM.file_has_damaged_date file w = (Ok true, w) ->
   exists tmp d,
     MetaManagerM.tmp_get_date_original tmp = Ok d
     /\ year d = 1%nat
     /\ MetaManagerM.get_file_damaged_date file w
        = (MetaManagerM.tmp_get_date_original_as_str tmp, w))
  /\ (forall e,
        fst (pil_load_file file (outside w) (pil_new false None)) = Raise e ->
        is_AssertionError e && negb (_pilonly (metadata_editor w)) = false ->
        MetaManagerM.file_has_damaged_date file w = (Raise e, w)
        /\ MetaManagerM.get_file_damaged_date file w = (Raise e, w))
  /\ snd (MetaManagerM.file_has_damaged_date file w) = w
  /\ snd (MetaManagerM.get_file_damaged_date file w) = w.
Proof.
  unfold MetaManagerM.file_has_damaged_date, MetaManagerM.get_file_damaged_date,
    query, MetaManagerM.has_damaged_date, MetaManagerM.damaged_date.
  split; [|split; [|split; reflexivity]].
  - intros [= H]. revert H.
    destruct (pil_load_file file (outside w) (pil_new false None)) as [[[]|e] tmp].
    + destruct (pil_has_date_original tmp); [|discriminate].
      destruct (MetaManagerM.tmp_get_date_original (MetaManagerM.TmpPil tmp))
        as [d|e] eqn:Ed; [|discriminate].
      intros [= Hy]. apply Nat.eqb_eq in Hy.
      now exists (MetaManagerM.TmpPil tmp), d.
    + destruct (is_AssertionError e); [|discriminate].
      destruct (_pilonly (metadata_editor w)); [discriminate |].
      destruct (MetaManagerM.tmp_exiftool file (outside w)) as [tmpx|e'];
        [|discriminate].
      destruct (exf_has_metadata_date_original_field tmpx); [|discriminate].
      destruct (MetaManagerM.tmp_get_date_original (MetaManagerM.TmpExf tmpx))
        as [d|e''] eqn:Ed; [|discriminate].
      intros [= Hy]. apply Nat.eqb_eq in Hy.
      now exists (MetaManagerM.TmpExf tmpx), d.
  - intros e.
    destruct (pil_load_file file (outside w) (pil_new false None)) as [r tmp].
    cbn. intros -> Hb.
    destruct (is_AssertionError e); [|now split].
    destruct (_pilonly (metadata_editor w)); [now split | discriminate].
Qed.

End ManagerBackends.

(** * Further properties of the scan pass *)

Section ScanRecords.

Context {E : Externals}.
Variable self : Config.






(** A log entry or the load of a file. *)
Definition log_or_load (e : event) : Prop :=
  match e with EvLog _ _ _ | EvLoad _ _ => True | _ => False end.

Definition same_outside (w0 w : World) : Prop := outside w = outside w0.

Definition store_extended (w0 w : World) : Prop :=
  files2analyse w0 `prefix_of` files2analyse w.

Lemma store_extended_blind w0 : blind (store_extended w0).
Proof. intros w mm o H. exact H. Qed.

Lemma store_extended_emit w0 e : stable (store_extended w0) (emit e).
Proof. intros w H. exact H. Qed.

Lemma store_extended_append w0 fi : stable (store_extended w0) (append fi).
Proof.
  intros w [t Ht]. exists (t ++ [fi]). cbn. rewrite Ht. now rewrite <- app_assoc.
Qed.

End ScanRecords.

Ltac outside_leaf :=
  let H := fresh in
  intros ? H;
  unfold same_outside, effect, MetaManagerM.update, emit, assign, append, modify;
  cbn [snd fst];
  repeat (match goal with
          | |- context [match ?x with _ => _ end] =>
              lazymatch x with
              | context [match _ with _ => _ end] => fail
              | _ => destruct x
              end
          end; cbn [snd fst]);
  exact H.

Ltac log_or_load_leaf :=
  first [ apply added_emit; exact I
        | apply added_append
        | apply stable_effect; apply added_blind
        | apply stable_update; apply added_blind ].

Ltac extended_leaf :=
  first [ apply store_extended_emit
        | apply store_extended_append
        | apply stable_effect; apply store_extended_blind
        | apply stable_update; apply store_extended_blind ].

Section ScanReadOnly.

Context {E : Externals}.
Variable self : Config.

(** X10. The scan pass only reads: whatever its outcome (a load that
    raises ends it), the outside world is as it was, the records that were
    in the store are still there in their places, and the only calls made
    are log entries and loads of files. *)
Theorem scan_pass_read_only (w : World) :
  let w' := snd (Analyxer.load_files2analyse self w) in
  outside w' = outside w
  /\ files2analyse w `prefix_of` files2analyse w'
  /\ exists calls, events w' = events w ++ calls /\ Forall log_or_load calls.
Proof.
  cbv zeta. split; [|split].
  - assert (Hs : stable (same_outside w) (Analyxer.load_files2analyse self))
      by stable_tac outside_leaf.
    exact (Hs w eq_refl).
  - assert (Hs : stable (store_extended w) (Analyxer.load_files2analyse self))
      by stable_tac extended_leaf.
    apply (Hs w). unfold store_extended. reflexivity.
  - assert (Hs : stable (added log_or_load w) (Analyxer.load_files2analyse self))
      by stable_tac log_or_load_leaf.
    exact (Hs w (added_refl _ _)).
Qed.

End ScanReadOnly.

(** * Passes that find nothing to do *)

Section IdleLoops.

Context {E : Externals}.

Lemma for_each_idle {S A Acc} (body : Acc -> A -> M S Acc) l acc s :
  (forall x, In x l -> body acc x s = (Ok acc, s)) ->
  for_each body l acc s = (Ok acc, s).
Proof.
  induction l as [|x l IH]; intros H; cbn; [reflexivity |].
  unfold bind. rewrite (H x) by now left.
  apply IH. intros y Hy. apply H. now right.
Qed.

Lemma for_enumerate_idle {Acc} (body : Acc -> nat -> FileInfo -> W Acc) acc w :
  (forall idx fi, files2analyse w !! idx = Some fi ->
                  body acc idx fi w = (Ok acc, w)) ->
  for_enumerate body acc w = (Ok acc, w).
Proof.
  intros H. unfold for_enumerate, bind, gets. apply for_each_idle.
  intros idx Hin. apply in_seq in Hin as [_ Hlt]. cbn in Hlt.
  destruct (lookup_lt_is_Some_2 (files2analyse w) idx Hlt) as [fi Hfi].
  unfold deref, query. rewrite Hfi. now apply H.
Qed.

(** The world after the log entries [logs] and nothing else. *)
Definition logged (logs : list event) (w : World) : World :=
  with_events (events w ++ logs) w.

Lemma logged_logged l1 l2 w : logged l2 (logged l1 w) = logged (l1 ++ l2) w.
Proof. unfold logged, with_events. cbn. now rewrite <- app_assoc. Qed.

Lemma log_run lvl msg args w :
  log lvl msg args w = (Ok tt, logged [EvLog lvl msg args] w).
Proof. reflexivity. Qed.

Definition is_log (e : event) : Prop :=
  match e with EvLog _ _ _ => True | _ => False end.

End IdleLoops.

Section IdlePasses.

Context {E : Externals}.
Variable self : Config.

Lemma proprietary_pass_idle w :
  Forall (fun fi => prpdin fi = false) (files2analyse w) ->
  Analyxer.rename_files_with_proprietary_convention self w
  = (Ok [],
     logged [EvLog INFO "[ALX] <NewModulePhase> Scanning proprietary date-in-name files to rename..." []] w).
Proof.
  intros H. unfold Analyxer.rename_files_with_proprietary_convention.
  rewrite (bind_step _ _ _ _ _ (log_run _ _ _ _)).
  unfold Analyxer.proprietary_loop.
  erewrite bind_step; cycle 1.
  { apply for_enumerate_idle. intros idx fi Hfi.
    unfold Analyxer.proprietary_step.
    now rewrite (Forall_lookup_1 _ _ _ _ H Hfi). }
  reflexivity.
Qed.

Lemma integrity_pass_idle w :
  Forall (fun fi => has_evidence fi = true) (files2analyse w) ->
  Analyxer.analyse_files_date_integrity self w
  = (Ok [],
     logged [EvLog INFO "[ALX] <NewModulePhase> Checking file-dates integrity..." []] w).
Proof.
  intros H. unfold Analyxer.analyse_files_date_integrity.
  rewrite (bind_step _ _ _ _ _ (log_run _ _ _ _)).
  unfold Analyxer.integrity_loop.
  erewrite bind_step; cycle 1.
  { apply for_enumerate_idle. intros idx fi Hfi.
    pose proof (Forall_lookup_1 _ _ _ _ H Hfi) as Hev. cbn in Hev.
    unfold has_evidence in Hev. unfold Analyxer.integrity_step.
    destruct (kdin fi), (ekdin fi); cbn in *; try reflexivity.
    now rewrite Hev. }
  reflexivity.
Qed.

Lemma edition_pass_idle w :
  Forall (fun fi => ekdin fi = false) (files2analyse w) ->
  Analyxer.write_date_to_files_with_edition_kdin self w
  = (Ok [],
     logged [EvLog INFO "[ALX] <NewModulePhase> Scanning edition-date-in-name files to store..." []] w).
Proof.
  intros H. unfold Analyxer.write_date_to_files_with_edition_kdin.
  rewrite (bind_step _ _ _ _ _ (log_run _ _ _ _)).
  unfold Analyxer.review_folder, Analyxer.edition_loop.
  erewrite bind_step; cycle 1.
  { reflexivity. }
  erewrite bind_step; cycle 1.
  { apply for_enumerate_idle. intros idx fi Hfi.
    unfold Analyxer.edition_step.
    now rewrite (Forall_lookup_1 _ _ _ _ H Hfi). }
  reflexivity.
Qed.

Lemma consistency_pass_idle margin_secs w :
  List.filter (inconsistent self margin_secs) (files2analyse w) = [] ->
  Analyxer.analyse_files_date_consistency self margin_secs w
  = (Ok [],
     logged [EvLog INFO "[ALX] <NewModulePhase> Scanning file Metadates and KDIN consistency..." []] w).
Proof.
  intros H. unfold Analyxer.analyse_files_date_consistency.
  rewrite (bind_step _ _ _ _ _ (log_run _ _ _ _)).
  unfold Analyxer.consistency_loop.
  erewrite bind_step; cycle 1.
  { unfold bind, gets. rewrite consistency_steps.
    cbn [files2analyse logged with_events]. rewrite H. reflexivity. }
  reflexivity.
Qed.

Lemma bounds_pass_idle w :
  List.filter (out_of_bounds self) (files2analyse w) = [] ->
  Analyxer.detect_files_out_of_folder_date_bounds self w
  = (Ok [],
     logged [EvLog INFO "[ALX] <NewModulePhase> Checking file-dates out of folder-bounds..." []] w).
Proof.
  intros H. unfold Analyxer.detect_files_out_of_folder_date_bounds.
  rewrite (bind_step _ _ _ _ _ (log_run _ _ _ _)).
  unfold Analyxer.bounds_loop.
  erewrite bind_step; cycle 1.
  { unfold bind, gets. rewrite bounds_steps.
    cbn [files2analyse logged with_events]. rewrite H. reflexivity. }
  reflexivity.
Qed.

Lemma scan_pass_idle w :
  get_files_tree
    (get_folders_tree (base_path2scan self) (fld_patterns self) (outside w))
    (outside w) = [] ->
  Analyxer.load_files2analyse self w
  = (Ok tt,
     logged [EvLog INFO "[ALX] <NewModulePhase> Scanning files in path..." [];
             EvLog INFO "[ALX] <NewResultsBlock> Files found to be analyzed = %s"
                   [AInt (length (files2analyse w))]] w).
Proof.
  intros H. unfold Analyxer.load_files2analyse.
  rewrite (bind_step _ _ _ _ _ (log_run _ _ _ _)).
  unfold bind at 1. unfold reads at 1. unfold gets at 1.
  unfold bind at 1. unfold reads at 1. unfold gets at 1.
  cbn [outside logged with_events]. rewrite H. cbn [for_each].
  unfold bind, ret, gets. rewrite log_run, logged_logged. reflexivity.
Qed.

(** X11. A pass whose trigger is absent from every record does nothing
    but log its opening message, and returns the empty report: the
    proprietary-rename pass without a [prpdin] record, the date-integrity
    pass when every record has one of the four evidence flags, the
    edit-date migration pass without an [ekdin] record, the consistency
    and folder-bounds passes without a record to report.  None of them can
    raise then. *)
Theorem passes_idle_without_trigger (w : World) :
  (Forall (fun fi => prpdin fi = false) (files2analyse w) ->
   exists msg,
     Analyxer.rename_files_with_proprietary_convention self w
     = (Ok [], logged [EvLog INFO msg []] w))
  /\ (Forall (fun fi => has_evidence fi = true) (files2analyse w) ->
      exists msg,
        Analyxer.analyse_files_date_integrity self w
        = (Ok [], logged [EvLog INFO msg []] w))
  /\ (Forall (fun fi => ekdin fi = false) (files2analyse w) ->
      exists msg,
        Analyxer.write_date_to_files_with_edition_kdin self w
        = (Ok [], logged [EvLog INFO msg []] w))
  /\ (forall margin_secs,
        Forall (fun fi => inconsistent self margin_secs fi = false) (files2analyse w) ->
        exists msg,
          Analyxer.analyse_files_date_consistency self margin_secs w
          = (Ok [], logged [EvLog INFO msg []] w))
  /\ (Forall (fun fi => out_of_bounds self fi = false) (files2analyse w) ->
      exists msg,
        Analyxer.detect_files_out_of_folder_date_bounds self w
        = (Ok [], logged [EvLog INFO msg []] w)).
Proof.
  assert (Hnil : forall (p : FileInfo -> bool) l,
             Forall (fun fi => p fi = false) l -> List.filter p l = []).
  { intros p l H. induction H as [|x l Hx _ IH]; cbn; [reflexivity |].
    now rewrite Hx. }
  repeat split.
  - intros H. eexists. now apply proprietary_pass_idle.
  - intros H. eexists. now apply integrity_pass_idle.
  - intros H. eexists. now apply edition_pass_idle.
  - intros m H. eexists. apply consistency_pass_idle. now apply Hnil.
  - intros H. eexists. apply bounds_pass_idle. now apply Hnil.
Qed.

(** X12. The edit-date migration pass is idempotent: run again on the
    world a first run that returned has left, it finds no [ekdin] record,
    logs its opening message, changes nothing else and returns the empty
    report. *)
Theorem edition_pass_idempotent (w : World) report w' :
  Analyxer.write_date_to_files_with_edition_kdin self w = (Ok report, w') ->
  exists msg,
    Analyxer.write_date_to_files_with_edition_kdin self w'
    = (Ok [], logged [EvLog INFO msg []] w').
Proof.
  intros H. eexists. apply edition_pass_idle.
  exact (edition_pass_clears_ekdin self _ _ _ H).
Qed.

(** X13. A run over a listing without files, from an empty record store,
    returns false: the six passes log their messages, nothing raises, and
    neither the outside world, nor the manager, nor the store change.  When
    the run is not embedded it then waits for the user, and returns false
    if that call returns. *)
Theorem run_on_empty_listing (margin_secs : Z) (w : World) :
  files2analyse w = [] ->
  get_files_tree
    (get_folders_tree (base_path2scan self) (fld_patterns self) (outside w))
    (outside w) = [] ->
  (exists logs,
      Forall is_log logs
      /\ phases logs = six_phases
      /\ Analyxer.run self margin_secs true w = (Ok false, logged logs w))
  /\ (fst (Analyxer.run self margin_secs false w) = Ok false
      \/ exists e,
          fst (Analyxer.run self margin_secs false w) = Raise e
          /\ fst (builtin_input
                    (Analyxer.newline ++ "PROCESS FINALIZED"
                     ++ Analyxer.newline ++ Analyxer.tab ++ Analyxer.tab
                     ++ "PRESS ENTER TO RESUME") (outside w))
             = Raise e).
Proof.
  intros Hs Hf.
  assert (Hnil : forall logs, files2analyse (logged logs w) = []) by (intros; exact Hs).
  assert (Hrun : forall embedded,
             exists logs,
               Forall is_log logs
               /\ phases logs = six_phases
               /\ Analyxer.run self margin_secs embedded w
                  = (do* (if negb embedded then
                            let* _ := input (Analyxer.newline ++ "PROCESS FINALIZED"
                                             ++ Analyxer.newline ++ Analyxer.tab
                                             ++ Analyxer.tab
                                             ++ "PRESS ENTER TO RESUME") in
                            ret tt
                          else ret tt) in
                     ret false) (logged logs w)).
  { intros embedded. eexists. split; [|split].
    2:{ shelve. }
    2:{ unfold Analyxer.run.
        do 8 (rewrite (bind_step _ _ _ _ _ (log_run _ _ _ _)); rewrite ?logged_logged).
        erewrite bind_step; cycle 1.
        { apply scan_pass_idle. exact Hf. }
        rewrite logged_logged.
        erewrite bind_step; cycle 1.
        { apply proprietary_pass_idle; rewrite Hnil; constructor. }
        rewrite logged_logged.
        erewrite bind_step; cycle 1.
        { apply integrity_pass_idle; rewrite Hnil; constructor. }
        rewrite logged_logged.
        erewrite bind_step; cycle 1.
        { apply edition_pass_idle; rewrite Hnil; constructor. }
        rewrite logged_logged.
        erewrite bind_step; cycle 1.
        { apply consistency_pass_idle; rewrite Hnil; reflexivity. }
        rewrite logged_logged.
        erewrite bind_step; cycle 1.
        { apply bounds_pass_idle; rewrite Hnil; reflexivity. }
        rewrite logged_logged. cbn [length Nat.add Nat.eqb negb]. reflexivity. }
    - repeat constructor.
    Unshelve. reflexivity. }
  split.
  - destruct (Hrun true) as (logs & Hl & Hp & Hr). exists logs.
    split; [exact Hl |]. split; [exact Hp |]. rewrite Hr. reflexivity.
  - destruct (Hrun false) as (logs & Hl & Hp & Hr). rewrite Hr.
    cbn [negb]. unfold input, sys, bind, emit, modify, effect, ret.
    cbn [outside logged with_events with_outside with_editor fst snd].
    destruct (builtin_input _ (outside w)) as [[answer|e] o] eqn:Ei; cbn.
    + now left.
    + right. exists e. now split.
Qed.

End IdlePasses.

(** * Counting what the loops report *)

Section EnumerateCount.

Context {E : Externals} {Acc : Type}.
Variable body : Acc -> nat -> FileInfo -> W Acc.
Variable size : Acc -> nat.
Variable counted : FileInfo -> bool.

Hypothesis body_framed :
  forall acc idx fi w0, stable (framed idx w0) (body acc idx fi).
Hypothesis body_counts :
  forall acc idx fi wi acc' wi',
    body acc idx fi wi = (Ok acc', wi') ->
    size acc' = (size acc + (if counted fi then 1 else 0))%nat.

(** A loop whose body adds one entry for each counted record ends with as
    many new entries as the store had counted records. *)
Lemma for_enumerate_counts acc0 w accf wf :
  for_enumerate body acc0 w = (Ok accf, wf) ->
  size accf = (size acc0 + length (List.filter counted (files2analyse w)))%nat.
Proof.
  unfold for_enumerate. intros H.
  apply bind_ok in H as (n & w0 & Hn & H).
  unfold gets in Hn. injection Hn as <- <-.
  pose (I := fun (done : list nat) (acc : Acc) (s : World) =>
               (forall j, (length done <= j)%nat ->
                          files2analyse s !! j = files2analyse w !! j)
               /\ size acc
                  = (size acc0
                     + length (List.filter counted
                                 (take (length done) (files2analyse w))))%nat).
  assert (HI : I (seq 0 (length (files2analyse w))) accf wf).
  { eapply (for_each_ok _ I); [| | exact H].
    - split; [reflexivity |]. cbn. rewrite take_0. cbn. lia.
    - intros done x rest acc1 s0 acc2 s1 Hl (Hrest & Hsize) Hx.
      apply seq_split_head in Hl. subst x.
      apply bind_ok in Hx as (fi0 & s0' & Hd & Hb).
      unfold deref, query in Hd.
      destruct (files2analyse s0 !! length done) as [fi1|] eqn:Efi;
        [|discriminate].
      injection Hd as <- <-.
      pose proof (stable_run _ _ _ _ _ (body_framed acc1 (length done) fi1 s0)
                             (framed_refl _ _) Hb) as [_ Hfj].
      rewrite Hrest in Efi by lia.
      split.
      + intros j Hj. rewrite length_app in Hj. cbn in Hj.
        rewrite Hfj by lia. apply Hrest. lia.
      + rewrite length_app. cbn. rewrite Nat.add_1_r.
        rewrite (take_S_r _ _ _ Efi), List.filter_app, length_app.
        rewrite (body_counts _ _ _ _ _ _ Hb), Hsize. cbn.
        destruct (counted fi1); cbn; lia. }
  destruct HI as [_ Hsize]. rewrite Hsize, length_seq.
  now rewrite firstn_all.
Qed.

End EnumerateCount.

Section ReportCounts.

Context {E : Externals}.
Variable self : Config.

Definition entries (acc : list Path * list Path) : nat :=
  (length (fst acc) + length (snd acc))%nat.

Lemma integrity_step_counts acc idx fi wi acc' wi' :
  Analyxer.integrity_step acc idx fi wi = (Ok acc', wi') ->
  entries acc' = (entries acc + (if negb (has_evidence fi) then 1 else 0))%nat.
Proof.
  unfold Analyxer.integrity_step, has_evidence, entries.
  destruct acc as [files_damaged files_date2review].
  destruct (kdin fi); cbn; [intros [= <- _]; cbn; lia |].
  destruct (ekdin fi); cbn; [intros [= <- _]; cbn; lia |].
  destruct (metadte fi); cbn; [intros [= <- _]; cbn; lia |].
  destruct (prpdin fi); cbn; [intros [= <- _]; cbn; lia |].
  intros H. apply bind_ok in H as (damaged & w1 & _ & H).
  destruct damaged as [dmg2path|].
  - unfold ret in H. injection H as <- _. cbn. rewrite length_app. cbn. lia.
  - apply bind_ok in H as (mdf_date & w2 & _ & H).
    apply bind_ok in H as (u & w3 & _ & H).
    apply bind_ok in H as (u' & w4 & _ & H).
    unfold ret in H. injection H as <- _. cbn. rewrite length_app. cbn. lia.
Qed.

Lemma edition_step_counts o e acc idx fi wi acc' wi' :
  Analyxer.edition_step self o e acc idx fi wi = (Ok acc', wi') ->
  entries acc' = (entries acc + (if ekdin fi then 1 else 0))%nat.
Proof.
  intros H. unfold Analyxer.edition_step in H. unfold entries.
  destruct acc as [meta_edited files_din_renamed].
  destruct (ekdin fi); [|unfold ret in H; injection H as <- _; cbn; lia].
  destruct (editable fi).
  - do 12 (let a := fresh "a" in
           let w := fresh "w" in
           apply bind_ok in H as (a & w & _ & H)).
    unfold ret in H. injection H as <- _. cbn. rewrite length_app. cbn. lia.
  - do 3 (let a := fresh "a" in
          let w := fresh "w" in
          apply bind_ok in H as (a & w & _ & H)).
    unfold ret in H. injection H as <- _. cbn. rewrite length_app. cbn. lia.
Qed.

(** X14. The date-integrity pass reports one path for each record that
    has none of the four evidence flags, and the edit-date migration pass
    one path for each record with [ekdin] true: the length of the report a
    pass returns is the number of such records in the store it started
    from. *)
Theorem report_lengths (w : World) report w' :
  (Analyxer.analyse_files_date_integrity self w = (Ok report, w') ->
   length report
   = length (List.filter (fun fi => negb (has_evidence fi)) (files2analyse w)))
  /\ (Analyxer.write_date_to_files_with_edition_kdin self w = (Ok report, w') ->
      length report = length (List.filter ekdin (files2analyse w))).
Proof.
  split; intros H.
  - unfold Analyxer.analyse_files_date_integrity in H.
    apply bind_ok in H as (u & w0 & Hlog & H).
    apply bind_ok in H as (acc & wl & Hloop & Hrep).
    unfold log, emit, modify in Hlog. injection Hlog as _ <-.
    apply integrity_report_ok in Hrep as [-> _].
    apply (for_enumerate_counts _ entries (fun fi => negb (has_evidence fi))
             integrity_step_framed integrity_step_counts) in Hloop.
    rewrite length_app, length_map. exact Hloop.
  - unfold Analyxer.write_date_to_files_with_edition_kdin in H.
    apply bind_ok in H as (u & w0 & Hlog & H).
    apply bind_ok in H as (folder & w1 & Hf & H).
    apply bind_ok in H as (acc & wl & Hloop & Hrep).
    unfold log, emit, modify in Hlog. injection Hlog as _ <-.
    unfold Analyxer.review_folder, reads, gets in Hf. injection Hf as _ <-.
    apply edition_report_ok in Hrep as [-> _].
    unfold Analyxer.edition_loop in Hloop.
    match type of Hloop with
    | for_enumerate (Analyxer.edition_step _ ?o ?e) _ _ = _ =>
        apply (for_enumerate_counts _ entries ekdin
                 (edition_step_framed self o e) (edition_step_counts o e))
          in Hloop
    end.
    rewrite length_app. unfold entries in Hloop. cbn in Hloop. lia.
Qed.

End ReportCounts.

(** * The read-only branch of the edit-date migration pass *)

Section EditionReadOnly.

Context {E : Externals}.
Variable self : Config.

Lemma edition_step_demotes originals edited acc idx fi wi acc' wi' :
  files2analyse wi !! idx = Some fi ->
  Analyxer.edition_step self originals edited acc idx fi wi = (Ok acc', wi') ->
  ekdin fi = true -> editable fi = false ->
  let new_rnme :=
    itername (file_ekdin2kdin (abs_path fi) (year_bounds self)) (outside wi) in
  os_rename (abs_path fi) new_rnme (outside wi) = (Ok tt, outside wi')
  /\ events wi' = events wi ++ [EvRename (abs_path fi) new_rnme]
  /\ metadata_editor wi' = metadata_editor wi
  /\ files2analyse wi' !! idx = Some (demoted new_rnme fi)
  /\ acc' = (fst acc, snd acc ++ [new_rnme]).
Proof.
  intros Hfi H He Hed new_rnme. subst new_rnme.
  unfold Analyxer.edition_step in H.
  destruct acc as [meta_edited files_din_renamed]. rewrite He, Hed in H.
  apply bind_ok in H as (new_rnme & w1 & H1 & H).
  apply bind_ok in H as (u2 & w2 & H2 & H).
  apply bind_ok in H as (u3 & w3 & H3 & H).
  unfold reads, gets in H1. injection H1 as <- <-.
  apply sys_ok in H2 as (Hcall & E2 & S2 & M2).
  unfold assign, modify in H3. injection H3 as _ <-.
  unfold ret in H. injection H as <- <-. cbn.
  destruct u2. repeat split; try assumption.
  rewrite S2. apply list_lookup_insert_eq. now apply lookup_lt_Some in Hfi.
Qed.

(** X15. In the edit-date migration pass a record with [ekdin] true
    whose metadata cannot be edited gets no metadata call and no copy: its
    file is renamed once, to the unique name derived from the KDIN form of
    its name at the time the record is visited, the rename returned, the
    record gets that path with [kdin] true and [ekdin] false, the manager
    is left as it was by the step, and the new path is in the report.  A
    record with [ekdin] false is left as it is. *)
Theorem edition_pass_renames_read_only_files (w : World) report w' idx fi :
  Analyxer.write_date_to_files_with_edition_kdin self w = (Ok report, w') ->
  files2analyse w !! idx = Some fi ->
  (ekdin fi = false -> files2analyse w' !! idx = Some fi)
  /\ (ekdin fi = true -> editable fi = false ->
      exists wi wi',
        let new_rnme :=
          itername (file_ekdin2kdin (abs_path fi) (year_bounds self))
                   (outside wi) in
        files2analyse wi !! idx = Some fi
        /\ os_rename (abs_path fi) new_rnme (outside wi) = (Ok tt, outside wi')
        /\ events wi' = events wi ++ [EvRename (abs_path fi) new_rnme]
        /\ events wi' `prefix_of` events w'
        /\ metadata_editor wi' = metadata_editor wi
        /\ files2analyse w' !! idx = Some (demoted new_rnme fi)
        /\ In new_rnme report).
Proof.
  intros H Hfi. unfold Analyxer.write_date_to_files_with_edition_kdin in H.
  apply bind_ok in H as (u & w0 & Hlog & H).
  apply bind_ok in H as (folder & w1 & Hf & H).
  apply bind_ok in H as (acc & wl & Hloop & Hrep).
  unfold log, emit, modify in Hlog. injection Hlog as _ <-.
  unfold Analyxer.review_folder, reads, gets in Hf. injection Hf as _ <-.
  assert (Hpre : events wl `prefix_of` events w').
  { eapply (added_run (fun _ => True)); [|exact Hrep]. stable_tac added_leaf. }
  apply edition_report_ok in Hrep as (-> & Hst & _ & _).
  unfold Analyxer.edition_loop in Hloop.
  match type of Hloop with
  | for_enumerate (Analyxer.edition_step _ ?o ?e) _ _ = _ =>
      destruct (for_enumerate_visits
                  (Analyxer.edition_step self o e) grows grows_refl grows_trans
                  (edition_step_framed self o e) (edition_step_added self o e)
                  (edition_step_grows self o e) _ _ _ _ Hloop)
        as (_ & _ & _ & Hvis)
  end.
  destruct (Hvis idx fi Hfi)
    as (a0 & wi & a1 & wi' & Hwi & Hstep & Hslot & Hgrow & Hev).
  rewrite Hst, Hslot. split.
  - intros He.
    destruct (edition_step_ok self _ _ _ _ _ _ _ _ Hwi Hstep) as (Hno & _).
    destruct (Hno He) as [-> _]. exact Hwi.
  - intros He Hed. exists wi, wi'.
    destruct (edition_step_demotes _ _ _ _ _ _ _ _ Hwi Hstep He Hed)
      as (Hcall & Hevs & Hmm & Hrec & ->).
    cbv zeta. repeat split; try assumption.
    + etransitivity; eassumption.
    + destruct Hgrow as [_ Hg]. cbn in Hg. apply in_or_app. left.
      eapply In_prefix; [exact Hg |]. apply in_or_app. right. now left.
Qed.

End EditionReadOnly.

(** * Steps that raise *)

Section Raising.

Context {S : Type}.

(** [I] holds after [m] has raised, when it holds before. *)
Definition raise_keeps (I : S -> Prop) {A} (m : M S A) : Prop :=
  forall s e s', I s -> m s = (Raise e, s') -> I s'.

Definition never_raises {A} (m : M S A) : Prop :=
  forall s e s', m s <> (Raise e, s').

Lemma raise_keeps_stable I {A} (m : M S A) : stable I m -> raise_keeps I m.
Proof. intros Hm s e s' Hs H. specialize (Hm s Hs). now rewrite H in Hm. Qed.

Lemma raise_keeps_never I {A} (m : M S A) : never_raises m -> raise_keeps I m.
Proof. intros Hm s e s' _ H. now apply Hm in H. Qed.

Lemma raise_keeps_bind I {A B} (m : M S A) (k : A -> M S B) :
  stable I m -> (forall a, raise_keeps I (k a)) -> raise_keeps I (bind m k).
Proof.
  intros Hm Hk s e s' Hs. unfold bind. specialize (Hm s Hs).
  destruct (m s) as [[a|e0] s1]; cbn in Hm.
  - now apply Hk.
  - now intros [= _ <-].
Qed.

Lemma raise_keeps_bind_never I {A B} (m : M S A) (k : A -> M S B) :
  raise_keeps I m -> (forall a, never_raises (k a)) -> raise_keeps I (bind m k).
Proof.
  intros Hm Hk s e s' Hs. unfold bind.
  destruct (m s) as [[a|e0] s1] eqn:Em.
  - intros H. now apply Hk in H.
  - intros [= <- <-]. now apply (Hm s e0 s1).
Qed.

Lemma never_raises_ret {A} (a : A) : never_raises (ret a).
Proof. intros s e s'. discriminate. Qed.

Lemma never_raises_modify f : never_raises (modify f).
Proof. intros s e s'. discriminate. Qed.

Lemma never_raises_bind {A B} (m : M S A) (k : A -> M S B) :
  never_raises m -> (forall a, never_raises (k a)) -> never_raises (bind m k).
Proof.
  intros Hm Hk s e s'. unfold bind.
  destruct (m s) as [[a|e0] s1] eqn:Em; [apply Hk |].
  now apply Hm in Em.
Qed.

End Raising.

Ltac never_tac :=
  cbv beta;
  lazymatch goal with
  | |- never_raises (ret _) => apply never_raises_ret
  | |- never_raises (bind _ _) =>
      apply never_raises_bind; [never_tac | intros ?; never_tac]
  | |- never_raises (assign _ _) => apply never_raises_modify
  | |- never_raises (match ?x with _ => _ end) => destruct x; never_tac
  end.

Section AtomicSteps.

Context {E : Externals}.
Variable self : Config.

Lemma proprietary_step_atomic w0 acc idx fi :
  raise_keeps (same_store w0) (Analyxer.proprietary_step acc idx fi).
Proof.
  unfold Analyxer.proprietary_step. destruct acc as [l r].
  destruct (prpdin fi); [|apply raise_keeps_never; never_tac].
  apply raise_keeps_bind_never; [|intros updated; never_tac].
  unfold PropInfo.update_proprietary_din.
  apply raise_keeps_bind; [stable_tac store_leaf | intros fileinfo].
  apply raise_keeps_bind; [stable_tac store_leaf | intros new_path].
  apply raise_keeps_never. never_tac.
Qed.

Lemma integrity_step_atomic w0 acc idx fi :
  raise_keeps (same_store w0) (Analyxer.integrity_step acc idx fi).
Proof.
  unfold Analyxer.integrity_step. destruct acc as [l r].
  destruct (kdin fi || ekdin fi); [apply raise_keeps_never; never_tac |].
  destruct (metadte fi || prpdin fi); [apply raise_keeps_never; never_tac |].
  apply raise_keeps_bind; [stable_tac store_leaf | intros damaged].
  destruct damaged; [apply raise_keeps_never; never_tac |].
  apply raise_keeps_bind; [stable_tac store_leaf | intros mdf_date].
  apply raise_keeps_bind; [stable_tac store_leaf | intros u].
  apply raise_keeps_never. never_tac.
Qed.

Lemma edition_step_atomic w0 o e acc idx fi :
  raise_keeps (same_store w0) (Analyxer.edition_step self o e acc idx fi).
Proof.
  unfold Analyxer.edition_step. destruct acc as [l r].
  destruct (ekdin fi); [|apply raise_keeps_never; never_tac].
  destruct (editable fi).
  - do 9 (apply raise_keeps_bind; [stable_tac store_leaf | intros ?]).
    apply raise_keeps_never.
    apply never_raises_bind; [apply never_raises_modify | intros _].
    apply never_raises_bind.
    { intros s e' s'. unfold lift, FileInfoM.set_metadate_original. cbn.
      discriminate. }
    intros fileinfo2. never_tac.
  - apply raise_keeps_bind; [stable_tac store_leaf | intros new_rnme].
    apply raise_keeps_bind; [stable_tac store_leaf | intros u].
    apply raise_keeps_never. never_tac.
Qed.

(** X16. The loop bodies of the three passes that rename files change a
    record only after every call that can fail has returned: when the step
    for a record raises (a rename, a copy or a metadata call failed), the
    record store is exactly as it was before the step, so no record ever
    names a path the step did not finish producing. *)
Theorem renaming_steps_atomic (acc : list Path * list Path) (idx : nat)
        (fi : FileInfo) (w w' : World) (e : exn) :
  (Analyxer.proprietary_step acc idx fi w = (Raise e, w') ->
   files2analyse w' = files2analyse w)
  /\ (Analyxer.integrity_step acc idx fi w = (Raise e, w') ->
      files2analyse w' = files2analyse w)
  /\ (forall originals edited,
        Analyxer.edition_step self originals edited acc idx fi w = (Raise e, w') ->
        files2analyse w' = files2analyse w).
Proof.
  split; [|split].
  - intros H. exact (proprietary_step_atomic w acc idx fi w e w' eq_refl H).
  - intros H. exact (integrity_step_atomic w acc idx fi w e w' eq_refl H).
  - intros o ed H. exact (edition_step_atomic w o ed acc idx fi w e w' eq_refl H).
Qed.

(** A call to the outside world, whatever its outcome. *)
Lemma sys_run {A} ev (f : OS -> result A * OS) w r w' :
  sys ev f w = (r, w') ->
  f (outside w) = (r, outside w')
  /\ events w' = events w ++ [ev].
Proof.
  unfold sys, emit, modify, effect, bind. cbn.
  destruct (f (outside w)) as [r0 o]. intros [= <- <-]. now split.
Qed.

(** X17. In the step of the edit-date migration pass for a record with
    [ekdin] true and editable metadata, whatever the outcome of the step:
    no load, no metadata write and no rename is made unless the copy of the
    file to the review-originals folder has been made and has returned.
    Either the step raised while creating the two folders or making that
    copy, having made no other call, or its calls start with the two
    folder creations and the copy, and the copy returned. *)
Theorem edition_step_backup_first originals edited acc idx fi (w : World) r w' :
  ekdin fi = true ->
  editable fi = true ->
  Analyxer.edition_step self originals edited acc idx fi w = (r, w') ->
  let p := abs_path fi in
  let backup := EvCopy2 p (PathLib.joinpath originals (PathLib.name p)) in
  exists calls,
    events w' = events w ++ calls
    /\ ((exists e, r = Raise e)
        /\ (calls = [EvMakedirs originals]
            \/ calls = [EvMakedirs originals; EvMakedirs edited]
            \/ calls = [EvMakedirs originals; EvMakedirs edited; backup])
        \/ exists rest o2 o3,
            calls = [EvMakedirs originals; EvMakedirs edited; backup] ++ rest
            /\ shutil_copy2 p (PathLib.joinpath originals (PathLib.name p)) o2
               = (Ok tt, o3)).
Proof.
  intros He Hed H p backup. subst p backup.
  unfold Analyxer.edition_step in H. destruct acc as [l rr].
  rewrite He, Hed in H.
  unfold bind at 1 in H.
  destruct (makedirs originals w) as [[[]|e1] w1] eqn:H1;
    apply sys_run in H1 as [_ E1].
  2:{ injection H as <- <-. eexists. split; [exact E1 |]. left. eauto. }
  unfold bind at 1 in H.
  destruct (makedirs edited w1) as [[[]|e2] w2] eqn:H2;
    apply sys_run in H2 as [_ E2].
  2:{ injection H as <- <-. eexists. split; [rewrite E2, E1; now rewrite <- app_assoc |].
      left. eauto. }
  unfold bind at 1 in H.
  destruct (copy2 (abs_path fi)
                  (PathLib.joinpath originals (PathLib.name (abs_path fi))) w2)
    as [[[]|e3] w3] eqn:H3;
    apply sys_run in H3 as [C3 E3].
  2:{ injection H as <- <-. eexists.
      split; [rewrite E3, E2, E1; now rewrite <- !app_assoc |].
      left. split; [eauto |]. right. now right. }
  match type of H with
  | ?m w3 = _ =>
      assert (Ha : stable (added (fun _ => True) w3) m) by stable_tac added_leaf
  end.
  destruct (stable_run _ _ _ _ _ Ha (added_refl _ _) H) as (rest & Er & _).
  eexists. split.
  - rewrite Er, E3, E2, E1. rewrite <- !app_assoc. reflexivity.
  - right. exists rest, (outside w2), (outside w3). split; [reflexivity | exact C3].
Qed.

End AtomicSteps.

(** * The text of the dates in the reports *)

Section ReportedDates.

Context {E : Externals}.
Variable self : Config.

Lemma take_app_n k n a b :
  String.length a = k ->
  Str.take (k + n) (String.append a b) = String.append a (Str.take n b).
Proof.
  intros <-. induction a as [|c a IH]; cbn; [reflexivity | now rewrite IH].
Qed.

(** [d.replace(microsecond=0)] *)
Definition whole_seconds (d : datetime) : datetime :=
  mk_datetime (year d) (month d) (day d) (hour d) (minute d) (second d) 0.

Lemma take_19_str d : Str.take 19 (DateTime.str d) = DateTime.str (whole_seconds d).
Proof.
  unfold DateTime.str.
  cbn [year month day hour minute second microsecond whole_seconds Nat.eqb].
  change 19%nat
    with (4 + (1 + (2 + (1 + (2 + (1 + (2 + (1 + (2 + (1 + (2 + 0)))))))))))%nat.
  repeat (rewrite take_app_n by (apply digits_length || reflexivity)).
  reflexivity.
Qed.

Lemma whole_seconds_length d :
  String.length (DateTime.str (whole_seconds d)) = 19%nat.
Proof.
  unfold DateTime.str.
  cbn [year month day hour minute second microsecond whole_seconds Nat.eqb].
  repeat (rewrite string_length_app || rewrite digits_length).
  reflexivity.
Qed.

(** X18. The consistency-check pass hands to [strptime] the first 19
    characters of the name of each path it built, and that text is the
    stored metadata date of the file printed to whole seconds (the date
    without its microseconds), in the format [%Y-%m-%d %H:%M:%S] asks for;
    the parent of the path is the path of the file.  The folder-bounds
    pass logs as name of each path it built the text of the best date of
    the file. *)
Theorem reported_dates_well_formed (fi : FileInfo) :
  Str.take 19 (PathLib.name (dated fi))
  = DateTime.str (whole_seconds (stored_date fi))
  /\ String.length (Str.take 19 (PathLib.name (dated fi))) = 19%nat
  /\ PathLib.parent (dated fi) = abs_path fi
  /\ (forall src d,
        best_date self fi = Some (src, d) ->
        PathLib.name (discrepance self fi) = DateTime.str d
        /\ PathLib.parent (discrepance self fi) = abs_path fi).
Proof.
  unfold dated. rewrite name_joinpath_str, parent_joinpath_str, take_19_str.
  split; [reflexivity |]. split; [apply whole_seconds_length |].
  split; [reflexivity |].
  intros src d Hb. unfold discrepance. rewrite Hb.
  now rewrite name_joinpath_str, parent_joinpath_str.
Qed.


End ReportedDates.

(** * When the checking passes return *)

Section CheckingPassesReturn.

Context {E : Externals}.
Variable self : Config.









End CheckingPassesReturn.

(** * The assertions of [set_date_original], and mutation in place *)

Section Guards.

Context {E : Externals}.



(** X22. [update_proprietary_din] mutates the record in place and
    returns it: when it returns, the record in the slot is the record
    returned, every other slot is as it was, and the record is either the
    one that was there or that one with the new path, [kdin] true and
    [prpdin] false, the new path having another name.  So storing the
    returned record back into its slot, as the proprietary-rename pass
    does, changes nothing. *)
Theorem update_proprietary_din_in_place (ref : nat) (yb : YearBounds)
        (w : World) fi' w' :
  PropInfo.update_proprietary_din ref yb w = (Ok fi', w') ->
  files2analyse w' !! ref = Some fi'
  /\ length (files2analyse w') = length (files2analyse w)
  /\ (forall j, j <> ref -> files2analyse w' !! j = files2analyse w !! j)
  /\ (exists fi,
         files2analyse w !! ref = Some fi
         /\ (fi' = fi
             \/ exists new_path,
                 fi' = renamed_to new_path fi
                 /\ PathLib.name new_path <> PathLib.name (abs_path fi)))
  /\ assign ref fi' w' = (Ok tt, w').
Proof.
  intros H.
  assert (G : files2analyse w' !! ref = Some fi'
              /\ length (files2analyse w') = length (files2analyse w)
              /\ (forall j, j <> ref -> files2analyse w' !! j = files2analyse w !! j)
              /\ exists fi,
                  files2analyse w !! ref = Some fi
                  /\ (fi' = fi
                      \/ exists new_path,
                          fi' = renamed_to new_path fi
                          /\ PathLib.name new_path <> PathLib.name (abs_path fi))).
  { unfold PropInfo.update_proprietary_din in H.
    apply bind_ok in H as (fi & w0 & Hd & H).
    unfold deref, query in Hd.
    destruct (files2analyse w !! ref) as [fi0|] eqn:Efi; [|discriminate].
    injection Hd as <- <-.
    apply bind_ok in H as (new_path & w1 & Hr & H).
    assert (Hs : same_store w w1).
    { eapply stable_run; [| reflexivity | exact Hr]. stable_tac store_leaf. }
    unfold same_store in Hs.
    destruct (negb (String.eqb _ _)) eqn:Hne.
    - apply bind_ok in H as ([] & w2 & Ha & H).
      unfold assign, modify in Ha. injection Ha as <-.
      unfold ret in H. injection H as <- <-. cbn. rewrite Hs.
      pose proof (lookup_lt_Some _ _ _ Efi) as Hlt.
      split; [now apply list_lookup_insert_eq |].
      split; [apply length_insert |].
      split; [intros j Hj; now apply list_lookup_insert_ne |].
      exists fi0. split; [reflexivity |]. right. exists new_path.
      split; [reflexivity |].
      apply negb_true_iff in Hne. now apply String.eqb_neq in Hne.
    - unfold ret in H. injection H as <- <-. rewrite Hs.
      split; [exact Efi |]. split; [reflexivity |]. split; [reflexivity |].
      exists fi0. split; [reflexivity | now left]. }
  destruct G as (G1 & G2 & G3 & G4). repeat split; try assumption.
  unfold assign, modify. rewrite (list_insert_id _ _ _ G1). now destruct w'.
Qed.

End Guards.

(** * The passes a run has started *)

Ltac silent_leaf :=
  first [ apply added_emit; reflexivity
        | apply added_assign
        | apply added_append
        | apply stable_effect; apply added_blind
        | apply stable_update; apply added_blind ].

Section StartedPasses.

Context {E : Externals}.
Variable self : Config.

(** The outcome of a sequence, whatever it is. *)
Lemma bind_run {S A B} (m : M S A) (k : A -> M S B) s r s' :
  bind m k s = (r, s') ->
  (exists e, m s = (Raise e, s') /\ r = Raise e)
  \/ exists a s1, m s = (Ok a, s1) /\ k a s1 = (r, s').
Proof.
  unfold bind. destruct (m s) as [[a|e] s1]; intros H.
  - right. now exists a, s1.
  - left. exists e. now injection H as <- <-.
Qed.

(** A pass logs its opening message first, and no other such message,
    whatever its outcome. *)
Lemma opening_phase {A} msg (rest : W A) w r w' :
  (forall w0, stable (added quiet w0) rest) ->
  String.prefix Analyxer.phs msg = true ->
  (do* log INFO msg [] in rest) w = (r, w') ->
  phases (events w') = phases (events w) ++ [msg].
Proof.
  intros Hrest Hmsg H. unfold bind in H. rewrite log_run in H.
  pose proof (stable_run _ _ _ _ _ (Hrest _) (added_refl _ _) H) as Ha.
  apply phases_added in Ha. rewrite Ha. cbn [events logged with_events].
  rewrite phases_app. cbn. now rewrite Hmsg.
Qed.

Lemma scan_started w r w' :
  Analyxer.load_files2analyse self w = (r, w') ->
  phases (events w')
  = phases (events w) ++ ["[ALX] <NewModulePhase> Scanning files in path..."].
Proof.
  apply opening_phase; [|reflexivity]. intros w0. stable_tac silent_leaf.
Qed.

Lemma proprietary_started w r w' :
  Analyxer.rename_files_with_proprietary_convention self w = (r, w') ->
  phases (events w')
  = phases (events w)
      ++ ["[ALX] <NewModulePhase> Scanning proprietary date-in-name files to rename..."].
Proof.
  apply opening_phase; [|reflexivity]. intros w0. stable_tac silent_leaf.
Qed.

Lemma integrity_started w r w' :
  Analyxer.analyse_files_date_integrity self w = (r, w') ->
  phases (events w')
  = phases (events w)
      ++ ["[ALX] <NewModulePhase> Checking file-dates integrity..."].
Proof.
  apply opening_phase; [|reflexivity]. intros w0. stable_tac silent_leaf.
Qed.

Lemma edition_started w r w' :
  Analyxer.write_date_to_files_with_edition_kdin self w = (r, w') ->
  phases (events w')
  = phases (events w)
      ++ ["[ALX] <NewModulePhase> Scanning edition-date-in-name files to store..."].
Proof.
  apply opening_phase; [|reflexivity]. intros w0. stable_tac silent_leaf.
Qed.

Lemma consistency_started margin w r w' :
  Analyxer.analyse_files_date_consistency self margin w = (r, w') ->
  phases (events w')
  = phases (events w)
      ++ ["[ALX] <NewModulePhase> Scanning file Metadates and KDIN consistency..."].
Proof.
  apply opening_phase; [|reflexivity]. intros w0. stable_tac silent_leaf.
Qed.

Lemma bounds_started w r w' :
  Analyxer.detect_files_out_of_folder_date_bounds self w = (r, w') ->
  phases (events w')
  = phases (events w)
      ++ ["[ALX] <NewModulePhase> Checking file-dates out of folder-bounds..."].
Proof.
  apply opening_phase; [|reflexivity]. intros w0. stable_tac silent_leaf.
Qed.

(** X23. Whatever the outcome of a run, the passes that were started are
    an initial segment of the six passes, in their order, each started
    once: a pass that raises ends the run, and no later pass is started.
    A run that returns has started all six. *)
Theorem run_starts_passes_in_order margin_secs embedded (w : World) r w' :
  Analyxer.run self margin_secs embedded w = (r, w') ->
  exists k,
    (k <= 6)%nat
    /\ phases (events w') = phases (events w) ++ take k six_phases
    /\ (forall b, r = Ok b -> k = 6%nat)
    /\ ((k < 6)%nat -> exists e, r = Raise e).
Proof.
  intros H. unfold Analyxer.run in H.
  do 8 (let e := fresh "e" in
        let He := fresh "He" in
        let u := fresh "u" in
        let w1 := fresh "w" in
        let Hlog := fresh "Hlog" in
        apply bind_run in H as [(e & He & _) | (u & w1 & Hlog & H)];
        [discriminate He |];
        unfold log, emit, modify in Hlog; injection Hlog as _ <-).
  match type of H with
  | _ ?s = _ =>
      assert (H0 : phases (events s) = phases (events w))
        by (cbn; rewrite !phases_app; cbn; now rewrite !app_nil_r)
  end.
  apply bind_run in H as [(e & H1 & ->) | ([] & w1 & H1 & H)];
    apply scan_started in H1; rewrite H0 in H1.
  { exists 1%nat. split; [lia |]. split; [exact H1 |].
    split; [discriminate | eauto]. }
  apply bind_run in H as [(e & H2 & ->) | (dups & w2 & H2 & H)];
    apply proprietary_started in H2; rewrite H1, <- app_assoc in H2.
  { exists 2%nat. split; [lia |]. split; [exact H2 |].
    split; [discriminate | eauto]. }
  apply bind_run in H as [(e & H3 & ->) | (warns0 & w3 & H3 & H)];
    apply integrity_started in H3; rewrite H2, <- app_assoc in H3.
  { exists 3%nat. split; [lia |]. split; [exact H3 |].
    split; [discriminate | eauto]. }
  apply bind_run in H as [(e & H4 & ->) | (warns1 & w4 & H4 & H)];
    apply edition_started in H4; rewrite H3, <- app_assoc in H4.
  { exists 4%nat. split; [lia |]. split; [exact H4 |].
    split; [discriminate | eauto]. }
  apply bind_run in H as [(e & H5 & ->) | (warns2 & w5 & H5 & H)];
    apply consistency_started in H5; rewrite H4, <- app_assoc in H5.
  { exists 5%nat. split; [lia |]. split; [exact H5 |].
    split; [discriminate | eauto]. }
  apply bind_run in H as [(e & H6 & ->) | (warns3 & w6 & H6 & H)];
    apply bounds_started in H6; rewrite H5, <- app_assoc in H6.
  { exists 6%nat. split; [lia |]. split; [exact H6 |].
    split; [discriminate | lia]. }
  match type of H with
  | ?m w6 = _ =>
      assert (Ha : stable (added quiet w6) m) by stable_tac silent_leaf
  end.
  apply (stable_run _ _ _ _ _ Ha (added_refl _ _)) in H.
  apply phases_added in H. rewrite H6 in H.
  exists 6%nat. split; [lia |]. split; [exact H |]. split; [reflexivity | lia].
Qed.

End StartedPasses.

(** * The log entries of the reports *)

Section LoggedReports.

Context {E : Externals}.
Variable self : Config.

(** A loop that logs one entry for each path has logged them all when it
    returns. *)
Lemma for_each_logged {A} (f : A -> result string) (entry : A -> string -> event)
      (l : list A) w w' :
  for_each (fun _ x => let* rel := lift (f x) in emit (entry x rel)) l tt w
  = (Ok tt, w') ->
  forall x, In x l -> exists rel, f x = Ok rel /\ In (entry x rel) (events w').
Proof.
  intros H.
  eapply (for_each_ok _
            (fun done (_ : unit) s =>
               forall x, In x done ->
                         exists rel, f x = Ok rel /\ In (entry x rel) (events s)));
    [| | exact H]; [now intros x [] |].
  intros done x rest [] s0 [] s1 _ HI Hx.
  apply bind_ok in Hx as (rel & s & Hrel & Hx).
  unfold lift in Hrel. injection Hrel as Hrel <-.
  unfold emit, modify in Hx. injection Hx as <-. cbn.
  intros y Hy. apply in_app_or in Hy as [Hy|[<-|[]]].
  - destruct (HI y Hy) as (r & H1 & H2). exists r. split; [exact H1 |].
    apply in_or_app. now left.
  - exists rel. split; [exact Hrel |]. apply in_or_app. right. now left.
Qed.

(** The same for the block of a report, which is skipped when the list is
    empty and opens with a summary line otherwise. *)
Lemma block_logged {A} (f : A -> result string) (entry : A -> string -> event)
      (header : W unit) (l : list A) w w' :
  match l with
  | [] => ret tt
  | _ => do* header in
         for_each (fun _ x => let* rel := lift (f x) in emit (entry x rel)) l tt
  end w = (Ok tt, w') ->
  forall x, In x l -> exists rel, f x = Ok rel /\ In (entry x rel) (events w').
Proof.
  destruct l as [|a l]; [now intros _ x [] |].
  intros H. apply bind_ok in H as (u & w1 & _ & H).
  destruct u. exact (for_each_logged f entry _ _ _ H).
Qed.

Lemma proprietary_report_logged acc w r w' :
  Analyxer.proprietary_report self acc w = (Ok r, w') ->
  forall p, In p (snd acc) ->
    exists rel,
      str_relative_to p (base_path2scan self) = Ok rel
      /\ In (EvLog WARNING "[ALX] [Duplicated] (%s): %s"
                   [AStr (PathLib.name (kdin_from_proprietary_din p)); AStr rel])
            (events w').
Proof.
  unfold Analyxer.proprietary_report. destruct acc as [files_renamed files_existing].
  intros H. apply bind_ok in H as ([] & w1 & _ & H).
  apply bind_ok in H as ([] & w2 & H & Hret).
  unfold ret in Hret. injection Hret as _ <-. cbn.
  exact (block_logged
           (fun fle => str_relative_to fle (base_path2scan self))
           (fun fle rel =>
              EvLog WARNING "[ALX] [Duplicated] (%s): %s"
                    [AStr (PathLib.name (kdin_from_proprietary_din fle)); AStr rel])
           _ _ _ _ H).
Qed.

Lemma integrity_report_logged acc w r w' :
  Analyxer.integrity_report self acc w = (Ok r, w') ->
  (forall fle, In fle (fst acc) ->
     exists rel,
       str_relative_to (PathLib.parent fle) (base_path2scan self) = Ok rel
       /\ In (EvLog WARNING "[ALX] [DateDamaged] (%s): %s"
                    [AStr (PathLib.name fle); AStr rel]) (events w'))
  /\ (forall p, In p (snd acc) ->
        exists rel,
          str_relative_to p (base_path2scan self) = Ok rel
          /\ In (EvLog WARNING "[ALX] [Date2Review]: %s" [AStr rel]) (events w')).
Proof.
  unfold Analyxer.integrity_report. destruct acc as [files_damaged files_date2review].
  intros H. apply bind_ok in H as ([] & w1 & H1 & H).
  apply bind_ok in H as ([] & w2 & H2 & Hret).
  unfold ret in Hret. injection Hret as _ <-. cbn. split.
  - intros fle Hin.
    destruct (block_logged
                (fun fle => str_relative_to (PathLib.parent fle) (base_path2scan self))
                (fun fle rel =>
                   EvLog WARNING "[ALX] [DateDamaged] (%s): %s"
                         [AStr (PathLib.name fle); AStr rel])
                _ _ _ _ H1 fle Hin) as (rel & Hrel & Hlog).
    exists rel. split; [exact Hrel |].
    eapply In_prefix; [|exact Hlog].
    eapply (added_run (fun _ => True)); [|exact H2]. stable_tac added_leaf.
  - exact (block_logged
             (fun fle => str_relative_to fle (base_path2scan self))
             (fun fle rel => EvLog WARNING "[ALX] [Date2Review]: %s" [AStr rel])
             _ _ _ _ H2).
Qed.

Lemma edition_report_logged folder acc w r w' :
  Analyxer.edition_report self folder acc w = (Ok r, w') ->
  (forall p, In p (snd acc) ->
     exists rel,
       str_relative_to p (base_path2scan self) = Ok rel
       /\ In (EvLog INFO "[ALX] [EdinRenamed]: %s" [AStr rel]) (events w'))
  /\ (forall p, In p (fst acc) ->
        exists rel,
          str_relative_to p (base_path2scan self) = Ok rel
          /\ In (EvLog INFO "[ALX] [Edin2Metadt]: %s" [AStr rel]) (events w')).
Proof.
  unfold Analyxer.edition_report. destruct acc as [meta_edited files_din_renamed].
  intros H. apply bind_ok in H as ([] & w1 & H1 & H).
  apply bind_ok in H as ([] & w2 & H2 & Hret).
  unfold ret in Hret. injection Hret as _ <-. cbn. split.
  - intros p Hin.
    destruct (block_logged
                (fun fle => str_relative_to fle (base_path2scan self))
                (fun fle rel => EvLog INFO "[ALX] [EdinRenamed]: %s" [AStr rel])
                _ _ _ _ H1 p Hin) as (rel & Hrel & Hlog).
    exists rel. split; [exact Hrel |].
    eapply In_prefix; [|exact Hlog].
    eapply (added_run (fun _ => True)); [|exact H2]. stable_tac added_leaf.
  - intros p Hin. destruct meta_edited as [|a l]; [destruct Hin |].
    apply bind_ok in H2 as (u & wa & _ & H2).
    apply bind_ok in H2 as (u' & wb & _ & H2).
    exact (for_each_logged
             (fun fle => str_relative_to fle (base_path2scan self))
             (fun fle rel => EvLog INFO "[ALX] [Edin2Metadt]: %s" [AStr rel])
             _ _ _ H2 p Hin).
Qed.

(** X24. Every path in the report a pass returns has its log entry, with
    the level and the tag of its kind, and is given there relative to the
    base path: a duplicate of the proprietary-rename pass under
    [Duplicated] with the canonical name it could not take; a path of the
    date-integrity pass under [Date2Review], or under [DateDamaged] as the
    name and the parent of the path joined with the damaged date; a path of
    the edit-date migration pass under [EdinRenamed] or [Edin2Metadt].  So a
    pass that returns has only reported paths below the base path. *)
Theorem reported_paths_are_logged (w : World) report w' :
  (Analyxer.rename_files_with_proprietary_convention self w = (Ok report, w') ->
   forall p, In p report ->
     exists rel,
       str_relative_to p (base_path2scan self) = Ok rel
       /\ In (EvLog WARNING "[ALX] [Duplicated] (%s): %s"
                    [AStr (PathLib.name (kdin_from_proprietary_din p)); AStr rel])
             (events w'))
  /\ (Analyxer.analyse_files_date_integrity self w = (Ok report, w') ->
      forall p, In p report ->
        (exists rel,
            str_relative_to p (base_path2scan self) = Ok rel
            /\ In (EvLog WARNING "[ALX] [Date2Review]: %s" [AStr rel]) (events w'))
        \/ exists fle rel,
            p = PathLib.parent fle
            /\ str_relative_to p (base_path2scan self) = Ok rel
            /\ In (EvLog WARNING "[ALX] [DateDamaged] (%s): %s"
                         [AStr (PathLib.name fle); AStr rel]) (events w'))
  /\ (Analyxer.write_date_to_files_with_edition_kdin self w = (Ok report, w') ->
      forall p, In p report ->
        exists rel,
          str_relative_to p (base_path2scan self) = Ok rel
          /\ (In (EvLog INFO "[ALX] [EdinRenamed]: %s" [AStr rel]) (events w')
              \/ In (EvLog INFO "[ALX] [Edin2Metadt]: %s" [AStr rel]) (events w'))).
Proof.
  split; [|split]; intros H.
  - unfold Analyxer.rename_files_with_proprietary_convention in H.
    apply bind_ok in H as (u & w0 & _ & H).
    apply bind_ok in H as (acc & wl & _ & Hrep).
    pose proof (proprietary_report_ok self _ _ _ _ Hrep) as (-> & _).
    exact (proprietary_report_logged _ _ _ _ Hrep).
  - unfold Analyxer.analyse_files_date_integrity in H.
    apply bind_ok in H as (u & w0 & _ & H).
    apply bind_ok in H as (acc & wl & _ & Hrep).
    pose proof (integrity_report_ok self _ _ _ _ Hrep) as (-> & _).
    destruct (integrity_report_logged _ _ _ _ Hrep) as [Hd Hr].
    intros p Hp. apply in_app_or in Hp as [Hp|Hp].
    + right. apply in_map_iff in Hp as (fle & <- & Hfle).
      destruct (Hd fle Hfle) as (rel & Hrel & Hlog). now exists fle, rel.
    + left. now apply Hr.
  - unfold Analyxer.write_date_to_files_with_edition_kdin in H.
    apply bind_ok in H as (u & w0 & _ & H).
    apply bind_ok in H as (folder & w1 & _ & H).
    apply bind_ok in H as (acc & wl & _ & Hrep).
    pose proof (edition_report_ok self _ _ _ _ _ Hrep) as (-> & _).
    destruct (edition_report_logged _ _ _ _ _ Hrep) as [Hr He].
    intros p Hp. apply in_app_or in Hp as [Hp|Hp].
    + destruct (Hr p Hp) as (rel & Hrel & Hlog). exists rel. split; [exact Hrel | now left].
    + destruct (He p Hp) as (rel & Hrel & Hlog). exists rel. split; [exact Hrel | now right].
Qed.

End LoggedReports.

(** * The further properties on examples *)

Section FurtherExamples.

#[local] Existing Instance Demo.collaborators.

Import Demo.


(** A world in which the first file of [drift_tree] is loaded. *)
Definition loaded : World :=
  snd (MetaManagerM.load_file (photo "KDIN 20200101-100000 a.jpg")
                              (world drift_tree)).

Lemma has_valid_date_original_in_bounds_witness :
  exists d,
    MetaManagerM.get_date_original loaded = (Ok d, loaded)
    /\ (fst (_year_bounds (metadata_editor loaded)) <= year d)%nat
    /\ (year d <= snd (_year_bounds (metadata_editor loaded)))%nat.
Proof.
  apply (proj1 (proj2 (has_valid_date_original_in_bounds loaded))).
  vm_compute. reflexivity.
Defined.

Lemma pilexif_only_scan_never_calls_exiftool_witness :
  _pilonly (metadata_editor
              (snd (Analyxer.load_files2analyse config (world skip_tree))))
  = true.
Proof.
  assert (H : _pilonly (metadata_editor (world skip_tree)) = true)
    by (vm_compute; reflexivity).
  exact (proj1 (proj1 (pilexif_only_scan_never_calls_exiftool
                         config (world skip_tree) H))).
Defined.

(** A world in which the editable file of [edit_tree] is loaded. *)
Definition loaded_editable : World :=
  snd (MetaManagerM.load_file (photo "EKDIN 20210304-000000 b.jpg")
                              (world edit_tree)).

Lemma set_date_then_save_same_backend_witness :
  exists loads,
    events (snd (MetaManagerM.save_file
                   true
                   (snd (MetaManagerM.set_date_original (at_ 2021 3 4 0 0 0)
                                                        loaded_editable))))
    = events loaded_editable ++ loads
        ++ [EvSetDate PILLOW (at_ 2021 3 4 0 0 0); EvSave PILLOW true;
            EvSave PILLOW true].
Proof.
  assert (H1 : fst (MetaManagerM.set_date_original (at_ 2021 3 4 0 0 0)
                                                   loaded_editable)
               = Ok tt) by (vm_compute; reflexivity).
  assert (H2 : fst (MetaManagerM.save_file
                      true
                      (snd (MetaManagerM.set_date_original (at_ 2021 3 4 0 0 0)
                                                           loaded_editable)))
               = Ok tt) by (vm_compute; reflexivity).
  assert (Hb : _load_id
                 (metadata_editor
                    (snd (MetaManagerM.save_file
                            true
                            (snd (MetaManagerM.set_date_original
                                    (at_ 2021 3 4 0 0 0) loaded_editable)))))
               = PILLOW) by (vm_compute; reflexivity).
  destruct (set_date_then_save_same_backend
              (at_ 2021 3 4 0 0 0) true loaded_editable _ _
              (pair_of_fst _ _ H1) (pair_of_fst _ _ H2)) as (loads & Hev & _).
  exists loads. rewrite Hb in Hev. exact Hev.
Defined.

Lemma damaged_date_same_manager_witness :
  exists tmp d,
    MetaManagerM.tmp_get_date_original tmp = Ok d
    /\ year d = 1%nat
    /\ MetaManagerM.get_file_damaged_date (photo "dmg.jpg") (world review_tree)
       = (MetaManagerM.tmp_get_date_original_as_str tmp, world review_tree).
Proof.
  assert (H : MetaManagerM.has_damaged_date
                (_pilonly (metadata_editor (world review_tree)))
                (photo "dmg.jpg") (outside (world review_tree))
              = Ok true) by (vm_compute; reflexivity).
  apply (proj1 (damaged_date_same_manager (photo "dmg.jpg") (world review_tree))).
  unfold MetaManagerM.file_has_damaged_date, query. rewrite H. reflexivity.
Defined.


Lemma passes_idle_without_trigger_witness :
  exists msg,
    Analyxer.rename_files_with_proprietary_convention
      config (scanned config drift_tree)
    = (Ok [], logged [EvLog INFO msg []] (scanned config drift_tree)).
Proof.
  apply (proj1 (passes_idle_without_trigger config (scanned config drift_tree))).
  vm_compute. repeat constructor.
Defined.

Lemma edition_pass_idempotent_witness :
  exists msg,
    Analyxer.write_date_to_files_with_edition_kdin
      config
      (snd (Analyxer.write_date_to_files_with_edition_kdin
              config (scanned config edit_tree)))
    = (Ok [],
       logged [EvLog INFO msg []]
              (snd (Analyxer.write_date_to_files_with_edition_kdin
                      config (scanned config edit_tree)))).
Proof.
  assert (H : fst (Analyxer.write_date_to_files_with_edition_kdin
                     config (scanned config edit_tree))
              = Ok [photo "KDIN 20210304-000000 c.png"; photo "b.jpg"])
    by (vm_compute; reflexivity).
  exact (edition_pass_idempotent config (scanned config edit_tree) _ _
                                 (pair_of_fst _ _ H)).
Defined.

Lemma run_on_empty_listing_witness :
  exists logs,
    Forall is_log logs
    /\ phases logs = six_phases
    /\ Analyxer.run config default_margin_secs true (world [])
       = (Ok false, logged logs (world [])).
Proof.
  apply (proj1 (run_on_empty_listing config default_margin_secs (world [])
                                     eq_refl eq_refl)).
Defined.

Lemma report_lengths_witness :
  length [photo "dmg.jpg"; photo "KDIN 20220505-120000 TR plain.jpg"]
  = length (List.filter (fun fi => negb (has_evidence fi))
                        (files2analyse (scanned config review_tree))).
Proof.
  assert (H : fst (Analyxer.analyse_files_date_integrity
                     config (scanned config review_tree))
              = Ok [photo "dmg.jpg"; photo "KDIN 20220505-120000 TR plain.jpg"])
    by (vm_compute; reflexivity).
  exact (proj1 (report_lengths config (scanned config review_tree) _ _)
               (pair_of_fst _ _ H)).
Defined.

Definition read_only_record : FileInfo :=
  FileInfoM.new false true false false true false
                (photo "EKDIN 20210304-000000 c.png").

Lemma edition_pass_renames_read_only_files_witness :
  exists new_rnme,
    files2analyse
      (snd (Analyxer.write_date_to_files_with_edition_kdin
              config (scanned config edit_tree))) !! 1%nat
    = Some (demoted new_rnme read_only_record)
    /\ In new_rnme [photo "KDIN 20210304-000000 c.png"; photo "b.jpg"].
Proof.
  assert (H : fst (Analyxer.write_date_to_files_with_edition_kdin
                     config (scanned config edit_tree))
              = Ok [photo "KDIN 20210304-000000 c.png"; photo "b.jpg"])
    by (vm_compute; reflexivity).
  assert (Hfi : files2analyse (scanned config edit_tree) !! 1%nat
                = Some read_only_record) by (vm_compute; reflexivity).
  destruct (proj2 (edition_pass_renames_read_only_files
                     config (scanned config edit_tree) _ _ 1%nat read_only_record
                     (pair_of_fst _ _ H) Hfi) eq_refl eq_refl)
    as (wi & wi' & _ & _ & _ & _ & _ & Hrec & Hin).
  eexists. split; [exact Hrec | exact Hin].
Defined.

(** A record for a file that is not on disk. *)
Definition ghost : FileInfo :=
  FileInfoM.new false false false false false false (photo "ghost.jpg").

Lemma renaming_steps_atomic_witness :
  files2analyse (snd (Analyxer.integrity_step ([], []) 0 ghost (world [])))
  = files2analyse (world []).
Proof.
  assert (H : fst (Analyxer.integrity_step ([], []) 0 ghost (world []))
              = Raise OSError) by (vm_compute; reflexivity).
  exact (proj1 (proj2 (renaming_steps_atomic config ([], []) 0%nat ghost
                                             (world []) _ OSError))
               (pair_of_fst _ _ H)).
Defined.

Lemma edition_step_backup_first_witness :
  exists calls,
    events (snd (Analyxer.edition_step
                   config ["home"; "logs"; "originals"] ["home"; "logs"; "edited"]
                   ([], []) 0 edit_record (scanned config edit_tree)))
    = events (scanned config edit_tree) ++ calls.
Proof.
  destruct (edition_step_backup_first
              config ["home"; "logs"; "originals"] ["home"; "logs"; "edited"]
              ([], []) 0%nat edit_record (scanned config edit_tree) _ _
              eq_refl eq_refl (surjective_pairing _))
    as (calls & Hev & _).
  exists calls. exact Hev.
Defined.

Definition drifted_record : FileInfo :=
  FileInfoM.with_date (at_ 2020 1 1 10 2 0)
    (FileInfoM.new true false false true true true
                   (photo "KDIN 20200101-100000 a.jpg")).

Lemma reported_dates_well_formed_witness :
  PathLib.name (discrepance config drifted_record)
  = DateTime.str (get_file_kdin (abs_path drifted_record) (year_bounds config))
  /\ PathLib.parent (discrepance config drifted_record) = abs_path drifted_record.
Proof.
  exact (proj2 (proj2 (proj2 (reported_dates_well_formed config drifted_record)))
               FromKDIN _ eq_refl).
Defined.




Definition vendor_record : FileInfo :=
  FileInfoM.new false false true false true true
                (photo "IMG_20210101-100000 e.jpg").

Lemma update_proprietary_din_in_place_witness :
  files2analyse
    (snd (PropInfo.update_proprietary_din 2 PropInfo.default_year_bounds
                                          (scanned config vendor_tree))) !! 2%nat
  = Some (renamed_to (photo "KDIN 20210101-100000 e.jpg") vendor_record).
Proof.
  assert (H : fst (PropInfo.update_proprietary_din
                     2 PropInfo.default_year_bounds (scanned config vendor_tree))
              = Ok (renamed_to (photo "KDIN 20210101-100000 e.jpg") vendor_record))
    by (vm_compute; reflexivity).
  exact (proj1 (update_proprietary_din_in_place
                  2%nat PropInfo.default_year_bounds (scanned config vendor_tree)
                  _ _ (pair_of_fst _ _ H))).
Defined.

Lemma run_starts_passes_in_order_witness :
  exists k,
    (k <= 6)%nat
    /\ phases (events (snd (Analyxer.run config default_margin_secs true
                                         (world taken_tree))))
       = phases (events (world taken_tree)) ++ take k six_phases.
Proof.
  destruct (run_starts_passes_in_order
              config default_margin_secs true (world taken_tree) _ _
              (surjective_pairing _)) as (k & Hk & Hp & _).
  exists k. split; [exact Hk | exact Hp].
Defined.

Lemma reported_paths_are_logged_witness :
  exists rel,
    str_relative_to (photo "IMG_20200101-100000 d.jpg") (base_path2scan config)
    = Ok rel
    /\ In (EvLog WARNING "[ALX] [Duplicated] (%s): %s"
                 [AStr (PathLib.name
                          (kdin_from_proprietary_din
                             (photo "IMG_20200101-100000 d.jpg")));
                  AStr rel])
          (events (snd (Analyxer.rename_files_with_proprietary_convention
                          config (scanned config vendor_tree)))).
Proof.
  assert (H : fst (Analyxer.rename_files_with_proprietary_convention
                     config (scanned config vendor_tree))
              = Ok [photo "IMG_20200101-100000 d.jpg"])
    by (vm_compute; reflexivity).
  exact (proj1 (reported_paths_are_logged config (scanned config vendor_tree) _ _)
               (pair_of_fst _ _ H) _ (or_introl eq_refl)).
Defined.

End FurtherExamples.
